(** * CloudVault: the files and notes synchronisation contexts

    A shallow embedding of [src/contexts/FileContext.tsx],
    [src/contexts/NotesContext.tsx] and the submit path of
    [components/NoteEditor.tsx].

    React state ([useState]) is a record that every handler reads and
    returns; the remote services (Firestore, Cloud Storage) and the client
    clock form a [World] that is threaded through a state-and-error monad
    [M].  A rejected promise is the [Rejected] outcome of [M]. Console
    logging has no effect on either state and is left out. *)

From Stdlib Require Import ZArith.
From stdpp Require Import base strings gmap list pretty sorting.

Local Open Scope list_scope.

(** ** JavaScript values shared by both contexts *)

(** [Timestamp] of firebase/firestore, observed only through [toMillis]. *)
Record Timestamp := mkTimestamp { toMillis : Z }.

(** The part of firebase/auth's [User] the contexts read. *)
Record User := mkUser { uid : string }.

#[global] Instance User_eq_dec : EqDecision User.
Proof. solve_decision. Defined.

(** Truthiness of a [string | null | undefined] value: absent and the empty
    string are falsy. *)
Definition truthy (v : option string) : bool :=
  match v with
  | Some s => negb (String.eqb s EmptyString)
  | None => false
  end.

(** [a || b] on such values. *)
Definition js_or (a b : option string) : option string :=
  if truthy a then a else b.

(** [a || null]. *)
Definition or_null (a : option string) : option string :=
  if truthy a then a else None.

(** Text is held as its UTF-8 bytes.  The white space and line terminator
    characters of ECMAScript that take one byte: U+0009 to U+000D and
    U+0020. *)
Definition is_space (c : Ascii.ascii) : bool :=
  match Ascii.nat_of_ascii c with
  | 9 | 10 | 11 | 12 | 13 | 32 => true
  | _ => false
  end.

(** ... two bytes: U+00A0 (C2 A0). *)
Definition is_space2 (a b : Ascii.ascii) : bool :=
  (Ascii.N_of_ascii a =? 194)%N && (Ascii.N_of_ascii b =? 160)%N.

(** ... three bytes: U+1680 (E1 9A 80), U+2000 to U+200A (E2 80 80 to
    E2 80 8A), U+2028, U+2029, U+202F (E2 80 A8, A9, AF), U+205F
    (E2 81 9F), U+3000 (E3 80 80) and U+FEFF (EF BB BF). *)
Definition is_space3 (a b c : Ascii.ascii) : bool :=
  let a := Ascii.N_of_ascii a in
  let b := Ascii.N_of_ascii b in
  let c := Ascii.N_of_ascii c in
  ((a =? 225) && (b =? 154) && (c =? 128))%N
  || ((a =? 226) && (b =? 128)
      && (((128 <=? c) && (c <=? 138)) || (c =? 168) || (c =? 169)
          || (c =? 175)))%N
  || ((a =? 226) && (b =? 129) && (c =? 159))%N
  || ((a =? 227) && (b =? 128) && (c =? 128))%N
  || ((a =? 239) && (b =? 187) && (c =? 191))%N.

(** [String.prototype.trimStart]. *)
Fixpoint trimStart (s : string) : string :=
  match s with
  | EmptyString => EmptyString
  | String a s1 =>
      if is_space a then trimStart s1
      else
        match s1 with
        | EmptyString => s
        | String b s2 =>
            if is_space2 a b then trimStart s2
            else
              match s2 with
              | EmptyString => s
              | String c s3 => if is_space3 a b c then trimStart s3 else s
              end
        end
  end.

(** [String.prototype.trimEnd] on the reversed bytes of a text: the last
    byte comes first, so a character's bytes are met in reverse. *)
Fixpoint trimEndRev (s : string) : string :=
  match s with
  | EmptyString => EmptyString
  | String a s1 =>
      if is_space a then trimEndRev s1
      else
        match s1 with
        | EmptyString => s
        | String b s2 =>
            if is_space2 b a then trimEndRev s2
            else
              match s2 with
              | EmptyString => s
              | String c s3 => if is_space3 c b a then trimEndRev s3 else s
              end
        end
  end.

(** [String.prototype.trim]. *)
Definition trim (s : string) : string :=
  String.rev (trimEndRev (String.rev (trimStart s))).

(** Stable insertion sort by a boolean "may stay in front" test. *)
Fixpoint insert_by {A} (leb : A → A → bool) (x : A) (l : list A) : list A :=
  match l with
  | [] => [x]
  | y :: l' => if leb x y then x :: y :: l' else y :: insert_by leb x l'
  end.

Definition sort_by {A} (leb : A → A → bool) (l : list A) : list A :=
  foldr (insert_by leb) [] l.

(** [Array.prototype.sort(compareFn)]: a stable sort in which [a] stays in
    front of a later [b] unless [compareFn(a, b) > 0]. *)
Definition Array_sort {A} (compareFn : A → A → Z) (l : list A) : list A :=
  sort_by (λ a b, (compareFn a b <=? 0)%Z) l.

(** [Array.prototype.find]. *)
Definition Array_find {A} (p : A → bool) (l : list A) : option A :=
  List.find p l.

(** ** Data model of [FileContext.tsx] *)

Module Files.

Inductive FileType := document | image | video | folder.

Definition type_string (t : FileType) : string :=
  match t with
  | document => "document"
  | image => "image"
  | video => "video"
  | folder => "folder"
  end.

(** What [doc.data()] holds for a document of the [files] collection:
    the fields of [FileItem] other than [id]. *)
Record FileData := mkFileData {
  name : string;
  type : FileType;
  url : option string;
  content : option string;
  createdAt : Timestamp;
  updatedAt : Timestamp;
  userId : string;
  parentId : option string;
  size : option Z;
  isStarred : bool;
  isShared : bool;
  sharedWith : option (list string);
  thumbnailUrl : option string
}.

(** [interface FileItem]: [{ id: doc.id, ...doc.data() }]. *)
Record FileItem := mkFileItem { id : string; data :> FileData }.

(** One key of the object handed to [updateDoc]. *)
Inductive FileField :=
| set_content (v : string)
| set_updatedAt (v : Timestamp)
| set_isStarred (v : bool)
| set_isShared (v : bool)
| set_sharedWith (v : list string).

Definition field_key (u : FileField) : string :=
  match u with
  | set_content _ => "content"
  | set_updatedAt _ => "updatedAt"
  | set_isStarred _ => "isStarred"
  | set_isShared _ => "isShared"
  | set_sharedWith _ => "sharedWith"
  end.

Definition write_field (u : FileField) (d : FileData) : FileData :=
  match u with
  | set_content v =>
      mkFileData (name d) (type d) (url d) (Some v) (createdAt d)
        (updatedAt d) (userId d) (parentId d) (size d) (isStarred d)
        (isShared d) (sharedWith d) (thumbnailUrl d)
  | set_updatedAt v =>
      mkFileData (name d) (type d) (url d) (content d) (createdAt d)
        v (userId d) (parentId d) (size d) (isStarred d)
        (isShared d) (sharedWith d) (thumbnailUrl d)
  | set_isStarred v =>
      mkFileData (name d) (type d) (url d) (content d) (createdAt d)
        (updatedAt d) (userId d) (parentId d) (size d) v
        (isShared d) (sharedWith d) (thumbnailUrl d)
  | set_isShared v =>
      mkFileData (name d) (type d) (url d) (content d) (createdAt d)
        (updatedAt d) (userId d) (parentId d) (size d) (isStarred d)
        v (sharedWith d) (thumbnailUrl d)
  | set_sharedWith v =>
      mkFileData (name d) (type d) (url d) (content d) (createdAt d)
        (updatedAt d) (userId d) (parentId d) (size d) (isStarred d)
        (isShared d) (Some v) (thumbnailUrl d)
  end.

(** The browser's [File] object handed to [uploadFile]. *)
Record File := mkFile {
  file_name : string;
  file_type : string;
  file_size : Z;
  file_bytes : string
}.

(** An entry of the breadcrumb trail, [{ id, name }]. *)
Record Breadcrumb := mkBreadcrumb { crumb_id : string; crumb_name : string }.

End Files.

(** ** Data model of [NotesContext.tsx] *)

Module Notes.

Module Item.
(** [interface ChecklistItem]. *)
Record ChecklistItem := mkChecklistItem {
  id : string;
  text : string;
  isCompleted : bool
}.
End Item.
Export Item (ChecklistItem, mkChecklistItem).

Inductive ViewMode := grid | list_view.

(** What [doc.data()] holds for a document of the [notes] collection:
    the fields of [Note] other than [id]. *)
Record NoteData := mkNoteData {
  title : string;
  content : string;
  createdAt : Timestamp;
  updatedAt : Timestamp;
  userId : string;
  color : string;
  labels : list string;
  isPinned : bool;
  aiSummary : option string;
  aiSuggestions : option (list string);
  viewMode : ViewMode;
  checklistItems : list ChecklistItem
}.

(** [interface Note]: [{ id: doc.id, ...doc.data() }]. *)
Record Note := mkNote { id : string; data :> NoteData }.

(** One key of the object handed to [updateDoc]; every field of a note
    document can be addressed. *)
Inductive NoteField :=
| set_title (v : string)
| set_content (v : string)
| set_createdAt (v : Timestamp)
| set_updatedAt (v : Timestamp)
| set_userId (v : string)
| set_color (v : string)
| set_labels (v : list string)
| set_isPinned (v : bool)
| set_aiSummary (v : string)
| set_aiSuggestions (v : list string)
| set_viewMode (v : ViewMode)
| set_checklistItems (v : list ChecklistItem).

Definition field_key (u : NoteField) : string :=
  match u with
  | set_title _ => "title"
  | set_content _ => "content"
  | set_createdAt _ => "createdAt"
  | set_updatedAt _ => "updatedAt"
  | set_userId _ => "userId"
  | set_color _ => "color"
  | set_labels _ => "labels"
  | set_isPinned _ => "isPinned"
  | set_aiSummary _ => "aiSummary"
  | set_aiSuggestions _ => "aiSuggestions"
  | set_viewMode _ => "viewMode"
  | set_checklistItems _ => "checklistItems"
  end.

Definition write_field (u : NoteField) (d : NoteData) : NoteData :=
  match u with
  | set_title v =>
      mkNoteData v (content d) (createdAt d) (updatedAt d) (userId d)
        (color d) (labels d) (isPinned d) (aiSummary d) (aiSuggestions d)
        (viewMode d) (checklistItems d)
  | set_content v =>
      mkNoteData (title d) v (createdAt d) (updatedAt d) (userId d)
        (color d) (labels d) (isPinned d) (aiSummary d) (aiSuggestions d)
        (viewMode d) (checklistItems d)
  | set_createdAt v =>
      mkNoteData (title d) (content d) v (updatedAt d) (userId d)
        (color d) (labels d) (isPinned d) (aiSummary d) (aiSuggestions d)
        (viewMode d) (checklistItems d)
  | set_updatedAt v =>
      mkNoteData (title d) (content d) (createdAt d) v (userId d)
        (color d) (labels d) (isPinned d) (aiSummary d) (aiSuggestions d)
        (viewMode d) (checklistItems d)
  | set_userId v =>
      mkNoteData (title d) (content d) (createdAt d) (updatedAt d) v
        (color d) (labels d) (isPinned d) (aiSummary d) (aiSuggestions d)
        (viewMode d) (checklistItems d)
  | set_color v =>
      mkNoteData (title d) (content d) (createdAt d) (updatedAt d) (userId d)
        v (labels d) (isPinned d) (aiSummary d) (aiSuggestions d)
        (viewMode d) (checklistItems d)
  | set_labels v =>
      mkNoteData (title d) (content d) (createdAt d) (updatedAt d) (userId d)
        (color d) v (isPinned d) (aiSummary d) (aiSuggestions d)
        (viewMode d) (checklistItems d)
  | set_isPinned v =>
      mkNoteData (title d) (content d) (createdAt d) (updatedAt d) (userId d)
        (color d) (labels d) v (aiSummary d) (aiSuggestions d)
        (viewMode d) (checklistItems d)
  | set_aiSummary v =>
      mkNoteData (title d) (content d) (createdAt d) (updatedAt d) (userId d)
        (color d) (labels d) (isPinned d) (Some v) (aiSuggestions d)
        (viewMode d) (checklistItems d)
  | set_aiSuggestions v =>
      mkNoteData (title d) (content d) (createdAt d) (updatedAt d) (userId d)
        (color d) (labels d) (isPinned d) (aiSummary d) (Some v)
        (viewMode d) (checklistItems d)
  | set_viewMode v =>
      mkNoteData (title d) (content d) (createdAt d) (updatedAt d) (userId d)
        (color d) (labels d) (isPinned d) (aiSummary d) (aiSuggestions d)
        v (checklistItems d)
  | set_checklistItems v =>
      mkNoteData (title d) (content d) (createdAt d) (updatedAt d) (userId d)
        (color d) (labels d) (isPinned d) (aiSummary d) (aiSuggestions d)
        (viewMode d) v
  end.

End Notes.

(** ** The remote services and the promise monad *)

Module Firebase.

(** An error raised by a remote service. *)
Inductive Error := FirebaseError (code : string).

(** How a promise settles. *)
Inductive Result (A : Type) :=
| Resolved (a : A)
| Rejected (e : Error).
Arguments Resolved {A} a.
Arguments Rejected {A} e.

(** A request sent to a remote service. *)
Inductive Call :=
| call_uploadBytes (path : string)
| call_getDownloadURL (path : string)
| call_addDoc (coll : string)
| call_updateDoc (coll id : string) (keys : list string)
| call_deleteDoc (coll id : string).

(** Everything outside the React tree.  [faults] scripts the outcome of
    the remote calls to come: each call consumes the head, [Some e] makes
    that call fail with [e] and have no effect, [None] (or an exhausted
    script) lets it through.  [calls] records every call attempted, most
    recent first. *)
Record World := mkWorld {
  files_docs : gmap string Files.FileData;
  notes_docs : gmap string Notes.NoteData;
  objects : gmap string Files.File;
  clock : Z;
  faults : list (option Error);
  calls : list Call
}.

Definition with_files_docs (m : gmap string Files.FileData) (w : World) :=
  mkWorld m (notes_docs w) (objects w) (clock w) (faults w) (calls w).
Definition with_notes_docs (m : gmap string Notes.NoteData) (w : World) :=
  mkWorld (files_docs w) m (objects w) (clock w) (faults w) (calls w).
Definition with_objects (m : gmap string Files.File) (w : World) :=
  mkWorld (files_docs w) (notes_docs w) m (clock w) (faults w) (calls w).
Definition with_faults (fs : list (option Error)) (w : World) :=
  mkWorld (files_docs w) (notes_docs w) (objects w) (clock w) fs (calls w).
Definition with_calls (cs : list Call) (w : World) :=
  mkWorld (files_docs w) (notes_docs w) (objects w) (clock w) (faults w) cs.

(** An asynchronous computation: it settles and leaves a world behind. *)
Definition M (A : Type) : Type := World → Result A * World.

#[export] Instance M_ret : MRet M := λ A a w, (Resolved a, w).

#[export] Instance M_bind : MBind M := λ A B k m w,
  match m w with
  | (Resolved a, w') => k a w'
  | (Rejected e, w') => (Rejected e, w')
  end.

(** [throw e]. *)
Definition throw {A} (e : Error) : M A := λ w, (Rejected e, w).

(** [try { m } catch (error) { h error }]. *)
Definition try_catch {A} (m : M A) (h : Error → M A) : M A := λ w,
  match m w with
  | (Resolved a, w') => (Resolved a, w')
  | (Rejected e, w') => h e w'
  end.

(** Sending [c]: the call is recorded, then the fault script decides
    whether the service runs [body]. *)
Definition remote {A} (c : Call) (body : M A) : M A := λ w,
  let w1 := with_calls (c :: calls w) w in
  match faults w with
  | Some e :: fs => (Rejected e, with_faults fs w1)
  | None :: fs => body (with_faults fs w1)
  | [] => body w1
  end.

(** [Date.now()]. *)
Definition Date_now : M Z := λ w, (Resolved (clock w), w).

(** [Timestamp.now()]. *)
Definition Timestamp_now : M Timestamp :=
  λ w, (Resolved (mkTimestamp (clock w)), w).

(** [collection(db, name)] as a typed view on the world: where the
    documents live, and how one key of an update object is written. *)
Record Collection (D U : Type) := mkCollection {
  coll_name : string;
  coll_docs : World → gmap string D;
  coll_put : gmap string D → World → World;
  coll_write : U → D → D;
  coll_key : U → string
}.
Arguments coll_name {D U} c.
Arguments coll_docs {D U} c w.
Arguments coll_put {D U} c m w.
Arguments coll_write {D U} c u d.
Arguments coll_key {D U} c u.

(** [collection(db, 'files')]. *)
Definition filesCollection : Collection Files.FileData Files.FileField :=
  mkCollection _ _ "files" files_docs with_files_docs
    Files.write_field Files.field_key.

(** [collection(db, 'notes')]. *)
Definition notesCollection : Collection Notes.NoteData Notes.NoteField :=
  mkCollection _ _ "notes" notes_docs with_notes_docs
    Notes.write_field Notes.field_key.

(** The document after the keys of an update object are written, in
    order. *)
Definition write_fields {D U} (c : Collection D U) (upd : list U) (d : D) : D :=
  foldl (λ acc u, coll_write c u acc) d upd.

(** [addDoc(collection, data)]: the store picks an id that no document of
    the collection has and returns it. *)
Definition addDoc {D U} (c : Collection D U) (d : D) : M string :=
  remote (call_addDoc (coll_name c)) (λ w,
    let i := fresh (dom (coll_docs c w)) in
    (Resolved i, coll_put c (<[i := d]> (coll_docs c w)) w)).

(** [updateDoc(doc(db, name, id), upd)]: fails when the document does not
    exist, else overwrites the listed keys and keeps every other field. *)
Definition updateDoc {D U} (c : Collection D U) (i : string) (upd : list U)
    : M unit :=
  remote (call_updateDoc (coll_name c) i (coll_key c <$> upd)) (λ w,
    match coll_docs c w !! i with
    | Some d =>
        (Resolved (), coll_put c (<[i := write_fields c upd d]> (coll_docs c w)) w)
    | None => (Rejected (FirebaseError "not-found"), w)
    end).

(** [deleteDoc(doc(db, name, id))]. *)
Definition deleteDoc {D U} (c : Collection D U) (i : string) : M unit :=
  remote (call_deleteDoc (coll_name c) i) (λ w,
    (Resolved (), coll_put c (delete i (coll_docs c w)) w)).

(** [uploadBytes(ref(storage, path), file)]. *)
Definition uploadBytes (path : string) (file : Files.File) : M unit :=
  remote (call_uploadBytes path) (λ w,
    (Resolved (), with_objects (<[path := file]> (objects w)) w)).

(** The text of a download URL is chosen by Cloud Storage; the contexts
    only store it.  It is taken here to be a fixed function of the path. *)
Definition downloadURL (path : string) : string :=
  "https://firebasestorage.googleapis.com/v0/b/bucket/o/" +:+ path.

(** [getDownloadURL(ref(storage, path))]. *)
Definition getDownloadURL (path : string) : M string :=
  remote (call_getDownloadURL path) (λ w,
    match objects w !! path with
    | Some _ => (Resolved (downloadURL path), w)
    | None => (Rejected (FirebaseError "storage/object-not-found"), w)
    end).

(** [deleteObject(ref(storage, path))]: fails when there is no object at
    the path.  [Call] has no entry for this request; it is observed through
    the fault script and [objects]. *)
Definition deleteObject (path : string) : M unit := λ w,
  let body (w1 : World) : Result unit * World :=
    match objects w1 !! path with
    | Some _ => (Resolved (), with_objects (delete path (objects w1)) w1)
    | None => (Rejected (FirebaseError "storage/object-not-found"), w1)
    end in
  match faults w with
  | Some e :: fs => (Rejected e, with_faults fs w)
  | None :: fs => body (with_faults fs w)
  | [] => body w
  end.

End Firebase.

(** ** [FileContext.tsx]: the [FileProvider] component *)

Module FileContext.
Import Files Firebase.

(** The live query of the subscription effect:
    [where('userId', '==', uid), where('parentId', '==', folder)],
    ordered by [type], then [name]. *)
Record Query := mkQuery { q_userId : string; q_parentId : option string }.

(** The provider's [useState] cells, the [currentUser] it reads from
    [useAuth], and the live query its effect holds open, if any. *)
Record State := mkState {
  files : list FileItem;
  currentFolder : option string;
  breadcrumbs : list Breadcrumb;
  currentUser : option User;
  subscription : option Query
}.

Definition setFiles (v : list FileItem) (st : State) : State :=
  mkState v (currentFolder st) (breadcrumbs st) (currentUser st) (subscription st).
Definition setCurrentFolder (v : option string) (st : State) : State :=
  mkState (files st) v (breadcrumbs st) (currentUser st) (subscription st).
Definition setBreadcrumbs (v : list Breadcrumb) (st : State) : State :=
  mkState (files st) (currentFolder st) v (currentUser st) (subscription st).
Definition setCurrentUser (v : option User) (st : State) : State :=
  mkState (files st) (currentFolder st) (breadcrumbs st) v (subscription st).
Definition setSubscription (v : option Query) (st : State) : State :=
  mkState (files st) (currentFolder st) (breadcrumbs st) (currentUser st) v.

(** [{ id: 'root', name: 'My Drive' }]. *)
Definition root : Breadcrumb := mkBreadcrumb "root" "My Drive".

(** The initial values of the three [useState] cells, before any effect. *)
Definition initial (u : option User) : State := mkState [] None [root] u None.

(** The effect's cleanup, [() => unsubscribe()]. *)
Definition cleanup (st : State) : State := setSubscription None st.

(** The body of the subscription effect. *)
Definition effect (st : State) : State :=
  match currentUser st with
  | None => setFiles [] st
  | Some u =>
      setSubscription (Some (mkQuery (uid u) (or_null (currentFolder st)))) st
  end.

(** Committing a render: when a dependency of the effect
    ([currentUser], [currentFolder]) differs from the previous render, the
    cleanup of the previous effect runs, then the effect. *)
Definition commit (prev next : State) : State :=
  if decide ((currentUser prev, currentFolder prev)
             = (currentUser next, currentFolder next))
  then next
  else effect (cleanup next).

(** The first render of the provider. *)
Definition mount (u : option User) : State := effect (initial u).

(** [useAuth] delivers a new [currentUser]. *)
Definition authChanged (u : option User) (st : State) : State :=
  commit st (setCurrentUser u st).

(** The [onSnapshot] callback: it only runs while the subscription is
    open. *)
Definition onSnapshot (docs : list (string * FileData)) (st : State) : State :=
  match subscription st with
  | Some _ =>
      let filesData := foldl (λ acc p, acc ++ [mkFileItem p.1 p.2]) [] docs in
      setFiles filesData st
  | None => st
  end.

Definition matches (q : Query) (d : FileData) : bool :=
  bool_decide (userId d = q_userId q)
  && bool_decide (parentId d = q_parentId q).

(** Firestore's order for [orderBy('type'), orderBy('name')]; documents
    equal on both keys are ordered by document id. *)
Definition doc_leb (a b : string * FileData) : bool :=
  match String.compare (type_string (type a.2)) (type_string (type b.2)) with
  | Lt => true
  | Gt => false
  | Eq =>
      match String.compare (name a.2) (name b.2) with
      | Lt => true
      | Gt => false
      | Eq => match String.compare a.1 b.1 with Gt => false | _ => true end
      end
  end.

(** The result set Firestore pushes for [q] when the collection is as in
    [w]. *)
Definition snapshot (q : Query) (w : World) : list (string * FileData) :=
  sort_by doc_leb
    (filter (λ p, Is_true (matches q p.2)) (map_to_list (files_docs w))).

(** The echo of the remote state through the open subscription. *)
Definition echo (w : World) (st : State) : State :=
  match subscription st with
  | Some q => onSnapshot (snapshot q w) st
  | None => st
  end.

Definition uploadFile (st : State) (file : File) (parentId : option string)
    : M unit :=
  match currentUser st with
  | None => mret ()
  | Some currentUser_ =>
      try_catch
        (let fileType :=
           if String.prefix "image/" (file_type file) then image
           else if String.prefix "video/" (file_type file) then video
           else document in
         ms ← Date_now;
         let storageRef :=
           "users/" +:+ uid currentUser_ +:+ "/" +:+ pretty ms +:+ "_"
             +:+ file_name file in
         _ ← uploadBytes storageRef file;
         url_ ← getDownloadURL storageRef;
         now ← Timestamp_now;
         let fileData :=
           mkFileData (file_name file) fileType (Some url_) None now now
             (uid currentUser_) (js_or parentId (currentFolder st))
             (Some (file_size file)) false false None None in
         docRef ← addDoc filesCollection fileData;
         mret ())
        (λ error, throw error)
  end.

Definition createFolder (st : State) (name_ : string) (parentId : option string)
    : M unit :=
  match currentUser st with
  | None => mret ()
  | Some currentUser_ =>
      try_catch
        (now ← Timestamp_now;
         let folderData :=
           mkFileData name_ folder None None now now
             (uid currentUser_) (js_or parentId (currentFolder st))
             None false false None None in
         docRef ← addDoc filesCollection folderData;
         mret ())
        (λ error, throw error)
  end.

Definition createDocument (st : State) (name_ content_ : string)
    (parentId : option string) : M unit :=
  match currentUser st with
  | None => mret ()
  | Some currentUser_ =>
      try_catch
        (now ← Timestamp_now;
         let documentData :=
           mkFileData name_ document None (Some content_) now now
             (uid currentUser_) (js_or parentId (currentFolder st))
             None false false None None in
         docRef ← addDoc filesCollection documentData;
         mret ())
        (λ error, throw error)
  end.

Definition updateDocument (st : State) (id_ content_ : string) : M unit :=
  now ← Timestamp_now;
  updateDoc filesCollection id_ [set_content content_; set_updatedAt now].

Definition navigateToFolder (folderId : option string) (st : State) : State :=
  let st1 := setCurrentFolder folderId st in
  let st2 :=
    match folderId with
    | None => setBreadcrumbs [root] st1
    | Some fid =>
        match Array_find (λ f, String.eqb (id f) fid) (files st) with
        | Some folder_ =>
            let newBreadcrumbs := [root] in
            let newBreadcrumbs :=
              if truthy (parentId folder_) then
                match Array_find
                        (λ f, bool_decide (Some (id f) = parentId folder_))
                        (files st) with
                | Some parentFolder =>
                    newBreadcrumbs
                      ++ [mkBreadcrumb (id parentFolder) (name parentFolder)]
                | None => newBreadcrumbs
                end
              else newBreadcrumbs in
            let newBreadcrumbs :=
              newBreadcrumbs ++ [mkBreadcrumb (id folder_) (name folder_)] in
            setBreadcrumbs newBreadcrumbs st1
        | None => st1
        end
    end in
  commit st st2.

Definition toggleStar (st : State) (id_ : string) : M unit :=
  match Array_find (λ f, String.eqb (id f) id_) (files st) with
  | None => mret ()
  | Some file =>
      updateDoc filesCollection id_ [set_isStarred (negb (isStarred file))]
  end.

Definition shareFile (st : State) (id_ userEmail : string) : M unit :=
  updateDoc filesCollection id_ [set_isShared true; set_sharedWith [userEmail]].

Definition getFileById (st : State) (id_ : string) : option FileItem :=
  Array_find (λ f, String.eqb (id f) id_) (files st).

Section DeleteFile.

(** The storage path [deleteFile] reads off a download URL,
    [decodeURIComponent(new URL(url).pathname.split('/o/')[1])]; [None]
    when that segment is missing or empty, or when parsing or decoding
    throws (the handler then only logs). *)
Variable storagePathOf : string → option string.

Definition deleteFile (st : State) (id_ : string) : M unit :=
  match Array_find (λ f, String.eqb (id f) id_) (files st) with
  | None => mret ()
  | Some file =>
      _ ← deleteDoc filesCollection id_;
      if truthy (url file) then
        try_catch
          (match url file ≫= storagePathOf with
           | Some storagePath => deleteObject storagePath
           | None => mret ()
           end)
          (λ error, mret ())
      else mret ()
  end.

End DeleteFile.

(** [handleBreadcrumbClick] of [FileBrowser.tsx]. *)
Definition handleBreadcrumbClick (id_ : string) (st : State) : State :=
  if String.eqb id_ "root" then navigateToFolder None st
  else navigateToFolder (Some id_) st.

(** [handleFileClick] of [FileBrowser.tsx]: a folder is navigated to;
    opening a document or a media file changes the route, not the
    provider. *)
Definition handleFileClick (file : FileItem) (st : State) : State :=
  match type file with
  | folder => navigateToFolder (Some (id file)) st
  | _ => st
  end.

(** What can happen to the provider between two renders: a new identity,
    a push on the open subscription, a navigation. *)
Inductive Event :=
| Auth (u : option User)
| Push (docs : list (string * FileData))
| Navigate (folderId : option string).

Definition step (st : State) (e : Event) : State :=
  match e with
  | Auth u => authChanged u st
  | Push docs => onSnapshot docs st
  | Navigate folderId => navigateToFolder folderId st
  end.

(** The provider after a history of events, oldest first. *)
Definition run (es : list Event) (st : State) : State := foldl step st es.

End FileContext.

(** ** [NotesContext.tsx]: the [NotesProvider] component *)

Module NotesContext.
Import Notes Firebase.

(** The provider's [useState] cells, the [currentUser] it reads from
    [useAuth], and the owner whose notes its effect holds a live query on,
    if any ([where('userId', '==', uid)]). *)
Record State := mkState {
  notes : list Note;
  viewMode : ViewMode;
  currentUser : option User;
  subscription : option string
}.

Definition setNotes (v : list Note) (st : State) : State :=
  mkState v (viewMode st) (currentUser st) (subscription st).
Definition setViewMode (v : ViewMode) (st : State) : State :=
  mkState (notes st) v (currentUser st) (subscription st).
Definition setCurrentUser (v : option User) (st : State) : State :=
  mkState (notes st) (viewMode st) v (subscription st).
Definition setSubscription (v : option string) (st : State) : State :=
  mkState (notes st) (viewMode st) (currentUser st) v.

Definition initial (u : option User) : State := mkState [] grid u None.

Definition cleanup (st : State) : State := setSubscription None st.

Definition effect (st : State) : State :=
  match currentUser st with
  | None => setNotes [] st
  | Some u => setSubscription (Some (uid u)) st
  end.

Definition commit (prev next : State) : State :=
  if decide (currentUser prev = currentUser next) then next
  else effect (cleanup next).

Definition mount (u : option User) : State := effect (initial u).

Definition authChanged (u : option User) (st : State) : State :=
  commit st (setCurrentUser u st).

(** The comparator handed to [notesData.sort]. *)
Definition compareNotes (a b : Note) : Z :=
  if negb (eqb (isPinned a) (isPinned b)) then
    if isPinned a then (-1)%Z else 1%Z
  else (toMillis (updatedAt b) - toMillis (updatedAt a))%Z.

(** The [onSnapshot] callback. *)
Definition onSnapshot (docs : list (string * NoteData)) (st : State) : State :=
  match subscription st with
  | Some _ =>
      let notesData := foldl (λ acc p, acc ++ [mkNote p.1 p.2]) [] docs in
      setNotes (Array_sort compareNotes notesData) st
  | None => st
  end.

Definition addNote (st : State) (title_ content_ : string)
    (color_ : option string) (labels_ : option (list string)) : M unit :=
  let color_ := default "#ffffff" color_ in
  let labels_ := default [] labels_ in
  match currentUser st with
  | None => mret ()
  | Some currentUser_ =>
      now ← Timestamp_now;
      _ ← addDoc notesCollection
            (mkNoteData title_ content_ now now (uid currentUser_) color_
               labels_ false None None grid []);
      mret ()
  end.

Definition updateNote (id_ title_ content_ : string) (color_ : option string)
    (labels_ : option (list string)) (isPinned_ : option bool) : M unit :=
  now ← Timestamp_now;
  let updateData := [set_title title_; set_content content_; set_updatedAt now] in
  let updateData :=
    match color_ with
    | Some c => updateData ++ [set_color c]
    | None => updateData
    end in
  let updateData :=
    match labels_ with
    | Some l => updateData ++ [set_labels l]
    | None => updateData
    end in
  let updateData :=
    match isPinned_ with
    | Some b => updateData ++ [set_isPinned b]
    | None => updateData
    end in
  updateDoc notesCollection id_ updateData.

Definition deleteNote (id_ : string) : M unit :=
  deleteDoc notesCollection id_.

Definition togglePin (st : State) (id_ : string) : M unit :=
  match Array_find (λ n, String.eqb (id n) id_) (notes st) with
  | Some note =>
      updateNote id_ (title note) (content note) (Some (color note))
        (Some (labels note)) (Some (negb (isPinned note)))
  | None => mret ()
  end.

Definition toggleViewMode (st : State) : State :=
  setViewMode (match viewMode st with grid => list_view | list_view => grid end) st.

Definition generateAISummary (content_ : string) : M string :=
  mret "AI Summary will be implemented here".

Definition generateAISuggestions (content_ : string) : M (list string) :=
  mret ["Suggestion 1"; "Suggestion 2"; "Suggestion 3"].

(** The body of [addChecklistItem] is the comment "Implementation needed":
    the promise resolves at once. *)
Definition addChecklistItem (noteId text_ : string) : M unit := mret ().

Definition deleteChecklistItem (noteId itemId : string) : M unit := mret ().

(** The result set Firestore pushes for [where('userId', '==', uid_)] when
    the collection is as in [w]; without an [orderBy] the documents come in
    the order of their ids. *)
Definition snapshot (uid_ : string) (w : World) : list (string * NoteData) :=
  sort_by (λ a b, match String.compare a.1 b.1 with Gt => false | _ => true end)
    (filter (λ p, userId p.2 = uid_) (map_to_list (notes_docs w))).

(** The echo of the remote state through the open subscription. *)
Definition echo (w : World) (st : State) : State :=
  match subscription st with
  | Some uid_ => onSnapshot (snapshot uid_ w) st
  | None => st
  end.

Inductive Event :=
| Auth (u : option User)
| Push (docs : list (string * NoteData))
| ToggleViewMode.

Definition step (st : State) (e : Event) : State :=
  match e with
  | Auth u => authChanged u st
  | Push docs => onSnapshot docs st
  | ToggleViewMode => toggleViewMode st
  end.

Definition run (es : list Event) (st : State) : State := foldl step st es.

End NotesContext.

(** ** [NoteEditor.tsx]: local editing state and the submit handler *)

Module NoteEditor.
Import Notes Firebase.

(** The [note] prop and the component's [useState] cells that take part
    in saving. *)
Record Editor := mkEditor {
  note : option Note;
  title : string;
  content : string;
  color : string;
  labels : list string;
  isPinned : bool;
  checklistItems : list ChecklistItem;
  newChecklistItem : string
}.

Definition setChecklistItems (v : list ChecklistItem) (ed : Editor) : Editor :=
  mkEditor (note ed) (title ed) (content ed) (color ed) (labels ed)
    (isPinned ed) v (newChecklistItem ed).
Definition setNewChecklistItem (v : string) (ed : Editor) : Editor :=
  mkEditor (note ed) (title ed) (content ed) (color ed) (labels ed)
    (isPinned ed) (checklistItems ed) v.

(** [handleAddChecklistItem]; [uuid] is the value of
    [crypto.randomUUID()]. *)
Definition handleAddChecklistItem (uuid : string) (ed : Editor) : Editor :=
  if negb (String.eqb (trim (newChecklistItem ed)) EmptyString) then
    let newItem := mkChecklistItem uuid (trim (newChecklistItem ed)) false in
    setNewChecklistItem EmptyString (setChecklistItems (checklistItems ed ++ [newItem]) ed)
  else ed.

Definition handleToggleChecklistItem (itemId : string) (ed : Editor) : Editor :=
  setChecklistItems
    ((λ item,
       if String.eqb (Item.id item) itemId
       then mkChecklistItem (Item.id item) (Item.text item)
              (negb (Item.isCompleted item))
       else item) <$> checklistItems ed) ed.

Definition handleDeleteChecklistItem (itemId : string) (ed : Editor) : Editor :=
  setChecklistItems
    (filter (λ item, Item.id item ≠ itemId) (checklistItems ed)) ed.

(** [handleSubmit], up to the call of the [onCancel] prop. *)
Definition handleSubmit (ctx : NotesContext.State) (ed : Editor) : M unit :=
  if String.eqb (trim (title ed)) EmptyString
     || String.eqb (trim (content ed)) EmptyString
  then mret ()
  else
    match note ed with
    | Some n =>
        NotesContext.updateNote (Notes.id n) (title ed) (content ed)
          (Some (color ed)) (Some (labels ed)) (Some (isPinned ed))
    | None =>
        NotesContext.addNote ctx (title ed) (content ed)
          (Some (color ed)) (Some (labels ed))
    end.

Definition setLabels (v : list string) (ed : Editor) : Editor :=
  mkEditor (note ed) (title ed) (content ed) (color ed) v
    (isPinned ed) (checklistItems ed) (newChecklistItem ed).

(** The cells as [useState] initialises them, for a given [note] prop. *)
Definition initial (n : option Note) : Editor :=
  mkEditor n EmptyString EmptyString "#ffffff" [] false [] EmptyString.

(** The effect on [note]: the cells are loaded from the note, if any. *)
Definition loadNote (ed : Editor) : Editor :=
  match note ed with
  | Some n =>
      mkEditor (Some n) (Notes.title n) (Notes.content n) (Notes.color n)
        (Notes.labels n) (Notes.isPinned n) (Notes.checklistItems n)
        (newChecklistItem ed)
  | None => ed
  end.

(** [handleAddLabel]; [newLabel] is the text of the label input.  The
    result is the editor and the new text of the input. *)
Definition handleAddLabel (newLabel : string) (ed : Editor) : Editor * string :=
  let ed' :=
    if negb (String.eqb (trim newLabel) EmptyString)
       && negb (bool_decide (trim newLabel ∈ labels ed))
    then setLabels (labels ed ++ [trim newLabel]) ed
    else ed in
  (ed', EmptyString).

Definition handleRemoveLabel (labelToRemove : string) (ed : Editor) : Editor :=
  setLabels (filter (λ label, label ≠ labelToRemove) (labels ed)) ed.

End NoteEditor.

(** ** [DocumentEditor.tsx]: loading a document and saving it *)

Module DocumentEditor.
Import Files Firebase.

Inductive SaveStatus := saved | saving | error.

(** The component's [useState] cells that loading and saving touch, and
    the route it last navigated to, if any. *)
Record Editor := mkEditor {
  document_ : option FileItem;
  content : string;
  isSaving : bool;
  saveStatus : SaveStatus;
  showSaveAlert : bool;
  navigated : option string
}.

Definition initial : Editor :=
  mkEditor None EmptyString false saved false None.

(** The effect on [fileId]. *)
Definition load (ctx : FileContext.State) (fileId : string) (ed : Editor)
    : Editor :=
  match FileContext.getFileById ctx fileId with
  | Some file =>
      match type file with
      | document =>
          mkEditor (Some file) (default EmptyString (Files.content file))
            (isSaving ed) (saveStatus ed) (showSaveAlert ed) (navigated ed)
      | _ =>
          mkEditor (document_ ed) (content ed) (isSaving ed) (saveStatus ed)
            (showSaveAlert ed) (Some "/files")
      end
  | None =>
      mkEditor (document_ ed) (content ed) (isSaving ed) (saveStatus ed)
        (showSaveAlert ed) (Some "/files")
  end.

(** The function handed to [debounce]: one save, with its
    [try]/[catch]/[finally]. *)
Definition save (ctx : FileContext.State) (docId newContent : string)
    (ed : Editor) : M Editor := λ w,
  let ed1 :=
    mkEditor (document_ ed) (content ed) true saving (showSaveAlert ed)
      (navigated ed) in
  match FileContext.updateDocument ctx docId newContent w with
  | (Resolved _, w') =>
      (Resolved (mkEditor (document_ ed1) (content ed1) false saved true
                   (navigated ed1)), w')
  | (Rejected _, w') =>
      (Resolved (mkEditor (document_ ed1) (content ed1) false error
                   (showSaveAlert ed1) (navigated ed1)), w')
  end.

End DocumentEditor.

(** ** The browser's URL reader, as [deleteFile] uses it *)

Module Browser.

Definition code (c : Ascii.ascii) : N := Ascii.N_of_ascii c.

Definition is_char (ch : string) (c : Ascii.ascii) : bool :=
  match ch with
  | String d EmptyString => Ascii.eqb c d
  | _ => false
  end.

(** ASCII lower case of a byte. *)
Definition lower (c : Ascii.ascii) : Ascii.ascii :=
  if ((65 <=? code c) && (code c <=? 90))%N
  then Ascii.ascii_of_N (code c + 32)
  else c.

Definition lowerString (s : string) : string :=
  String.string_of_list_ascii (lower <$> String.list_ascii_of_string s).

(** The text after [pre], when [s] starts with it. *)
Fixpoint stripPrefix (pre s : string) : option string :=
  match pre, s with
  | EmptyString, _ => Some s
  | String a pre', String b s' =>
      if Ascii.eqb a b then stripPrefix pre' s' else None
  | String _ _, EmptyString => None
  end.

(** The same, comparing letters without regard to case. *)
Fixpoint stripPrefixCI (pre s : string) : option string :=
  match pre, s with
  | EmptyString, _ => Some s
  | String a pre', String b s' =>
      if Ascii.eqb (lower a) (lower b) then stripPrefixCI pre' s' else None
  | String _ _, EmptyString => None
  end.

(** The text after the first occurrence of [sep], if there is one. *)
Fixpoint afterFirst (sep s : string) : option string :=
  match stripPrefix sep s with
  | Some r => Some r
  | None =>
      match s with
      | String _ s' => afterFirst sep s'
      | EmptyString => None
      end
  end.

(** The text before the first occurrence of [sep], all of it if there is
    none. *)
Fixpoint beforeFirst (sep s : string) : string :=
  match stripPrefix sep s with
  | Some _ => EmptyString
  | None =>
      match s with
      | String c s' => String c (beforeFirst sep s')
      | EmptyString => EmptyString
      end
  end.

(** [s.split(sep)[1]] for a non-empty [sep]: [undefined] when [sep] does
    not occur. *)
Definition split_1 (sep s : string) : option string :=
  beforeFirst sep <$> afterFirst sep s.

(** [s.split('/')]. *)
Fixpoint splitSlash (s : string) : list string :=
  match s with
  | EmptyString => [EmptyString]
  | String c s' =>
      if is_char "/" c then EmptyString :: splitSlash s'
      else
        match splitSlash s' with
        | seg :: segs => String c seg :: segs
        | [] => [String c EmptyString]
        end
  end.

Fixpoint dropWhile (p : Ascii.ascii → bool) (s : string) : string :=
  match s with
  | String c s' => if p c then dropWhile p s' else s
  | EmptyString => EmptyString
  end.

Fixpoint takeWhile (p : Ascii.ascii → bool) (s : string) : string :=
  match s with
  | String c s' => if p c then String c (takeWhile p s') else EmptyString
  | EmptyString => EmptyString
  end.

Definition is_c0_or_space (c : Ascii.ascii) : bool := (code c <=? 32)%N.

Definition is_tab_or_newline (c : Ascii.ascii) : bool :=
  ((code c =? 9) || (code c =? 10) || (code c =? 13))%N.

Definition is_slash (c : Ascii.ascii) : bool :=
  is_char "/" c || (code c =? 92)%N.

Definition ends_path (c : Ascii.ascii) : bool := is_char "?" c || is_char "#" c.

Definition ends_authority (c : Ascii.ascii) : bool := is_slash c || ends_path c.

Definition is_single_dot (seg : string) : bool :=
  String.eqb seg "." || String.eqb (lowerString seg) "%2e".

Definition is_double_dot (seg : string) : bool :=
  String.eqb seg ".." || String.eqb (lowerString seg) ".%2e"
  || String.eqb (lowerString seg) "%2e." || String.eqb (lowerString seg) "%2e%2e".

(** The URL parser's path state over the segments still to come; [acc]
    holds the segments kept so far, last one first. *)
Fixpoint shorten (segs acc : list string) : list string :=
  match segs with
  | [] => rev acc
  | seg :: rest =>
      let last := match rest with [] => true | _ => false end in
      if is_double_dot seg then
        shorten rest (if last then EmptyString :: tail acc else tail acc)
      else if is_single_dot seg then
        shorten rest (if last then EmptyString :: acc else acc)
      else shorten rest (seg :: acc)
  end.

Fixpoint joinSlash (segs : list string) : string :=
  match segs with
  | [] => EmptyString
  | seg :: rest => "/" +:+ seg +:+ joinSlash rest
  end.

(** [new URL(url).pathname] for an [http:] or [https:] URL, before the
    parser percent-encodes the characters of the path that need it ([None]
    when the constructor throws).  The authority is delimited, not
    validated.  URLs of other schemes are outside this reader: it gives
    [None] for them. *)
Definition rawPathname (url_ : string) : option string :=
  let s := String.rev (dropWhile is_c0_or_space
             (String.rev (dropWhile is_c0_or_space url_))) in
  let s := String.string_of_list_ascii
             (List.filter (λ c, negb (is_tab_or_newline c))
                (String.list_ascii_of_string s)) in
  match
    match stripPrefixCI "https:" s with
    | Some r => Some r
    | None => stripPrefixCI "http:" s
    end
  with
  | None => None
  | Some r =>
      let r := dropWhile is_slash r in
      match takeWhile (λ c, negb (ends_authority c)) r with
      | EmptyString => None
      | _ =>
          let p := takeWhile (λ c, negb (ends_path c))
                     (dropWhile (λ c, negb (ends_authority c)) r) in
          let p := String.string_of_list_ascii
                     ((λ c, if is_slash c then Ascii.ascii_of_N 47 else c)
                        <$> String.list_ascii_of_string p) in
          match p with
          | EmptyString => Some "/"
          | String _ p' =>
              match shorten (splitSlash p') [] with
              | [] => Some "/"
              | segs => Some (joinSlash segs)
              end
          end
      end
  end.

Definition hexValue (c : Ascii.ascii) : option N :=
  let n := code c in
  if ((48 <=? n) && (n <=? 57))%N then Some (n - 48)%N
  else if ((65 <=? n) && (n <=? 70))%N then Some (n - 55)%N
  else if ((97 <=? n) && (n <=? 102))%N then Some (n - 87)%N
  else None.

(** A text cut into plain bytes and [%XX] escapes. *)
Inductive Token := Plain (c : Ascii.ascii) | Escape (b : N).

(** [None] when a [%] is not followed by two hexadecimal digits. *)
Fixpoint tokens (s : string) : option (list Token) :=
  match s with
  | EmptyString => Some []
  | String c s1 =>
      if is_char "%" c then
        match s1 with
        | String h (String l s3) =>
            match hexValue h, hexValue l, tokens s3 with
            | Some x, Some y, Some ts => Some (Escape (16 * x + y)%N :: ts)
            | _, _, _ => None
            end
        | _ => None
        end
      else (λ ts, Plain c :: ts) <$> tokens s1
  end.

Definition between (lo hi b : N) : bool := ((lo <=? b) && (b <=? hi))%N.

Definition byte (b : N) : string := String (Ascii.ascii_of_N b) EmptyString.

(** The escapes must spell well-formed UTF-8; one character's escapes are
    replaced by its bytes. *)
Fixpoint unescape (ts : list Token) : option string :=
  match ts with
  | [] => Some EmptyString
  | Plain c :: rest => String c <$> unescape rest
  | Escape b1 :: rest =>
      if (b1 <? 128)%N then (λ r, byte b1 +:+ r) <$> unescape rest
      else
        match rest with
        | Escape b2 :: rest2 =>
            if between 194 223 b1 && between 128 191 b2 then
              (λ r, byte b1 +:+ byte b2 +:+ r) <$> unescape rest2
            else
              match rest2 with
              | Escape b3 :: rest3 =>
                  if ((b1 =? 224)%N && between 160 191 b2
                      || (between 225 236 b1 || between 238 239 b1)
                         && between 128 191 b2
                      || (b1 =? 237)%N && between 128 159 b2)
                     && between 128 191 b3
                  then (λ r, byte b1 +:+ byte b2 +:+ byte b3 +:+ r)
                         <$> unescape rest3
                  else
                    match rest3 with
                    | Escape b4 :: rest4 =>
                        if ((b1 =? 240)%N && between 144 191 b2
                            || between 241 243 b1 && between 128 191 b2
                            || (b1 =? 244)%N && between 128 143 b2)
                           && between 128 191 b3 && between 128 191 b4
                        then (λ r, byte b1 +:+ byte b2 +:+ byte b3
                                     +:+ byte b4 +:+ r) <$> unescape rest4
                        else None
                    | _ => None
                    end
              | _ => None
              end
        | _ => None
        end
  end.

(** [decodeURIComponent]; [None] when it throws [URIError]. *)
Definition decodeURIComponent (s : string) : option string :=
  tokens s ≫= unescape.

(** What [deleteFile] computes from a file's URL:
    [decodeURIComponent(new URL(url).pathname.split('/o/')[1])], and [None]
    when the constructor or the decoding throws or the segment is missing
    or empty.  The percent-encoding the URL parser adds to a path is
    removed again by the decoding and cannot add or remove a [/o/], so the
    segment is taken from the path as written. *)
Definition storagePathOfUrl (url_ : string) : option string :=
  p ← rawPathname url_;
  seg ← split_1 "/o/" p;
  if String.eqb seg EmptyString then None else decodeURIComponent seg.

End Browser.

(** ** Vocabulary of the statements and sample inputs *)

Module Spec.
Import Firebase.

(** The storage path [uploadFile] derives:
    [users/${uid}/${Date.now()}_${file.name}]. *)
Definition storagePath (u : User) (ms : Z) (file : Files.File) : string :=
  "users/" +:+ uid u +:+ "/" +:+ pretty ms +:+ "_" +:+ Files.file_name file.

(** No fault is scripted for the next [n] remote calls. *)
Definition calls_ok (n : nat) (w : World) : bool :=
  forallb (λ o, match o with None => true | Some _ => false end)
    (take n (faults w)).

(** The world once a remote call [c] has been let through. *)
Definition sent (c : Call) (w : World) : World :=
  with_faults (tail (faults w)) (with_calls (c :: calls w) w).

Definition rejected {A} (r : Result A) : bool :=
  match r with Rejected _ => true | Resolved _ => false end.

(** The ids of a trail. *)
Definition crumb_ids (t : list Files.Breadcrumb) : list string :=
  Files.crumb_id <$> t.

(** The element the [onSnapshot] callbacks build from one document. *)
Definition fileOf (p : string * Files.FileData) : Files.FileItem :=
  Files.mkFileItem p.1 p.2.
Definition noteOf (p : string * Notes.NoteData) : Notes.Note :=
  Notes.mkNote p.1 p.2.

(** Delivering a sequence of pushes, oldest first. *)
Definition pushFiles (ps : list (list (string * Files.FileData)))
    (st : FileContext.State) : FileContext.State :=
  foldl (λ s docs, FileContext.onSnapshot docs s) st ps.
Definition pushNotes (ps : list (list (string * Notes.NoteData)))
    (st : NotesContext.State) : NotesContext.State :=
  foldl (λ s docs, NotesContext.onSnapshot docs s) st ps.

(** The keys [updateNote] puts in [updateData]. *)
Definition updateNote_keys (color_ : option string)
    (labels_ : option (list string)) (isPinned_ : option bool) : list string :=
  ["title"; "content"; "updatedAt"]
    ++ (if color_ is Some _ then ["color"] else [])
    ++ (if labels_ is Some _ then ["labels"] else [])
    ++ (if isPinned_ is Some _ then ["isPinned"] else []).

(** The note [updateNote] stores in place of [d] when the update goes
    through at time [now]. *)
Definition updatedNote (title_ content_ : string) (color_ : option string)
    (labels_ : option (list string)) (isPinned_ : option bool)
    (now : Timestamp) (d : Notes.NoteData) : Notes.NoteData :=
  Notes.mkNoteData title_ content_ (Notes.createdAt d) now (Notes.userId d)
    (default (Notes.color d) color_) (default (Notes.labels d) labels_)
    (default (Notes.isPinned d) isPinned_) (Notes.aiSummary d)
    (Notes.aiSuggestions d) (Notes.viewMode d) (Notes.checklistItems d).

(** The live query the files provider should hold for its current
    identity and folder: none when signed out. *)
Definition wantedQuery (st : FileContext.State) : option FileContext.Query :=
  match FileContext.currentUser st with
  | Some u =>
      Some (FileContext.mkQuery (uid u) (or_null (FileContext.currentFolder st)))
  | None => None
  end.

(** No record of the [files] collection names itself as its parent. *)
Definition noSelfParent (w : World) : Prop :=
  map_Forall (λ i d, Files.parentId d ≠ Some i) (files_docs w).

(** What drives the files provider in the running application: the
    identity changes, the state of the store arrives through the open
    subscription, the user clicks a file of the listing or an entry of the
    trail.  These are the only callers of [navigateToFolder]. *)
Inductive Gesture :=
| SignedAs (u : option User)
| Arrived (w : World)
| ClickedFile (file : Files.FileItem)
| ClickedCrumb (crumb : Files.Breadcrumb).

Definition perform (st : FileContext.State) (g : Gesture) : FileContext.State :=
  match g with
  | SignedAs u => FileContext.authChanged u st
  | Arrived w => FileContext.echo w st
  | ClickedFile file => FileContext.handleFileClick file st
  | ClickedCrumb crumb =>
      FileContext.handleBreadcrumbClick (Files.crumb_id crumb) st
  end.

(** A gesture the state allows: only listed files and entries of the
    trail can be clicked, and the store holds no self-parented record. *)
Definition offered (st : FileContext.State) (g : Gesture) : Prop :=
  match g with
  | SignedAs _ => True
  | Arrived w => noSelfParent w
  | ClickedFile file => file ∈ FileContext.files st
  | ClickedCrumb crumb => crumb ∈ FileContext.breadcrumbs st
  end.

(** A session: each gesture is offered by the state it is made in. *)
Fixpoint session (gs : list Gesture) (st : FileContext.State) : Prop :=
  match gs with
  | [] => True
  | g :: gs' => offered st g ∧ session gs' (perform st g)
  end.

Definition after (gs : list Gesture) (st : FileContext.State)
    : FileContext.State :=
  foldl perform st gs.

(** The listing has no id twice and holds no file together with its
    parent. *)
Definition flatListing (l : list Files.FileItem) : Prop :=
  NoDup (Files.id <$> l)
  ∧ ∀ f p : Files.FileItem,
      f ∈ l → p ∈ l → Files.parentId (Files.data f) ≠ Some (Files.id p).

(** The trail is [[root]] at the root and [[root; current folder]]
    elsewhere. *)
Definition trailAtCurrent (st : FileContext.State) : Prop :=
  (FileContext.currentFolder st = None
   ∧ FileContext.breadcrumbs st = [FileContext.root])
  ∨ ∃ f name_,
      FileContext.currentFolder st = Some f
      ∧ FileContext.breadcrumbs st
        = [FileContext.root; Files.mkBreadcrumb f name_].

End Spec.

Module Sample.
Import Files Firebase.

Definition alice : User := mkUser "u1".

Definition t0 : Timestamp := mkTimestamp 1700000000000.

Definition world0 : World := mkWorld ∅ ∅ ∅ 1700000000000 [] [].

Definition photo : File := mkFile "photo.png" "image/png" 3 "abc".

Definition storageDown : Error := FirebaseError "storage/unauthorized".

(** A folder of [alice] at the root of her drive. *)
Definition projects : FileData :=
  mkFileData "Projects" folder None None t0 t0 "u1" None None false false
    None None.

(** A document of [alice] already shared with one recipient. *)
Definition report : FileData :=
  mkFileData "report" document None (Some "text") t0 t0 "u1" None None
    false true (Some ["bob@example.org"]) None.

(** A second folder at the root. *)
Definition archive : FileData :=
  mkFileData "Archive" folder None None t0 t0 "u1" None None false false
    None None.

Definition drive : World :=
  with_files_docs
    (<["f1" := projects]> (<["f2" := archive]> (<["d1" := report]> ∅)))
    world0.

(** [alice]'s provider after the first push for the root folder. *)
Definition atRoot : FileContext.State :=
  FileContext.echo drive (FileContext.mount (Some alice)).

(** ... and after she opened the folder ["f1"] and its (empty) listing
    arrived. *)
Definition inProjects : FileContext.State :=
  FileContext.echo drive (FileContext.navigateToFolder (Some "f1") atRoot).

Definition groceries : Notes.NoteData :=
  Notes.mkNoteData "Groceries" "for the week" t0 t0 "u1" "#ffffff" [] false
    None None Notes.grid [Notes.Item.mkChecklistItem "a" "milk" false].

(** A pinned note, last edited long before [groceries]. *)
Definition memo : Notes.NoteData :=
  Notes.mkNoteData "Memo" "door code" (mkTimestamp 1000) (mkTimestamp 1000)
    "u1" "#fff475" [] true None None Notes.grid [].

(** An unpinned note, last edited before [groceries]. *)
Definition draft : Notes.NoteData :=
  Notes.mkNoteData "Draft" "to do" (mkTimestamp 2000) (mkTimestamp 5000)
    "u1" "#ffffff" [] false None None Notes.grid [].

Definition notebook : World :=
  with_notes_docs (<["n1" := groceries]> ∅) world0.

(** The stores after [alice] uploaded [photo] to her root folder, and her
    provider once the new listing arrived; the record got the id ["0"]. *)
Definition uploaded : World :=
  (FileContext.uploadFile atRoot photo None drive).2.
Definition withPhoto : FileContext.State := FileContext.echo uploaded atRoot.

(** [alice] signs in, her root listing arrives, she opens ["f1"], sees its
    (empty) listing, goes back through the trail, and opens ["f2"]. *)
Definition visit : list Spec.Gesture :=
  [ Spec.SignedAs (Some alice);
    Spec.Arrived drive;
    Spec.ClickedFile (mkFileItem "f1" projects);
    Spec.Arrived drive;
    Spec.ClickedCrumb FileContext.root;
    Spec.Arrived drive;
    Spec.ClickedFile (mkFileItem "f2" archive) ].

End Sample.

(** * Properties *)

(** ** Running promises *)

Section Promise.
Import Firebase Spec.

Lemma bind_run {A B} (m : M A) (k : A → M B) (w : World) :
  (m ≫= k) w =
    match m w with
    | (Resolved a, w') => k a w'
    | (Rejected e, w') => (Rejected e, w')
    end.
Proof. reflexivity. Qed.

Lemma remote_fails {A} (c : Call) (body : M A) (w : World) e fs :
  faults w = Some e :: fs →
  remote c body w = (Rejected e, with_faults fs (with_calls (c :: calls w) w)).
Proof. intros Hf. unfold remote. by rewrite Hf. Qed.

Lemma remote_sent {A} (c : Call) (body : M A) (w : World) :
  calls_ok 1 w = true → remote c body w = body (sent c w).
Proof.
  unfold calls_ok, remote, sent. destruct w as [fd nd ob ck fs cs]; simpl.
  destruct fs as [|[e|] fs]; simpl; [done | done | done].
Qed.

Lemma try_catch_rethrow {A} (m : M A) (w : World) :
  try_catch m (λ error, throw error) w = m w.
Proof. unfold try_catch, throw. by destruct (m w) as [[a|e] w']. Qed.

Lemma calls_ok_S n w :
  calls_ok (S n) w = true →
  calls_ok 1 w = true ∧ ∀ c, calls_ok n (sent c w) = true.
Proof.
  unfold calls_ok, sent. destruct w as [fd nd ob ck fs cs]; simpl.
  destruct fs as [|[e|] fs]; simpl; intros H; try done.
  split; [done|]. intros _. by rewrite take_nil.
Qed.

End Promise.

(** Projections of an updated world. *)
Ltac world_simpl :=
  cbn [Firebase.files_docs Firebase.notes_docs Firebase.objects
       Firebase.clock Firebase.faults Firebase.calls
       Firebase.with_files_docs Firebase.with_notes_docs
       Firebase.with_objects Firebase.with_faults Firebase.with_calls
       Firebase.coll_docs Firebase.coll_put Firebase.coll_name
       Firebase.coll_key Firebase.coll_write Firebase.filesCollection
       Firebase.notesCollection Spec.sent fst snd] in *.

(** A call that cannot be in a short explicit list of calls. *)
Ltac not_among H :=
  repeat (apply elem_of_cons in H as [H|H]; [discriminate H|]);
  by apply elem_of_nil in H.

(** ** Upload: the blob first, the record second *)

Section Upload.
Import Files Firebase FileContext Spec.

(** The three awaited steps of [uploadFile], for any path and any way of
    building the record from the URL and the time stamp. *)
Lemma upload_steps path file (mk : string → Timestamp → FileData) w r w' :
  (uploadBytes path file ≫= λ _,
     getDownloadURL path ≫= λ url_,
       Timestamp_now ≫= λ now,
         addDoc filesCollection (mk url_ now) ≫= λ _, mret ()) w = (r, w') →
  ∃ new,
    calls w' = new ++ calls w
    ∧ last new = Some (call_uploadBytes path)
    ∧ (call_addDoc "files" ∈ new →
         new = [call_addDoc "files"; call_getDownloadURL path;
                call_uploadBytes path]
         ∧ objects w' !! path = Some file)
    ∧ (call_addDoc "files" ∉ new → files_docs w' = files_docs w).
Proof.
  unfold uploadBytes, getDownloadURL, addDoc, Timestamp_now.
  destruct w as [fd nd ob ck fs cs].
  destruct fs as [|[e1|] [|[e2|] [|[e3|] fs]]];
    repeat (rewrite ?bind_run; unfold remote at 1; world_simpl;
            rewrite ?lookup_insert_eq);
    intros [= <- <-]; world_simpl.
  all: first
    [ exists [call_uploadBytes path]; split; [reflexivity|];
      split; [reflexivity|]; split; [intros H; not_among H | done]
    | exists [call_getDownloadURL path; call_uploadBytes path];
      split; [reflexivity|]; split; [reflexivity|];
      split; [intros H; not_among H | done]
    | exists [call_addDoc "files"; call_getDownloadURL path;
              call_uploadBytes path];
      split; [reflexivity|]; split; [reflexivity|];
      split; [intros _; split; [done | by rewrite lookup_insert_eq]
             | intros H; exfalso; apply H; apply list_elem_of_here] ].
Qed.

(** C1. When a user is signed in, every run of [uploadFile] sends the
    blob-store put first, and sends the insert into the [files] collection
    only after the put and the URL request went through (the blob is then
    stored at the derived path).  In a run that sends no insert the
    collection is left as it was.  In particular, when the put fails with
    [e] the promise is rejected with that same [e], the put is the only
    call sent, and no record is inserted. *)
Theorem uploadFile_blob_before_record st u file parentId w r w' :
  currentUser st = Some u →
  uploadFile st file parentId w = (r, w') →
  (∃ new,
     calls w' = new ++ calls w
     ∧ last new = Some (call_uploadBytes (storagePath u (clock w) file))
     ∧ (call_addDoc "files" ∈ new →
          new = [call_addDoc "files";
                 call_getDownloadURL (storagePath u (clock w) file);
                 call_uploadBytes (storagePath u (clock w) file)]
          ∧ objects w' !! storagePath u (clock w) file = Some file)
     ∧ (call_addDoc "files" ∉ new → files_docs w' = files_docs w))
  ∧ (∀ e fs, faults w = Some e :: fs →
       r = Rejected e
       ∧ files_docs w' = files_docs w
       ∧ calls w' = call_uploadBytes (storagePath u (clock w) file) :: calls w).
Proof.
  intros Hu. unfold uploadFile. rewrite Hu, try_catch_rethrow.
  rewrite bind_run. unfold Date_now at 1. fold (storagePath u (clock w) file).
  set (path := storagePath u (clock w) file). intros Hrun. split.
  - by apply upload_steps in Hrun.
  - intros e fs Hf. revert Hrun. rewrite bind_run. unfold uploadBytes at 1.
    rewrite (remote_fails _ _ _ _ _ Hf). by intros [= <- <-].
Qed.

Lemma uploadFile_blob_before_record_witness :
  currentUser (mount (Some Sample.alice)) = Some Sample.alice
  ∧ uploadFile (mount (Some Sample.alice)) Sample.photo None
      (with_faults [Some Sample.storageDown] Sample.world0)
    = (Rejected Sample.storageDown,
       with_calls [call_uploadBytes "users/u1/1700000000000_photo.png"]
         Sample.world0)
  ∧ files_docs
      (with_calls [call_uploadBytes "users/u1/1700000000000_photo.png"]
         Sample.world0)
    = files_docs (with_faults [Some Sample.storageDown] Sample.world0).
Proof.
  split; [reflexivity|]. split; [vm_compute; reflexivity|].
  refine (proj1 (proj2 (proj2 (uploadFile_blob_before_record
    (mount (Some Sample.alice)) Sample.alice Sample.photo None
    (with_faults [Some Sample.storageDown] Sample.world0)
    (Rejected Sample.storageDown)
    (with_calls [call_uploadBytes "users/u1/1700000000000_photo.png"]
       Sample.world0) _ _) Sample.storageDown [] _))).
  - reflexivity.
  - vm_compute; reflexivity.
  - reflexivity.
Defined.

End Upload.

(** ** Writes attempted while signed out *)

Section SignedOut.
Import Firebase Spec.

(** C3, as the code has it.  The four operations that stamp the owner id
    ([uploadFile], [createFolder], [createDocument], [addNote]) test the
    current identity first; without one they return before any remote call
    (the world, its call log included, is untouched) and their promise
    resolves: it is not rejected. *)
Theorem guarded_writes_resolve_without_identity
    (st : FileContext.State) (nst : NotesContext.State) file parentId
    name_ content_ title_ color_ labels_ (w : World) :
  FileContext.currentUser st = None →
  NotesContext.currentUser nst = None →
  FileContext.uploadFile st file parentId w = (Resolved (), w)
  ∧ FileContext.createFolder st name_ parentId w = (Resolved (), w)
  ∧ FileContext.createDocument st name_ content_ parentId w = (Resolved (), w)
  ∧ NotesContext.addNote nst title_ content_ color_ labels_ w = (Resolved (), w).
Proof.
  intros Hf Hn.
  unfold FileContext.uploadFile, FileContext.createFolder,
    FileContext.createDocument, NotesContext.addNote.
  rewrite Hf, Hn. done.
Qed.

Lemma guarded_writes_resolve_without_identity_witness :
  FileContext.currentUser (FileContext.mount None) = None
  ∧ FileContext.uploadFile (FileContext.mount None) Sample.photo None
      Sample.world0 = (Resolved (), Sample.world0).
Proof.
  split; [reflexivity|].
  exact (proj1 (guarded_writes_resolve_without_identity
    (FileContext.mount None) (NotesContext.mount None) Sample.photo None
    "Projects" "text" "Groceries" None None Sample.world0
    eq_refl eq_refl)).
Defined.

(** C3 as stated fails: signed out, [uploadFile] is not rejected, with
    [AuthRequiredError] or any other error. *)
Lemma uploadFile_signed_out_not_rejected :
  rejected (FileContext.uploadFile (FileContext.mount None) Sample.photo None
              Sample.world0).1 = false.
Proof. reflexivity. Qed.

(** The operations without such a test send their remote call whoever is
    signed in; here [shareFile] and [updateNote], signed out. *)
Lemma unguarded_writes_call_out (st : FileContext.State) id_ email title_
    content_ (w : World) :
  calls (FileContext.shareFile st id_ email w).2
    = call_updateDoc "files" id_ ["isShared"; "sharedWith"] :: calls w
  ∧ calls (NotesContext.updateNote id_ title_ content_ None None None w).2
    = call_updateDoc "notes" id_ ["title"; "content"; "updatedAt"] :: calls w.
Proof.
  unfold FileContext.shareFile, NotesContext.updateNote, updateDoc.
  rewrite bind_run. unfold Timestamp_now, remote.
  destruct w as [fd nd ob ck fs cs]. world_simpl.
  split.
  - destruct fs as [|[e|] fs]; world_simpl; [| done |];
      by destruct (fd !! id_).
  - destruct fs as [|[e|] fs]; world_simpl; [| done |];
      by destruct (nd !! id_).
Qed.

End SignedOut.

(** ** Updating one document *)

Section UpdateDoc.
Import Firebase Spec.

Lemma updateDoc_files i upd d w :
  calls_ok 1 w = true →
  files_docs w !! i = Some d →
  updateDoc filesCollection i upd w
    = (Resolved (),
       with_files_docs
         (<[i := write_fields filesCollection upd d]> (files_docs w))
         (sent (call_updateDoc "files" i (Files.field_key <$> upd)) w)).
Proof.
  intros Hok Hd. unfold updateDoc. rewrite remote_sent by done.
  world_simpl. by rewrite Hd.
Qed.

Lemma updateDoc_notes i upd d w :
  calls_ok 1 w = true →
  notes_docs w !! i = Some d →
  updateDoc notesCollection i upd w
    = (Resolved (),
       with_notes_docs
         (<[i := write_fields notesCollection upd d]> (notes_docs w))
         (sent (call_updateDoc "notes" i (Notes.field_key <$> upd)) w)).
Proof.
  intros Hok Hd. unfold updateDoc. rewrite remote_sent by done.
  world_simpl. by rewrite Hd.
Qed.

(** Whatever the outcome, an update of a note touches no other note, and
    leaves the addressed note alone unless it goes through. *)
Lemma updateDoc_notes_frame i upd w :
  let w' := (updateDoc notesCollection i upd w).2 in
  (∀ j, j ≠ i → notes_docs w' !! j = notes_docs w !! j)
  ∧ files_docs w' = files_docs w
  ∧ (notes_docs w' !! i = notes_docs w !! i
     ∨ ∃ d, notes_docs w !! i = Some d
            ∧ notes_docs w' !! i = Some (write_fields notesCollection upd d)).
Proof.
  unfold updateDoc, remote. destruct w as [fd nd ob ck fs cs]. world_simpl.
  destruct fs as [|[e|] fs]; world_simpl;
    try (split; [done|]; split; [done|]; by left).
  all: destruct (nd !! i) as [d|] eqn:Hd; world_simpl;
    try (split; [done|]; split; [done|]; by left).
  all: split; [by intros j Hj; rewrite lookup_insert_ne|];
    split; [done|]; right; exists d; by rewrite lookup_insert_eq.
Qed.

End UpdateDoc.

(** ** Sharing *)

Section Share.
Import Files Firebase FileContext Spec.

(** C4, as the code has it.  For a file that exists in the store, a
    [shareFile] that goes through sets [isShared] and makes [sharedWith]
    the one-element list holding the recipient, whatever it held before;
    the other fields and the other documents stay as they were. *)
Theorem shareFile_overwrites_sharedWith st id_ userEmail d w :
  files_docs w !! id_ = Some d →
  calls_ok 1 w = true →
  ∃ w',
    shareFile st id_ userEmail w = (Resolved (), w')
    ∧ files_docs w' !! id_
      = Some (mkFileData (name d) (type d) (url d) (content d) (createdAt d)
                (updatedAt d) (userId d) (parentId d) (size d) (isStarred d)
                true (Some [userEmail]) (thumbnailUrl d))
    ∧ ∀ j, j ≠ id_ → files_docs w' !! j = files_docs w !! j.
Proof.
  intros Hd Hok. unfold shareFile.
  rewrite (updateDoc_files _ _ d) by done.
  eexists. split; [reflexivity|]. world_simpl. split.
  - by rewrite lookup_insert_eq.
  - intros j Hj. by rewrite lookup_insert_ne.
Qed.

Lemma shareFile_overwrites_sharedWith_witness :
  ∃ w',
    shareFile Sample.atRoot "d1" "carol@example.org" Sample.drive
      = (Resolved (), w')
    ∧ sharedWith <$> files_docs w' !! "d1" = Some (Some ["carol@example.org"]).
Proof.
  destruct (shareFile_overwrites_sharedWith Sample.atRoot "d1"
              "carol@example.org" Sample.report Sample.drive)
    as (w' & Hrun & Hd & _); [reflexivity | reflexivity |].
  exists w'. split; [exact Hrun|]. by rewrite Hd.
Defined.

(** C4 as stated fails: the file was shared with bob; after sharing it with
    carol the list is not [bob; carol], bob is gone. *)
Lemma shareFile_does_not_append :
  sharedWith <$>
    files_docs
      (shareFile Sample.atRoot "d1" "carol@example.org" Sample.drive).2
      !! "d1"
  ≠ Some (Some (["bob@example.org"] ++ ["carol@example.org"])).
Proof. vm_compute. discriminate. Qed.

End Share.

(** ** The checklist operation of the notes context *)

Section Checklist.
Import Notes Firebase NotesContext.

(** C6, what the code does: [addChecklistItem] sends nothing and changes
    nothing, for every note id and text; no item is appended. *)
Theorem addChecklistItem_changes_nothing noteId text_ (w : World) :
  addChecklistItem noteId text_ w = (Resolved (), w).
Proof. reflexivity. Qed.

Lemma addChecklistItem_sample :
  checklistItems <$>
    notes_docs (addChecklistItem "n1" "eggs" Sample.notebook).2 !! "n1"
  = Some [mkChecklistItem "a" "milk" false].
Proof. reflexivity. Qed.

End Checklist.

(** ** Signing out *)

Section SignOut.
Import Files Firebase Spec.

(** C7, as the code has it.  When the identity goes from a user to none,
    the live queries of both providers are released and their local
    collections become empty; the files provider keeps its current folder
    and its breadcrumb trail as they were. *)
Theorem signOut_clears_collections_only
    (st : FileContext.State) (nst : NotesContext.State) :
  is_Some (FileContext.currentUser st) →
  is_Some (NotesContext.currentUser nst) →
  FileContext.subscription (FileContext.authChanged None st) = None
  ∧ FileContext.files (FileContext.authChanged None st) = []
  ∧ FileContext.currentFolder (FileContext.authChanged None st)
    = FileContext.currentFolder st
  ∧ FileContext.breadcrumbs (FileContext.authChanged None st)
    = FileContext.breadcrumbs st
  ∧ NotesContext.subscription (NotesContext.authChanged None nst) = None
  ∧ NotesContext.notes (NotesContext.authChanged None nst) = [].
Proof.
  intros [u Hu] [v Hv].
  unfold FileContext.authChanged, FileContext.commit,
    NotesContext.authChanged, NotesContext.commit.
  cbn [FileContext.currentUser FileContext.setCurrentUser
       NotesContext.currentUser NotesContext.setCurrentUser
       FileContext.currentFolder].
  rewrite Hu, Hv. do 2 (case_decide; [congruence|]).
  done.
Qed.

Lemma signOut_clears_collections_only_witness :
  is_Some (FileContext.currentUser Sample.inProjects)
  ∧ FileContext.files (FileContext.authChanged None Sample.inProjects) = []
  ∧ FileContext.currentFolder (FileContext.authChanged None Sample.inProjects)
    = FileContext.currentFolder Sample.inProjects.
Proof.
  assert (H1 : is_Some (FileContext.currentUser Sample.inProjects))
    by (by exists Sample.alice).
  assert (H2 : is_Some (NotesContext.currentUser
                          (NotesContext.mount (Some Sample.alice))))
    by (by exists Sample.alice).
  pose proof (signOut_clears_collections_only Sample.inProjects
                (NotesContext.mount (Some Sample.alice)) H1 H2)
    as (_ & Hfiles & Hfolder & _).
  exact (conj H1 (conj Hfiles Hfolder)).
Defined.

(** C7 as stated fails: alice signs out while in the folder ["f1"]; the
    current folder and the trail do not return to their initial values. *)
Lemma signOut_keeps_navigation :
  FileContext.currentFolder (FileContext.authChanged None Sample.inProjects)
    = Some "f1"
  ∧ FileContext.breadcrumbs (FileContext.authChanged None Sample.inProjects)
    = [FileContext.root; mkBreadcrumb "f1" "Projects"]
  ∧ ¬ (FileContext.currentFolder
         (FileContext.authChanged None Sample.inProjects)
       = FileContext.currentFolder (FileContext.initial None)
       ∧ FileContext.breadcrumbs
           (FileContext.authChanged None Sample.inProjects)
         = FileContext.breadcrumbs (FileContext.initial None)).
Proof.
  split; [vm_compute; reflexivity|]. split; [vm_compute; reflexivity|].
  intros [H _]. vm_compute in H. discriminate H.
Qed.

End SignOut.

(** ** Navigation and the breadcrumb trail *)

Section Navigate.
Import Files Firebase FileContext Spec.

(** The trail [navigateToFolder] computes when the target is the root or
    is listed in the loaded collection: it starts with the root entry, ends
    with the target, and has at most one entry in between; a target without
    a parent gives exactly [root; target]. *)
Lemma navigateToFolder_listed_trail (st : State) :
  breadcrumbs (navigateToFolder None st) = [root]
  ∧ ∀ fid f,
      Array_find (λ x, String.eqb (id x) fid) (files st) = Some f →
      let t := breadcrumbs (navigateToFolder (Some fid) st) in
      currentFolder (navigateToFolder (Some fid) st) = Some fid
      ∧ head t = Some root
      ∧ last t = Some (mkBreadcrumb fid (name f))
      ∧ length t ≤ 3
      ∧ (truthy (parentId f) = false → t = [root; mkBreadcrumb fid (name f)]).
Proof.
  split.
  - unfold navigateToFolder, commit. case_decide; [done|].
    unfold effect, cleanup; simpl. by destruct (currentUser st).
  - intros fid f Hf. pose proof Hf as Hin.
    apply find_some in Hin as [_ Heq]. apply String.eqb_eq in Heq.
    assert (Ht : breadcrumbs (navigateToFolder (Some fid) st)
                 = (if truthy (parentId f) then
                      match Array_find
                              (λ x, bool_decide (Some (id x) = parentId f))
                              (files st) with
                      | Some p => [root] ++ [mkBreadcrumb (id p) (name p)]
                      | None => [root]
                      end
                    else [root]) ++ [mkBreadcrumb (id f) (name f)]).
    { unfold navigateToFolder, commit. rewrite Hf. case_decide; [done|].
      unfold effect, cleanup; simpl. by destruct (currentUser st). }
    assert (Hc : currentFolder (navigateToFolder (Some fid) st) = Some fid).
    { unfold navigateToFolder, commit. rewrite Hf. case_decide as Hd.
      - done.
      - unfold effect, cleanup; simpl. by destruct (currentUser st). }
    simpl. rewrite Ht, Hc, Heq.
    destruct (truthy (parentId f)); [|by simpl; auto 10].
    destruct (Array_find (λ x, bool_decide (Some (id x) = parentId f))
                (files st));
      simpl; split_and!; (done || lia).
Qed.

(** A direct call with an id outside the loaded collection, which no
    component of the application makes ([FileBrowser] passes ids of listed
    files and of trail entries only).  Alice is in ["f1"] (trail
    [root; Projects]); the loaded collection is the listing of ["f1"] and
    does not hold her other root folder ["f2"].  [navigateToFolder "f2"]
    would make ["f2"] the current folder and leave the trail as it was. *)
Remark navigateToFolder_unlisted_keeps_stale_trail :
  currentFolder (navigateToFolder (Some "f2") Sample.inProjects) = Some "f2"
  ∧ breadcrumbs (navigateToFolder (Some "f2") Sample.inProjects)
    = [root; mkBreadcrumb "f1" "Projects"]
  ∧ last (crumb_ids (breadcrumbs
            (navigateToFolder (Some "f2") Sample.inProjects)))
    ≠ Some "f2".
Proof.
  split; [vm_compute; reflexivity|]. split; [vm_compute; reflexivity|].
  vm_compute. discriminate.
Qed.

(** The same for every target that is not listed: the current folder
    changes, the trail does not. *)
Lemma navigateToFolder_unlisted (st : State) fid :
  Array_find (λ x, String.eqb (id x) fid) (files st) = None →
  currentFolder (navigateToFolder (Some fid) st) = Some fid
  ∧ breadcrumbs (navigateToFolder (Some fid) st) = breadcrumbs st.
Proof.
  intros Hf. unfold navigateToFolder, commit. rewrite Hf.
  case_decide; [done|].
  unfold effect, cleanup; simpl. by destruct (currentUser st).
Qed.

End Navigate.

(** ** Sorting *)

Section Sorting.
Context {A : Type} (leb : A → A → bool).

Lemma insert_by_Permutation x l : insert_by leb x l ≡ₚ x :: l.
Proof.
  induction l as [|y l IH]; simpl; [done|].
  destruct (leb x y); [done|]. rewrite IH. apply Permutation_swap.
Qed.

Lemma sort_by_Permutation l : sort_by leb l ≡ₚ l.
Proof.
  induction l as [|x l IH]; simpl; [done|].
  by rewrite insert_by_Permutation, IH.
Qed.

Hypothesis leb_total : ∀ a b, leb a b = true ∨ leb b a = true.
Hypothesis leb_trans : ∀ a b c, leb a b = true → leb b c = true → leb a c = true.

Lemma insert_by_sorted x l :
  StronglySorted (λ a b, leb a b = true) l →
  StronglySorted (λ a b, leb a b = true) (insert_by leb x l).
Proof.
  induction 1 as [|y l Hl IH Hy]; simpl.
  - repeat constructor.
  - destruct (leb x y) eqn:Hxy.
    + constructor; [by constructor|]. constructor; [done|].
      eapply Forall_impl; [exact Hy|]. intros z Hz. by eapply leb_trans.
    + constructor; [done|]. rewrite insert_by_Permutation.
      constructor; [|done]. destruct (leb_total x y); congruence.
Qed.

Lemma sort_by_sorted l : StronglySorted (λ a b, leb a b = true) (sort_by leb l).
Proof.
  induction l as [|x l IH]; simpl; [constructor|]. by apply insert_by_sorted.
Qed.

End Sorting.

Lemma StronglySorted_lookup {A} (R : relation A) l i j a b :
  StronglySorted R l → i < j → l !! i = Some a → l !! j = Some b → R a b.
Proof.
  intros Hs Hij Ha Hb. rewrite <-(take_drop j l) in Hs.
  eapply StronglySorted_app_1_elem_of; [exact Hs| |].
  - apply list_elem_of_lookup. exists i. by rewrite lookup_take_lt.
  - apply list_elem_of_lookup. exists 0. by rewrite lookup_drop, Nat.add_0_r.
Qed.

(** What [snapshot.forEach(doc => data.push(f(doc)))] leaves in [data]. *)
Lemma push_each {A B} (f : A → B) (docs : list A) (acc : list B) :
  foldl (λ acc p, acc ++ [f p]) acc docs = acc ++ (f <$> docs).
Proof.
  revert acc. induction docs as [|d docs IH]; intros acc; simpl.
  - by rewrite app_nil_r.
  - by rewrite IH, <-app_assoc.
Qed.

(** ** Pushes *)

Section Pushes.
Import Firebase Spec.

Lemma files_onSnapshot docs (st : FileContext.State) :
  is_Some (FileContext.subscription st) →
  FileContext.files (FileContext.onSnapshot docs st) = fileOf <$> docs.
Proof.
  intros [q Hq]. unfold FileContext.onSnapshot. rewrite Hq. simpl.
  by rewrite (push_each fileOf).
Qed.

Lemma notes_onSnapshot docs (nst : NotesContext.State) :
  is_Some (NotesContext.subscription nst) →
  NotesContext.notes (NotesContext.onSnapshot docs nst)
    = Array_sort NotesContext.compareNotes (noteOf <$> docs).
Proof.
  intros [q Hq]. unfold NotesContext.onSnapshot. rewrite Hq. simpl.
  by rewrite (push_each noteOf).
Qed.

Lemma subscription_files_onSnapshot docs (st : FileContext.State) :
  FileContext.subscription (FileContext.onSnapshot docs st)
    = FileContext.subscription st.
Proof.
  unfold FileContext.onSnapshot.
  by destruct (FileContext.subscription st) eqn:Hq.
Qed.

Lemma subscription_notes_onSnapshot docs (nst : NotesContext.State) :
  NotesContext.subscription (NotesContext.onSnapshot docs nst)
    = NotesContext.subscription nst.
Proof.
  unfold NotesContext.onSnapshot.
  by destruct (NotesContext.subscription nst) eqn:Hq.
Qed.

Lemma subscription_pushFiles ps (st : FileContext.State) :
  FileContext.subscription (pushFiles ps st) = FileContext.subscription st.
Proof.
  revert st. induction ps as [|p ps IH]; intros st; [done|].
  unfold pushFiles in *. simpl. by rewrite IH, subscription_files_onSnapshot.
Qed.

Lemma subscription_pushNotes ps (nst : NotesContext.State) :
  NotesContext.subscription (pushNotes ps nst) = NotesContext.subscription nst.
Proof.
  revert nst. induction ps as [|p ps IH]; intros nst; [done|].
  unfold pushNotes in *. simpl. by rewrite IH, subscription_notes_onSnapshot.
Qed.

(** C2. While a subscription is open, after the last of any sequence of
    pushes the files provider holds exactly the documents of that push, in
    the pushed order, and the notes provider holds exactly the documents of
    that push, each as often as pushed (in its own display order);
    nothing of the earlier pushes or of the earlier local state remains. *)
Theorem push_replaces_local_collection
    (st : FileContext.State) (nst : NotesContext.State) ps p qs q :
  is_Some (FileContext.subscription st) →
  is_Some (NotesContext.subscription nst) →
  FileContext.files (pushFiles (ps ++ [p]) st) = fileOf <$> p
  ∧ NotesContext.notes (pushNotes (qs ++ [q]) nst) ≡ₚ noteOf <$> q.
Proof.
  intros Hs Hn. unfold pushFiles, pushNotes. rewrite !foldl_app. simpl.
  fold (pushFiles ps st). fold (pushNotes qs nst). split.
  - apply files_onSnapshot. by rewrite subscription_pushFiles.
  - rewrite notes_onSnapshot by (by rewrite subscription_pushNotes).
    apply sort_by_Permutation.
Qed.

Lemma push_replaces_local_collection_witness :
  is_Some (FileContext.subscription (FileContext.mount (Some Sample.alice)))
  ∧ FileContext.files
      (pushFiles
         ([[("f1", Sample.projects); ("d1", Sample.report)]]
            ++ [[("f2", Sample.archive)]])
         (FileContext.mount (Some Sample.alice)))
    = [Files.mkFileItem "f2" Sample.archive].
Proof.
  assert (H1 : is_Some (FileContext.subscription
                          (FileContext.mount (Some Sample.alice))))
    by (by eexists).
  assert (H2 : is_Some (NotesContext.subscription
                          (NotesContext.mount (Some Sample.alice))))
    by (by eexists).
  split; [exact H1|].
  exact (proj1 (push_replaces_local_collection
    (FileContext.mount (Some Sample.alice))
    (NotesContext.mount (Some Sample.alice))
    [[("f1", Sample.projects); ("d1", Sample.report)]]
    [("f2", Sample.archive)] [] [("n1", Sample.groceries)] H1 H2)).
Defined.

End Pushes.

(** ** Order of the notes *)

Section NotesOrder.
Import Notes NotesContext Spec.

Lemma compareNotes_le a b :
  (compareNotes a b <=? 0)%Z = true ↔
    (isPinned a = true ∧ isPinned b = false)
    ∨ (isPinned a = isPinned b
       ∧ (toMillis (updatedAt b) ≤ toMillis (updatedAt a))%Z).
Proof.
  unfold compareNotes. rewrite Z.leb_le.
  destruct (isPinned a), (isPinned b); simpl; split; intros H;
    try lia; try (right; split; [done|lia]); try (by left);
    destruct H as [[??]|[??]]; (discriminate || lia).
Qed.

Lemma compareNotes_total a b :
  (compareNotes a b <=? 0)%Z = true ∨ (compareNotes b a <=? 0)%Z = true.
Proof.
  rewrite !compareNotes_le.
  destruct (isPinned a), (isPinned b);
    destruct (Z.le_ge_cases (toMillis (updatedAt b)) (toMillis (updatedAt a)));
    auto.
Qed.

Lemma compareNotes_trans a b c :
  (compareNotes a b <=? 0)%Z = true →
  (compareNotes b c <=? 0)%Z = true →
  (compareNotes a c <=? 0)%Z = true.
Proof.
  rewrite !compareNotes_le.
  intros [[Ha Hb]|[Hab Hm]] [[Hb' Hc]|[Hbc Hm']]; try congruence.
  - left. split; congruence.
  - left. split; congruence.
  - right. split; [congruence|lia].
Qed.

(** C8. After a push, for any two positions [i < j] of the local notes
    collection: if the later note is pinned so is the earlier one (no
    unpinned note stands before a pinned one), and when both have the same
    pinned state the earlier one was updated no earlier than the later
    one. *)
Theorem notes_pinned_first_then_recent (nst : State) docs i j (a b : Note) :
  is_Some (subscription nst) →
  i < j →
  notes (onSnapshot docs nst) !! i = Some a →
  notes (onSnapshot docs nst) !! j = Some b →
  (isPinned b = true → isPinned a = true)
  ∧ (isPinned a = isPinned b →
       (toMillis (updatedAt b) ≤ toMillis (updatedAt a))%Z).
Proof.
  intros Hs Hij Ha Hb. rewrite notes_onSnapshot in Ha, Hb by done.
  pose proof (sort_by_sorted (λ x y, (compareNotes x y <=? 0)%Z)
                compareNotes_total compareNotes_trans (noteOf <$> docs)) as Hsorted.
  pose proof (StronglySorted_lookup _ _ _ _ _ _ Hsorted Hij Ha Hb) as Hab.
  simpl in Hab. apply compareNotes_le in Hab as [[Hpa Hpb]|[Hp Hm]].
  - split; [done|]. congruence.
  - split; [congruence|done].
Qed.

Lemma notes_pinned_first_then_recent_witness :
  notes (onSnapshot
           [("n3", Sample.draft); ("n1", Sample.groceries); ("n2", Sample.memo)]
           (mount (Some Sample.alice)))
    = [mkNote "n2" Sample.memo; mkNote "n1" Sample.groceries;
       mkNote "n3" Sample.draft]
  ∧ (isPinned Sample.groceries = true → isPinned Sample.memo = true)
  ∧ (isPinned Sample.groceries = isPinned Sample.draft →
       (toMillis (updatedAt Sample.draft)
        ≤ toMillis (updatedAt Sample.groceries))%Z).
Proof.
  assert (Hs : is_Some (subscription (mount (Some Sample.alice))))
    by (by eexists).
  split; [vm_compute; reflexivity|]. split.
  - exact (proj1 (notes_pinned_first_then_recent (mount (Some Sample.alice))
      [("n3", Sample.draft); ("n1", Sample.groceries); ("n2", Sample.memo)]
      0 1 (mkNote "n2" Sample.memo) (mkNote "n1" Sample.groceries)
      Hs (le_n 1) eq_refl eq_refl)).
  - exact (proj2 (notes_pinned_first_then_recent (mount (Some Sample.alice))
      [("n3", Sample.draft); ("n1", Sample.groceries); ("n2", Sample.memo)]
      1 2 (mkNote "n1" Sample.groceries) (mkNote "n3" Sample.draft)
      Hs (le_n 2) eq_refl eq_refl)).
Defined.

End NotesOrder.

(** ** The echo of a write *)

Section Echo.
Import Files Firebase FileContext Spec.

Lemma find_listed (l : list (string * FileData)) i d :
  NoDup l.*1 → (i, d) ∈ l →
  Array_find (λ x, String.eqb (id x) i) (fileOf <$> l) = Some (mkFileItem i d).
Proof.
  induction l as [|[j e] l IH]; simpl; intros Hnd Hin.
  - by apply elem_of_nil in Hin.
  - apply NoDup_cons in Hnd as [Hj Hnd].
    apply elem_of_cons in Hin as [[= <- <-]|Hin].
    + by rewrite String.eqb_refl.
    + destruct (String.eqb j i) eqn:Hji; [|by apply IH].
      apply String.eqb_eq in Hji as ->. exfalso. apply Hj.
      apply list_elem_of_fmap. by exists (i, d).
Qed.

Lemma snapshot_Permutation q w :
  snapshot q w
    ≡ₚ filter (λ p, Is_true (matches q p.2)) (map_to_list (files_docs w)).
Proof. apply sort_by_Permutation. Qed.

Lemma snapshot_NoDup q w : NoDup (snapshot q w).*1.
Proof.
  rewrite snapshot_Permutation.
  eapply sublist_NoDup; [apply (NoDup_fst_map_to_list (files_docs w))|].
  apply fmap_sublist, sublist_filter.
Qed.

Lemma snapshot_elem q w i d :
  (i, d) ∈ snapshot q w ↔ files_docs w !! i = Some d ∧ matches q d = true.
Proof.
  rewrite snapshot_Permutation, list_elem_of_filter, elem_of_map_to_list.
  simpl. rewrite Is_true_true. tauto.
Qed.

(** Once the store's state has come back through the open subscription,
    looking a stored record of the result set up by id finds it. *)
Lemma find_after_echo (st : State) q w i d :
  subscription st = Some q →
  files_docs w !! i = Some d →
  matches q d = true →
  Array_find (λ x, String.eqb (id x) i) (files (echo w st))
    = Some (mkFileItem i d).
Proof.
  intros Hq Hd Hm. unfold echo. rewrite Hq.
  rewrite files_onSnapshot by (by rewrite Hq).
  apply find_listed; [apply snapshot_NoDup|]. by apply snapshot_elem.
Qed.

Lemma subscription_echo w (st : State) :
  subscription (echo w st) = subscription st.
Proof.
  unfold echo. destruct (subscription st) eqn:Hq; [|done].
  by rewrite subscription_files_onSnapshot.
Qed.

(** C9. A file is listed locally, its record is in the store and belongs
    to the open query, and the next two remote calls go through.  Then
    [toggleStar], the echo of the store, [toggleStar] again and its echo
    leave the file listed with the star flag it had before the first
    call. *)
Theorem toggleStar_twice_restores (st : State) q id_ (f : FileItem) d w :
  subscription st = Some q →
  Array_find (λ x, String.eqb (id x) id_) (files st) = Some f →
  files_docs w !! id_ = Some d →
  matches q d = true →
  calls_ok 2 w = true →
  let r1 := toggleStar st id_ w in
  let st1 := echo r1.2 st in
  let r2 := toggleStar st1 id_ r1.2 in
  let st2 := echo r2.2 st1 in
  r1.1 = Resolved () ∧ r2.1 = Resolved ()
  ∧ ∃ f2, Array_find (λ x, String.eqb (id x) id_) (files st2) = Some f2
          ∧ isStarred f2 = isStarred f.
Proof.
  intros Hq Hf Hd Hm Hok. apply calls_ok_S in Hok as [Hok1 Hok2].
  intros r1 st1 r2 st2.
  set (d1 := write_field (set_isStarred (negb (isStarred f))) d).
  assert (Hr1 : r1 = (Resolved (),
                      with_files_docs (<[id_ := d1]> (files_docs w))
                        (sent (call_updateDoc "files" id_ ["isStarred"]) w))).
  { unfold r1, toggleStar. rewrite Hf. by rewrite (updateDoc_files _ _ d). }
  assert (Hd1 : files_docs r1.2 !! id_ = Some d1).
  { rewrite Hr1. world_simpl. by rewrite lookup_insert_eq. }
  assert (Hf1 : Array_find (λ x, String.eqb (id x) id_) (files st1)
                = Some (mkFileItem id_ d1))
    by (by apply (find_after_echo st q)).
  set (d2 := write_field (set_isStarred (negb (isStarred d1))) d1).
  assert (Hr2 : r2 = (Resolved (),
                      with_files_docs (<[id_ := d2]> (files_docs r1.2))
                        (sent (call_updateDoc "files" id_ ["isStarred"]) r1.2))).
  { unfold r2, toggleStar. rewrite Hf1.
    rewrite (updateDoc_files _ _ d1); [done| |done].
    rewrite Hr1. apply (Hok2 (call_updateDoc "files" id_ ["isStarred"])). }
  assert (Hd2 : files_docs r2.2 !! id_ = Some d2).
  { rewrite Hr2. world_simpl. by rewrite lookup_insert_eq. }
  split; [by rewrite Hr1|]. split; [by rewrite Hr2|].
  exists (mkFileItem id_ d2). split.
  - apply (find_after_echo st1 q); [|done|done].
    unfold st1. by rewrite subscription_echo.
  - simpl. apply negb_involutive.
Qed.

Lemma toggleStar_twice_restores_witness :
  Array_find (λ x, String.eqb (id x) "f1") (files Sample.atRoot)
    = Some (mkFileItem "f1" Sample.projects)
  ∧ ∃ f2,
      Array_find (λ x, String.eqb (id x) "f1")
        (files
           (echo
              (toggleStar
                 (echo (toggleStar Sample.atRoot "f1" Sample.drive).2
                    Sample.atRoot)
                 "f1" (toggleStar Sample.atRoot "f1" Sample.drive).2).2
              (echo (toggleStar Sample.atRoot "f1" Sample.drive).2
                 Sample.atRoot)))
        = Some f2
      ∧ isStarred f2 = isStarred Sample.projects.
Proof.
  split; [vm_compute; reflexivity|].
  refine (proj2 (proj2 (toggleStar_twice_restores Sample.atRoot
    (mkQuery "u1" None) "f1" (mkFileItem "f1" Sample.projects)
    Sample.projects Sample.drive _ _ _ _ _))).
  - vm_compute; reflexivity.
  - vm_compute; reflexivity.
  - vm_compute; reflexivity.
  - vm_compute; reflexivity.
  - vm_compute; reflexivity.
Defined.

End Echo.

(** ** What [updateNote] writes *)

Section UpdateNote.
Import Notes Firebase NotesContext Spec.

(** The world an update of a note leaves behind, whatever the outcome. *)
Lemma updateDoc_notes_world i upd w :
  (updateDoc notesCollection i upd w).2
  = with_notes_docs
      (if calls_ok 1 w then
         match notes_docs w !! i with
         | Some d => <[i := write_fields notesCollection upd d]> (notes_docs w)
         | None => notes_docs w
         end
       else notes_docs w)
      (sent (call_updateDoc "notes" i (field_key <$> upd)) w).
Proof.
  unfold updateDoc, remote, calls_ok, sent.
  destruct w as [fd nd ob ck fs cs]. world_simpl.
  destruct fs as [|[e|] fs]; world_simpl; simpl; try done.
  all: by destruct (nd !! i).
Qed.

Lemma updateNote_world id_ title_ content_ color_ labels_ isPinned_ w :
  (updateNote id_ title_ content_ color_ labels_ isPinned_ w).2
  = with_notes_docs
      (if calls_ok 1 w then
         match notes_docs w !! id_ with
         | Some d =>
             <[id_ := updatedNote title_ content_ color_ labels_ isPinned_
                        (mkTimestamp (clock w)) d]> (notes_docs w)
         | None => notes_docs w
         end
       else notes_docs w)
      (sent (call_updateDoc "notes" id_
               (updateNote_keys color_ labels_ isPinned_)) w).
Proof.
  unfold updateNote. rewrite bind_run. unfold Timestamp_now.
  rewrite updateDoc_notes_world.
  destruct color_, labels_, isPinned_; reflexivity.
Qed.

(** C10. [updateNote] sends one update whose keys are [title], [content],
    [updatedAt] and, for each optional argument that is supplied, [color],
    [labels], [isPinned].  Whatever the outcome, no note other than the
    addressed one changes, the [files] collection does not change, and for
    every note the fields [checklistItems], [createdAt], [userId],
    [viewMode], [aiSummary] and [aiSuggestions] stay as stored; when the
    update goes through, the addressed note becomes [updatedNote] of its
    stored value.  So submitting the editor for an existing note leaves the
    stored checklist of every note as it was, whatever checklist the editor
    holds locally. *)
Theorem updateNote_writes_only_its_keys
    id_ title_ content_ color_ labels_ isPinned_ (w : World)
    (ctx : State) (ed : NoteEditor.Editor) (n : Note) :
  NoteEditor.note ed = Some n →
  let w' := (updateNote id_ title_ content_ color_ labels_ isPinned_ w).2 in
  calls w'
    = call_updateDoc "notes" id_ (updateNote_keys color_ labels_ isPinned_)
        :: calls w
  ∧ delete id_ (notes_docs w') = delete id_ (notes_docs w)
  ∧ files_docs w' = files_docs w
  ∧ checklistItems <$> notes_docs w' !! id_
    = checklistItems <$> notes_docs w !! id_
  ∧ createdAt <$> notes_docs w' !! id_ = createdAt <$> notes_docs w !! id_
  ∧ userId <$> notes_docs w' !! id_ = userId <$> notes_docs w !! id_
  ∧ Notes.viewMode <$> notes_docs w' !! id_
    = Notes.viewMode <$> notes_docs w !! id_
  ∧ aiSummary <$> notes_docs w' !! id_ = aiSummary <$> notes_docs w !! id_
  ∧ aiSuggestions <$> notes_docs w' !! id_
    = aiSuggestions <$> notes_docs w !! id_
  ∧ (if calls_ok 1 w then
       notes_docs w' !! id_
       = updatedNote title_ content_ color_ labels_ isPinned_
           (mkTimestamp (clock w)) <$> notes_docs w !! id_
     else notes_docs w' = notes_docs w)
  ∧ ∀ j, checklistItems <$> notes_docs (NoteEditor.handleSubmit ctx ed w).2 !! j
         = checklistItems <$> notes_docs w !! j.
Proof.
  intros Hn w'.
  assert (Hframe : ∀ i t c co la pi,
    let v := (updateNote i t c co la pi w).2 in
    ∀ j, checklistItems <$> notes_docs v !! j
         = checklistItems <$> notes_docs w !! j).
  { intros i t c co la pi v j. unfold v. rewrite updateNote_world. world_simpl.
    destruct (calls_ok 1 w); [|done].
    destruct (notes_docs w !! i) as [d|] eqn:Hd; [|done].
    destruct (decide (j = i)) as [->|Hj].
    - by rewrite lookup_insert_eq, Hd.
    - by rewrite lookup_insert_ne. }
  unfold w'. rewrite updateNote_world. world_simpl.
  split; [done|].
  destruct (calls_ok 1 w) eqn:Hok;
    [destruct (notes_docs w !! id_) as [d|] eqn:Hd|];
    rewrite ?delete_insert_eq, ?lookup_insert_eq, ?Hd; simpl.
  all: split_and!; try done.
  all: intros j; unfold NoteEditor.handleSubmit; rewrite Hn.
  all: destruct (_ || _); [done|apply Hframe].
Qed.

Lemma updateNote_writes_only_its_keys_witness :
  let ed :=
    NoteEditor.handleAddChecklistItem "uuid-1"
      (NoteEditor.mkEditor (Some (mkNote "n1" Sample.groceries)) "Groceries"
         "for the weekend" "#ffffff" [] false
         (checklistItems Sample.groceries) "eggs") in
  NoteEditor.checklistItems ed
    = [mkChecklistItem "a" "milk" false; mkChecklistItem "uuid-1" "eggs" false]
  ∧ notes_docs
      (NoteEditor.handleSubmit (mount (Some Sample.alice)) ed Sample.notebook).2
      !! "n1"
    = Some (mkNoteData "Groceries" "for the weekend" Sample.t0 Sample.t0 "u1"
              "#ffffff" [] false None None grid
              [mkChecklistItem "a" "milk" false])
  ∧ ∀ j, checklistItems <$>
           notes_docs
             (NoteEditor.handleSubmit (mount (Some Sample.alice)) ed
                Sample.notebook).2 !! j
         = checklistItems <$> notes_docs Sample.notebook !! j.
Proof.
  intros ed. split; [reflexivity|]. split; [vm_compute; reflexivity|].
  refine (proj2 (proj2 (proj2 (proj2 (proj2 (proj2 (proj2 (proj2 (proj2 (proj2
    (updateNote_writes_only_its_keys "n1" "Groceries" "for the weekend"
       None None None Sample.notebook (mount (Some Sample.alice)) ed
       (mkNote "n1" Sample.groceries) _))))))))))).
  reflexivity.
Defined.

End UpdateNote.

(** ** Creating records *)

Section Create.
Import Files Firebase FileContext Spec.

Lemma fresh_unused {D} (m : gmap string D) : m !! fresh (dom m) = None.
Proof. apply not_elem_of_dom, is_fresh. Qed.

Lemma addDoc_files_sent d w :
  calls_ok 1 w = true →
  addDoc filesCollection d w
    = (Resolved (fresh (dom (files_docs w))),
       with_files_docs (<[fresh (dom (files_docs w)) := d]> (files_docs w))
         (sent (call_addDoc "files") w)).
Proof. intros Hok. unfold addDoc. by rewrite remote_sent. Qed.

Lemma addDoc_notes_sent d w :
  calls_ok 1 w = true →
  addDoc notesCollection d w
    = (Resolved (fresh (dom (notes_docs w))),
       with_notes_docs (<[fresh (dom (notes_docs w)) := d]> (notes_docs w))
         (sent (call_addDoc "notes") w)).
Proof. intros Hok. unfold addDoc. by rewrite remote_sent. Qed.

(** X1. Signed in, a [createFolder] or [createDocument] whose insert goes
    through adds exactly one record, under an id no record had: it is
    stamped with the caller's uid and the client time, placed in the given
    parent or else in the current folder, neither starred nor shared; a
    folder carries no content and no URL, a document carries the given
    text.  Every other record and the blob store stay as they were. *)
Theorem create_inserts_one_owned_record
    (st : State) u name_ content_ parentId_ (w : World) :
  currentUser st = Some u →
  calls_ok 1 w = true →
  (∃ i w',
     createFolder st name_ parentId_ w = (Resolved (), w')
     ∧ files_docs w !! i = None
     ∧ files_docs w'
       = <[i := mkFileData name_ folder None None (mkTimestamp (clock w))
                  (mkTimestamp (clock w)) (uid u)
                  (js_or parentId_ (currentFolder st)) None false false
                  None None]> (files_docs w)
     ∧ objects w' = objects w)
  ∧ (∃ i w',
       createDocument st name_ content_ parentId_ w = (Resolved (), w')
       ∧ files_docs w !! i = None
       ∧ files_docs w'
         = <[i := mkFileData name_ document None (Some content_)
                    (mkTimestamp (clock w)) (mkTimestamp (clock w)) (uid u)
                    (js_or parentId_ (currentFolder st)) None false false
                    None None]> (files_docs w)
       ∧ objects w' = objects w).
Proof.
  intros Hu Hok. split.
  - exists (fresh (dom (files_docs w))). eexists. split.
    + unfold createFolder. rewrite Hu, try_catch_rethrow, bind_run.
      unfold Timestamp_now. rewrite bind_run, addDoc_files_sent by done.
      reflexivity.
    + split; [apply fresh_unused|]. by world_simpl.
  - exists (fresh (dom (files_docs w))). eexists. split.
    + unfold createDocument. rewrite Hu, try_catch_rethrow, bind_run.
      unfold Timestamp_now. rewrite bind_run, addDoc_files_sent by done.
      reflexivity.
    + split; [apply fresh_unused|]. by world_simpl.
Qed.

Lemma create_inserts_one_owned_record_witness :
  ∃ i w',
    createFolder Sample.atRoot "Taxes" None Sample.drive = (Resolved (), w')
    ∧ files_docs Sample.drive !! i = None
    ∧ (name <$> files_docs w' !! i) = Some "Taxes"
    ∧ (parentId <$> files_docs w' !! i) = Some None.
Proof.
  destruct (create_inserts_one_owned_record Sample.atRoot Sample.alice
              "Taxes" "text" None Sample.drive eq_refl eq_refl)
    as [(i & w' & Hrun & Hnew & Hdocs & _) _].
  exists i, w'. split; [exact Hrun|]. split; [exact Hnew|].
  rewrite Hdocs, lookup_insert_eq. by split.
Defined.

(** X2. When the store refuses the insert with [e], [createFolder],
    [createDocument] and [addNote] reject with that same [e] (the
    [catch] rethrows) and no collection changes. *)
Theorem create_rejects_with_store_error
    (st : State) (nst : NotesContext.State) u v name_ content_ parentId_
    title_ color_ labels_ (w : World) e fs :
  currentUser st = Some u →
  NotesContext.currentUser nst = Some v →
  faults w = Some e :: fs →
  (createFolder st name_ parentId_ w).1 = Rejected e
  ∧ files_docs (createFolder st name_ parentId_ w).2 = files_docs w
  ∧ (createDocument st name_ content_ parentId_ w).1 = Rejected e
  ∧ files_docs (createDocument st name_ content_ parentId_ w).2 = files_docs w
  ∧ (NotesContext.addNote nst title_ content_ color_ labels_ w).1 = Rejected e
  ∧ notes_docs (NotesContext.addNote nst title_ content_ color_ labels_ w).2
    = notes_docs w.
Proof.
  intros Hu Hv Hf.
  unfold createFolder, createDocument, NotesContext.addNote.
  rewrite Hu, Hv, !try_catch_rethrow, !bind_run. unfold Timestamp_now.
  rewrite !bind_run. unfold addDoc.
  rewrite !(remote_fails _ _ _ _ _ Hf). done.
Qed.

Lemma create_rejects_with_store_error_witness :
  (createFolder Sample.atRoot "Taxes" None
     (with_faults [Some Sample.storageDown] Sample.drive)).1
  = Rejected Sample.storageDown.
Proof.
  exact (proj1 (create_rejects_with_store_error Sample.atRoot
    (NotesContext.mount (Some Sample.alice)) Sample.alice Sample.alice
    "Taxes" "text" None "Groceries" None None
    (with_faults [Some Sample.storageDown] Sample.drive)
    Sample.storageDown [] eq_refl eq_refl eq_refl)).
Defined.

End Create.

(** ** Upload: what is stored, and what a late failure leaves behind *)

Section UploadMore.
Import Files Firebase FileContext Spec.

(** X3. Signed in, an [uploadFile] whose three remote calls go through
    stores the bytes at the derived path and adds exactly one record under
    an unused id: named after the file, typed [image] or [video] by the
    prefix of the MIME type and [document] otherwise, pointing at the
    download URL of that path, sized as the file, owned by the caller,
    placed in the given parent or else the current folder, with no inline
    content. *)
Theorem uploadFile_stores_blob_then_record
    (st : State) u file parentId_ (w : World) :
  currentUser st = Some u →
  calls_ok 3 w = true →
  ∃ i w',
    uploadFile st file parentId_ w = (Resolved (), w')
    ∧ files_docs w !! i = None
    ∧ objects w' = <[storagePath u (clock w) file := file]> (objects w)
    ∧ files_docs w'
      = <[i := mkFileData (file_name file)
                 (if String.prefix "image/" (file_type file) then image
                  else if String.prefix "video/" (file_type file) then video
                  else document)
                 (Some (downloadURL (storagePath u (clock w) file))) None
                 (mkTimestamp (clock w)) (mkTimestamp (clock w)) (uid u)
                 (js_or parentId_ (currentFolder st))
                 (Some (file_size file)) false false None None]>
          (files_docs w).
Proof.
  intros Hu Hok.
  apply calls_ok_S in Hok as [Hok1 Hok].
  pose proof (λ c, proj1 (calls_ok_S _ _ (Hok c))) as Hok2.
  pose proof (λ c c', proj2 (calls_ok_S _ _ (Hok c)) c') as Hok3.
  exists (fresh (dom (files_docs w))). eexists. split.
  - unfold uploadFile. rewrite Hu, try_catch_rethrow, bind_run.
    unfold Date_now at 1. fold (storagePath u (clock w) file).
    rewrite bind_run. unfold uploadBytes at 1. rewrite remote_sent by done.
    rewrite bind_run. unfold getDownloadURL at 1.
    rewrite remote_sent by (world_simpl; apply Hok2).
    world_simpl. rewrite lookup_insert_eq, bind_run.
    unfold Timestamp_now at 1. rewrite bind_run, addDoc_files_sent.
    + reflexivity.
    + apply (Hok3 (call_uploadBytes (storagePath u (clock w) file))
               (call_getDownloadURL (storagePath u (clock w) file))).
  - split; [apply fresh_unused|]. by world_simpl.
Qed.

Lemma uploadFile_stores_blob_then_record_witness :
  ∃ i w',
    uploadFile Sample.atRoot Sample.photo None Sample.drive = (Resolved (), w')
    ∧ (type <$> files_docs w' !! i) = Some image
    ∧ objects w' !! "users/u1/1700000000000_photo.png" = Some Sample.photo.
Proof.
  destruct (uploadFile_stores_blob_then_record Sample.atRoot Sample.alice
              Sample.photo None Sample.drive eq_refl eq_refl)
    as (i & w' & Hrun & _ & Hobj & Hdocs).
  exists i, w'. split; [exact Hrun|]. split.
  - by rewrite Hdocs, lookup_insert_eq.
  - rewrite Hobj. apply lookup_insert_eq.
Defined.

(** The steps of [uploadFile] when the put goes through and a later step
    fails. *)
Lemma upload_steps_orphan path file (mk : string → Timestamp → FileData) w :
  calls_ok 1 w = true →
  rejected
    ((uploadBytes path file ≫= λ _,
        getDownloadURL path ≫= λ url_,
          Timestamp_now ≫= λ now,
            addDoc filesCollection (mk url_ now) ≫= λ _, mret ()) w).1 = true →
  objects
    ((uploadBytes path file ≫= λ _,
        getDownloadURL path ≫= λ url_,
          Timestamp_now ≫= λ now,
            addDoc filesCollection (mk url_ now) ≫= λ _, mret ()) w).2
    = <[path := file]> (objects w)
  ∧ files_docs
      ((uploadBytes path file ≫= λ _,
          getDownloadURL path ≫= λ url_,
            Timestamp_now ≫= λ now,
              addDoc filesCollection (mk url_ now) ≫= λ _, mret ()) w).2
    = files_docs w.
Proof.
  unfold uploadBytes, getDownloadURL, addDoc, Timestamp_now, calls_ok.
  destruct w as [fd nd ob ck fs cs].
  destruct fs as [|[e1|] [|[e2|] [|[e3|] fs]]];
    repeat (rewrite ?bind_run; unfold remote at 1; world_simpl;
            rewrite ?lookup_insert_eq);
    simpl; done.
Qed.

(** X4. No rollback: whenever the put went through and the upload is
    nevertheless rejected (the URL request or the insert failed), the blob
    stays in the blob store and no record refers to it: the [files]
    collection is as before. *)
Theorem uploadFile_failure_after_put_orphans_blob
    (st : State) u file parentId_ (w : World) :
  currentUser st = Some u →
  calls_ok 1 w = true →
  rejected (uploadFile st file parentId_ w).1 = true →
  objects (uploadFile st file parentId_ w).2
    = <[storagePath u (clock w) file := file]> (objects w)
  ∧ files_docs (uploadFile st file parentId_ w).2 = files_docs w.
Proof.
  intros Hu Hok. unfold uploadFile.
  rewrite Hu, try_catch_rethrow, bind_run.
  unfold Date_now at 1. fold (storagePath u (clock w) file).
  by apply upload_steps_orphan.
Qed.

Lemma uploadFile_failure_after_put_orphans_blob_witness :
  objects
    (uploadFile Sample.atRoot Sample.photo None
       (with_faults [None; None; Some Sample.storageDown] Sample.drive)).2
    !! "users/u1/1700000000000_photo.png" = Some Sample.photo
  ∧ files_docs
      (uploadFile Sample.atRoot Sample.photo None
         (with_faults [None; None; Some Sample.storageDown] Sample.drive)).2
    = files_docs Sample.drive.
Proof.
  destruct (uploadFile_failure_after_put_orphans_blob Sample.atRoot
              Sample.alice Sample.photo None
              (with_faults [None; None; Some Sample.storageDown] Sample.drive)
              eq_refl eq_refl eq_refl) as [Hobj Hdocs].
  split; [|exact Hdocs]. rewrite Hobj. apply lookup_insert_eq.
Defined.

End UploadMore.

(** ** Field updates of a file record *)

Section FileUpdates.
Import Files Firebase FileContext Spec.

Lemma updateDoc_files_missing i upd w :
  calls_ok 1 w = true →
  files_docs w !! i = None →
  updateDoc filesCollection i upd w
    = (Rejected (FirebaseError "not-found"),
       sent (call_updateDoc "files" i (field_key <$> upd)) w).
Proof.
  intros Hok Hd. unfold updateDoc. rewrite remote_sent by done.
  world_simpl. by rewrite Hd.
Qed.

Lemma updateDoc_notes_missing i upd w :
  calls_ok 1 w = true →
  notes_docs w !! i = None →
  updateDoc notesCollection i upd w
    = (Rejected (FirebaseError "not-found"),
       sent (call_updateDoc "notes" i (Notes.field_key <$> upd)) w).
Proof.
  intros Hok Hd. unfold updateDoc. rewrite remote_sent by done.
  world_simpl. by rewrite Hd.
Qed.

(** X5. For a record that exists, an [updateDocument] that goes through
    stores the new text as [content] and the client time as [updatedAt] and
    keeps every other field, every other record and the blob store.  The
    record's type is not looked at: a folder or an uploaded image gets
    inline content the same way. *)
Theorem updateDocument_sets_content_and_time
    (st : State) id_ content_ d (w : World) :
  files_docs w !! id_ = Some d →
  calls_ok 1 w = true →
  ∃ w',
    updateDocument st id_ content_ w = (Resolved (), w')
    ∧ files_docs w'
      = <[id_ := mkFileData (name d) (type d) (url d) (Some content_)
                   (createdAt d) (mkTimestamp (clock w)) (userId d)
                   (parentId d) (size d) (isStarred d) (isShared d)
                   (sharedWith d) (thumbnailUrl d)]> (files_docs w)
    ∧ objects w' = objects w.
Proof.
  intros Hd Hok. unfold updateDocument. rewrite bind_run.
  unfold Timestamp_now. rewrite (updateDoc_files _ _ d) by done.
  eexists. split; [reflexivity|]. by world_simpl.
Qed.

Lemma updateDocument_sets_content_and_time_witness :
  ∃ w',
    updateDocument Sample.atRoot "f1" "notes on a folder" Sample.drive
      = (Resolved (), w')
    ∧ (type <$> files_docs w' !! "f1") = Some folder
    ∧ (content <$> files_docs w' !! "f1") = Some (Some "notes on a folder").
Proof.
  destruct (updateDocument_sets_content_and_time Sample.atRoot "f1"
              "notes on a folder" Sample.projects Sample.drive
              eq_refl eq_refl) as (w' & Hrun & Hdocs & _).
  exists w'. split; [exact Hrun|]. by rewrite Hdocs, lookup_insert_eq.
Defined.

(** X6. Updating a record that is not in the store: when the request gets
    through, [updateDocument], [shareFile], [toggleStar] (for a file still
    listed locally) and [updateNote] all reject with the store's
    [not-found] error, and neither collection changes: no record is
    created by an update. *)
Theorem update_of_missing_record_rejects
    (st : State) id_ content_ email (f : FileItem) title_ color_ labels_
    isPinned_ (w : World) :
  files_docs w !! id_ = None →
  notes_docs w !! id_ = None →
  Array_find (λ x, String.eqb (id x) id_) (files st) = Some f →
  calls_ok 1 w = true →
  (updateDocument st id_ content_ w).1 = Rejected (FirebaseError "not-found")
  ∧ files_docs (updateDocument st id_ content_ w).2 = files_docs w
  ∧ (shareFile st id_ email w).1 = Rejected (FirebaseError "not-found")
  ∧ files_docs (shareFile st id_ email w).2 = files_docs w
  ∧ (toggleStar st id_ w).1 = Rejected (FirebaseError "not-found")
  ∧ files_docs (toggleStar st id_ w).2 = files_docs w
  ∧ (NotesContext.updateNote id_ title_ content_ color_ labels_ isPinned_ w).1
    = Rejected (FirebaseError "not-found")
  ∧ notes_docs
      (NotesContext.updateNote id_ title_ content_ color_ labels_ isPinned_ w).2
    = notes_docs w.
Proof.
  intros Hd Hn Hf Hok.
  unfold updateDocument, shareFile, toggleStar, NotesContext.updateNote.
  rewrite Hf, !bind_run. unfold Timestamp_now.
  rewrite !updateDoc_files_missing, !updateDoc_notes_missing by done.
  done.
Qed.

Lemma update_of_missing_record_rejects_witness :
  (toggleStar Sample.atRoot "f1" Sample.world0).1
  = Rejected (FirebaseError "not-found").
Proof.
  exact (proj1 (proj2 (proj2 (proj2 (proj2
    (update_of_missing_record_rejects Sample.atRoot "f1" "text"
       "bob@example.org" (mkFileItem "f1" Sample.projects) "Groceries"
       None None None Sample.world0 eq_refl eq_refl eq_refl eq_refl)))))).
Defined.

(** X7. [toggleStar] writes the negation of the flag in the local listing,
    whatever the store holds.  So a second [toggleStar] issued before the
    first one has come back through the subscription writes the same value
    again: the store is left as after the first call, the star is not
    restored. *)
Theorem toggleStar_twice_without_echo_toggles_once
    (st : State) id_ (f : FileItem) d (w : World) :
  Array_find (λ x, String.eqb (id x) id_) (files st) = Some f →
  files_docs w !! id_ = Some d →
  calls_ok 2 w = true →
  (isStarred <$> files_docs (toggleStar st id_ w).2 !! id_)
    = Some (negb (isStarred f))
  ∧ (toggleStar st id_ (toggleStar st id_ w).2).1 = Resolved ()
  ∧ files_docs (toggleStar st id_ (toggleStar st id_ w).2).2
    = files_docs (toggleStar st id_ w).2.
Proof.
  intros Hf Hd Hok. apply calls_ok_S in Hok as [Hok1 Hok2].
  unfold toggleStar. rewrite Hf.
  rewrite (updateDoc_files _ _ d) by done. world_simpl.
  rewrite lookup_insert_eq. split; [done|].
  erewrite updateDoc_files;
    [| apply Hok2 | world_simpl; apply lookup_insert_eq].
  world_simpl. split; [done|]. by rewrite insert_insert_eq.
Qed.

Lemma toggleStar_twice_without_echo_toggles_once_witness :
  (isStarred <$>
     files_docs
       (toggleStar Sample.atRoot "f1"
          (toggleStar Sample.atRoot "f1" Sample.drive).2).2 !! "f1")
  = Some true.
Proof.
  destruct (toggleStar_twice_without_echo_toggles_once Sample.atRoot "f1"
              (mkFileItem "f1" Sample.projects) Sample.projects Sample.drive
              eq_refl eq_refl eq_refl) as (H1 & _ & H2).
  rewrite H2. exact H1.
Defined.

(** X8. [shareFile] keeps one recipient only: after sharing an existing
    file with [a] and then with [b] the stored list is [[b]], and sharing
    with the same recipient again leaves the store as it was, so no
    duplicate entry can arise. *)
Theorem shareFile_again_keeps_single_recipient
    (st : State) id_ a b d (w : World) :
  files_docs w !! id_ = Some d →
  calls_ok 2 w = true →
  (sharedWith <$>
     files_docs (shareFile st id_ b (shareFile st id_ a w).2).2 !! id_)
    = Some (Some [b])
  ∧ (a = b →
     files_docs (shareFile st id_ b (shareFile st id_ a w).2).2
     = files_docs (shareFile st id_ a w).2).
Proof.
  intros Hd Hok. apply calls_ok_S in Hok as [Hok1 Hok2].
  unfold shareFile.
  rewrite (updateDoc_files id_ [set_isShared true; set_sharedWith [a]] d w)
    by done.
  world_simpl.
  erewrite updateDoc_files;
    [| apply Hok2 | world_simpl; apply lookup_insert_eq].
  world_simpl. rewrite insert_insert_eq, lookup_insert_eq.
  split; [done|]. by intros ->.
Qed.

Lemma shareFile_again_keeps_single_recipient_witness :
  (sharedWith <$>
     files_docs
       (shareFile Sample.atRoot "d1" "carol@example.org"
          (shareFile Sample.atRoot "d1" "carol@example.org" Sample.drive).2).2
       !! "d1")
  = Some (Some ["carol@example.org"]).
Proof.
  exact (proj1 (shareFile_again_keeps_single_recipient Sample.atRoot "d1"
    "carol@example.org" "carol@example.org" Sample.report Sample.drive
    eq_refl eq_refl)).
Defined.

End FileUpdates.

(** ** Deleting a file *)

Section Delete.
Import Files Firebase FileContext Spec.
Variable storagePathOf : string → option string.

Lemma deleteDoc_files_sent i w :
  calls_ok 1 w = true →
  deleteDoc filesCollection i w
    = (Resolved (),
       with_files_docs (delete i (files_docs w))
         (sent (call_deleteDoc "files" i) w)).
Proof. intros Hok. unfold deleteDoc. by rewrite remote_sent. Qed.

(** The blob step of [deleteFile] never rejects and never touches the
    records. *)
Lemma blob_cleanup_swallows (o : option string) w :
  let m :=
    try_catch
      (match o with
       | Some storagePath => deleteObject storagePath
       | None => mret ()
       end)
      (λ error, mret ()) in
  (m w).1 = Resolved ()
  ∧ files_docs (m w).2 = files_docs w
  ∧ (objects (m w).2 = objects w
     ∨ ∃ p, o = Some p ∧ calls_ok 1 w = true
            ∧ objects (m w).2 = delete p (objects w)).
Proof.
  unfold try_catch, deleteObject, calls_ok. destruct o as [p|]; [|by auto].
  destruct w as [fd nd ob ck fs cs]. world_simpl.
  destruct fs as [|[e|] fs]; world_simpl; simpl; [| by auto |].
  all: destruct (ob !! p) eqn:Hp; world_simpl;
    (split; [done|]; split; [done|]); eauto 10.
Qed.

(** An id that is not in the local listing is left alone:
    [toggleStar], [deleteFile] and (for notes) [togglePin] resolve without
    sending anything, also when a record with that id exists in the
    store. *)
Theorem unlisted_id_sends_nothing
    (st : State) (nst : NotesContext.State) id_ (w : World) :
  Array_find (λ x, String.eqb (id x) id_) (files st) = None →
  Array_find (λ n, String.eqb (Notes.id n) id_) (NotesContext.notes nst)
    = None →
  toggleStar st id_ w = (Resolved (), w)
  ∧ deleteFile storagePathOf st id_ w = (Resolved (), w)
  ∧ NotesContext.togglePin nst id_ w = (Resolved (), w).
Proof.
  intros Hf Hn. unfold toggleStar, deleteFile, NotesContext.togglePin.
  by rewrite Hf, Hn.
Qed.

(** X9. [deleteFile] removes the record first: when the store refuses
    that with [e], the promise is rejected with [e], the record and every
    blob stay, and the blob store is not even asked (one entry of the fault
    script is used up, not two). *)
Theorem deleteFile_record_first (st : State) id_ (f : FileItem) (w : World) e fs :
  Array_find (λ x, String.eqb (id x) id_) (files st) = Some f →
  faults w = Some e :: fs →
  (deleteFile storagePathOf st id_ w).1 = Rejected e
  ∧ files_docs (deleteFile storagePathOf st id_ w).2 = files_docs w
  ∧ objects (deleteFile storagePathOf st id_ w).2 = objects w
  ∧ faults (deleteFile storagePathOf st id_ w).2 = fs.
Proof.
  intros Hf Hw. unfold deleteFile. rewrite Hf, bind_run.
  unfold deleteDoc. by rewrite (remote_fails _ _ _ _ _ Hw).
Qed.

(** X10. Once the record is removed, [deleteFile] resolves whatever the
    blob store does: the record is gone, every other record is kept, and
    the blob store is either untouched or lacks exactly the object at the
    path read off the file's URL.  When the blob request is refused the
    blob stays behind and the caller is not told. *)
Theorem deleteFile_resolves_after_record_removed
    (st : State) id_ (f : FileItem) (w : World) :
  Array_find (λ x, String.eqb (id x) id_) (files st) = Some f →
  calls_ok 1 w = true →
  (deleteFile storagePathOf st id_ w).1 = Resolved ()
  ∧ files_docs (deleteFile storagePathOf st id_ w).2
    = delete id_ (files_docs w)
  ∧ (objects (deleteFile storagePathOf st id_ w).2 = objects w
     ∨ ∃ p, truthy (url f) = true ∧ url f ≫= storagePathOf = Some p
            ∧ objects (deleteFile storagePathOf st id_ w).2
              = delete p (objects w))
  ∧ (∀ e fs, faults w = None :: Some e :: fs →
       objects (deleteFile storagePathOf st id_ w).2 = objects w).
Proof.
  intros Hf Hok. unfold deleteFile. rewrite Hf, bind_run.
  rewrite deleteDoc_files_sent by done.
  destruct (truthy (url f)) eqn:Ht.
  - set (w1 := with_files_docs _ _).
    pose proof (blob_cleanup_swallows (url f ≫= storagePathOf) w1)
      as (Hr & Hd & Ho).
    simpl in Hr, Hd, Ho. split; [exact Hr|]. split; [by rewrite Hd|]. split.
    + destruct Ho as [Ho|(p & Hp & _ & Ho)]; [left; by rewrite Ho|].
      right. exists p. split; [done|]. split; [done|]. by rewrite Ho.
    + intros e fs Hw. unfold try_catch, deleteObject, w1.
      destruct (url f ≫= storagePathOf); [|done].
      destruct w as [fd nd ob ck fs' cs]. world_simpl. by subst fs'.
  - world_simpl. split; [done|]. split; [done|]. split; [by left|done].
Qed.

End Delete.

(** ** Upload, then delete *)

Section UploadDelete.
Import Files Firebase FileContext Spec.

Lemma calls_ok_tail n w w' :
  calls_ok (S n) w = true →
  faults w' = tail (faults w) →
  calls_ok n w' = true.
Proof.
  unfold calls_ok. intros Hok ->. destruct (faults w) as [|[e|] fs]; simpl in *;
    [by rewrite take_nil | done | done].
Qed.

(** A successful [uploadFile], with the world it leaves. *)
Lemma uploadFile_run_ok (st : State) u file parentId_ (w : World) :
  currentUser st = Some u →
  calls_ok 3 w = true →
  ∃ w',
    uploadFile st file parentId_ w = (Resolved (), w')
    ∧ objects w' = <[storagePath u (clock w) file := file]> (objects w)
    ∧ files_docs w'
      = <[fresh (dom (files_docs w)) :=
            mkFileData (file_name file)
              (if String.prefix "image/" (file_type file) then image
               else if String.prefix "video/" (file_type file) then video
               else document)
              (Some (downloadURL (storagePath u (clock w) file))) None
              (mkTimestamp (clock w)) (mkTimestamp (clock w)) (uid u)
              (js_or parentId_ (currentFolder st))
              (Some (file_size file)) false false None None]>
          (files_docs w)
    ∧ faults w' = tail (tail (tail (faults w))).
Proof.
  intros Hu Hok.
  apply calls_ok_S in Hok as [Hok1 Hok].
  pose proof (λ c, proj1 (calls_ok_S _ _ (Hok c))) as Hok2.
  pose proof (λ c c', proj2 (calls_ok_S _ _ (Hok c)) c') as Hok3.
  eexists. split.
  - unfold uploadFile. rewrite Hu, try_catch_rethrow, bind_run.
    unfold Date_now at 1. fold (storagePath u (clock w) file).
    rewrite bind_run. unfold uploadBytes at 1. rewrite remote_sent by done.
    rewrite bind_run. unfold getDownloadURL at 1.
    rewrite remote_sent by (world_simpl; apply Hok2).
    world_simpl. rewrite lookup_insert_eq, bind_run.
    unfold Timestamp_now at 1. rewrite bind_run, addDoc_files_sent.
    + reflexivity.
    + apply (Hok3 (call_uploadBytes (storagePath u (clock w) file))
               (call_getDownloadURL (storagePath u (clock w) file))).
  - by world_simpl.
Qed.

Lemma deleteObject_ok path file w :
  calls_ok 1 w = true →
  objects w !! path = Some file →
  (deleteObject path w).1 = Resolved ()
  ∧ objects (deleteObject path w).2 = delete path (objects w)
  ∧ files_docs (deleteObject path w).2 = files_docs w.
Proof.
  unfold deleteObject, calls_ok. destruct w as [fd nd ob ck fs cs]. world_simpl.
  intros Hok Ho. destruct fs as [|[e|] fs]; simpl in Hok; [| done |];
    world_simpl; by rewrite Ho.
Qed.

(** X11. Upload, echo, delete.  A signed-in user whose subscription shows
    the current folder uploads a file there.  When the five remote calls go
    through and the URL reader gives back the upload path for the download
    URL of this upload, deleting the file that appeared in the listing
    resolves and leaves the [files] collection exactly as before the upload
    and no object at the upload path. *)
Theorem upload_then_delete_leaves_no_trace
    (storagePathOf : string → option string) (st : State) u file (w : World) :
  storagePathOf (downloadURL (storagePath u (clock w) file))
    = Some (storagePath u (clock w) file) →
  currentUser st = Some u →
  subscription st = Some (mkQuery (uid u) (currentFolder st)) →
  calls_ok 5 w = true →
  ∃ i w1 f,
    uploadFile st file None w = (Resolved (), w1)
    ∧ getFileById (echo w1 st) i = Some f
    ∧ name f = file_name file
    ∧ (deleteFile storagePathOf (echo w1 st) i w1).1 = Resolved ()
    ∧ files_docs (deleteFile storagePathOf (echo w1 st) i w1).2 = files_docs w
    ∧ objects (deleteFile storagePathOf (echo w1 st) i w1).2
      = delete (storagePath u (clock w) file) (objects w).
Proof.
  intros Hparse Hu Hq Hok.
  assert (Hok3 : calls_ok 3 w = true).
  { revert Hok. unfold calls_ok. destruct (faults w) as [|[|] [|[|] [|[|] ?]]];
      simpl; done. }
  destruct (uploadFile_run_ok st u file None w Hu Hok3)
    as (w1 & Hrun & Hobj & Hdocs & Hfaults).
  pose proof (fresh_unused (files_docs w)) as Hfresh.
  set (i := fresh (dom (files_docs w))) in *.
  set (path := storagePath u (clock w) file) in *.
  set (d := mkFileData _ _ _ _ _ _ _ _ _ _ _ _ _) in Hdocs.
  assert (Hfind : getFileById (echo w1 st) i = Some (mkFileItem i d)).
  { unfold getFileById.
    apply (find_after_echo st (mkQuery (uid u) (currentFolder st))); [done| |].
    - by rewrite Hdocs, lookup_insert_eq.
    - unfold matches, d, js_or; simpl. by rewrite !bool_decide_eq_true_2. }
  assert (Hok2 : calls_ok 2 w1 = true).
  { revert Hok. unfold calls_ok. rewrite Hfaults.
    destruct (faults w) as [|[|] [|[|] [|[|] ?]]]; simpl; done. }
  apply calls_ok_S in Hok2 as [Hd1 Hd2].
  exists i, w1, (mkFileItem i d).
  split; [exact Hrun|]. split; [exact Hfind|]. split; [done|].
  unfold deleteFile. unfold getFileById in Hfind. rewrite Hfind, bind_run.
  rewrite deleteDoc_files_sent by done.
  change (url (mkFileItem i d)) with (Some (downloadURL path)).
  assert (Ht : truthy (Some (downloadURL path)) = true) by done.
  rewrite Ht. simpl (Some _ ≫= _). rewrite Hparse.
  set (w1' := with_files_docs _ _).
  assert (Ho' : objects w1' !! path = Some file).
  { unfold w1'. world_simpl. by rewrite Hobj, lookup_insert_eq. }
  assert (Hok' : calls_ok 1 w1' = true)
    by apply (Hd2 (call_deleteDoc "files" i)).
  destruct (deleteObject_ok path file w1' Hok' Ho') as (Hr & Hob & Hfd).
  unfold try_catch.
  destruct (deleteObject path w1') as [[[]|e] w2] eqn:Hdel; simpl in *;
    [|discriminate].
  split; [done|]. split.
  - rewrite Hfd. unfold w1'. world_simpl.
    by rewrite Hdocs, delete_insert_eq, delete_id.
  - rewrite Hob. unfold w1'. world_simpl. by rewrite Hobj, delete_insert_eq.
Qed.

Lemma upload_then_delete_leaves_no_trace_witness :
  ∃ i w1 f,
    uploadFile Sample.atRoot Sample.photo None Sample.drive = (Resolved (), w1)
    ∧ getFileById (echo w1 Sample.atRoot) i = Some f
    ∧ files_docs (deleteFile Browser.storagePathOfUrl (echo w1 Sample.atRoot) i w1).2
      = files_docs Sample.drive.
Proof.
  destruct (upload_then_delete_leaves_no_trace Browser.storagePathOfUrl Sample.atRoot
              Sample.alice Sample.photo Sample.drive
              ltac:(vm_compute; reflexivity) eq_refl eq_refl eq_refl)
    as (i & w1 & f & Hrun & Hfind & _ & _ & Hdocs & _).
  by exists i, w1, f.
Defined.

End UploadDelete.

Section DeleteSamples.
Import Files Firebase FileContext Spec.

Lemma unlisted_id_sends_nothing_witness :
  files_docs Sample.drive !! "f1" = Some Sample.projects
  ∧ deleteFile Browser.storagePathOfUrl Sample.inProjects "f1" Sample.drive
    = (Resolved (), Sample.drive).
Proof.
  split; [reflexivity|].
  exact (proj1 (proj2 (unlisted_id_sends_nothing Browser.storagePathOfUrl
    Sample.inProjects (NotesContext.mount (Some Sample.alice)) "f1"
    Sample.drive eq_refl eq_refl))).
Defined.

Lemma deleteFile_record_first_witness :
  (deleteFile Browser.storagePathOfUrl Sample.withPhoto "0"
     (with_faults [Some Sample.storageDown] Sample.uploaded)).1
  = Rejected Sample.storageDown
  ∧ is_Some
      (files_docs
         (deleteFile Browser.storagePathOfUrl Sample.withPhoto "0"
            (with_faults [Some Sample.storageDown] Sample.uploaded)).2
         !! "0").
Proof.
  destruct (deleteFile_record_first Browser.storagePathOfUrl Sample.withPhoto "0"
              (mkFileItem "0"
                 (mkFileData "photo.png" image
                    (Some (downloadURL "users/u1/1700000000000_photo.png"))
                    None Sample.t0 Sample.t0 "u1" None (Some 3%Z) false false
                    None None))
              (with_faults [Some Sample.storageDown] Sample.uploaded)
              Sample.storageDown [] eq_refl eq_refl) as (Hr & Hd & _).
  split; [exact Hr|]. rewrite Hd. by eexists.
Defined.

Lemma deleteFile_resolves_after_record_removed_witness :
  (deleteFile Browser.storagePathOfUrl Sample.withPhoto "0"
     (with_faults [None; Some Sample.storageDown] Sample.uploaded)).1
  = Resolved ()
  ∧ files_docs
      (deleteFile Browser.storagePathOfUrl Sample.withPhoto "0"
         (with_faults [None; Some Sample.storageDown] Sample.uploaded)).2
      !! "0" = None
  ∧ objects
      (deleteFile Browser.storagePathOfUrl Sample.withPhoto "0"
         (with_faults [None; Some Sample.storageDown] Sample.uploaded)).2
      !! "users/u1/1700000000000_photo.png" = Some Sample.photo.
Proof.
  destruct (deleteFile_resolves_after_record_removed Browser.storagePathOfUrl
              Sample.withPhoto "0"
              (mkFileItem "0"
                 (mkFileData "photo.png" image
                    (Some (downloadURL "users/u1/1700000000000_photo.png"))
                    None Sample.t0 Sample.t0 "u1" None (Some 3%Z) false false
                    None None))
              (with_faults [None; Some Sample.storageDown] Sample.uploaded)
              eq_refl eq_refl) as (Hr & Hd & _ & Ho).
  split; [exact Hr|]. split.
  - rewrite Hd. apply lookup_delete_eq.
  - rewrite (Ho Sample.storageDown [] eq_refl). reflexivity.
Defined.

End DeleteSamples.

(** ** Invariants of the providers *)

Section FilesInvariant.
Import Files Firebase FileContext Spec.

Lemma commit_cases (prev next : State) :
  commit prev next = next
  ∧ (currentUser prev, currentFolder prev) = (currentUser next, currentFolder next)
  ∨ commit prev next = effect (cleanup next).
Proof. unfold commit. case_decide; auto. Qed.

Lemma breadcrumbs_commit (prev next : State) :
  breadcrumbs (commit prev next) = breadcrumbs next.
Proof.
  unfold commit, effect, cleanup. case_decide; [done|].
  simpl. by destruct (currentUser next).
Qed.

Lemma effect_cleanup_coherent (st : State) :
  subscription (effect (cleanup st)) = wantedQuery (effect (cleanup st))
  ∧ (currentUser (effect (cleanup st)) = None → files (effect (cleanup st)) = []).
Proof.
  unfold effect, cleanup, wantedQuery. simpl.
  destruct (currentUser st) eqn:Hu; simpl; rewrite ?Hu; done.
Qed.

Lemma step_coherent (st : State) (e : Event) :
  subscription st = wantedQuery st →
  (currentUser st = None → files st = []) →
  subscription (step st e) = wantedQuery (step st e)
  ∧ (currentUser (step st e) = None → files (step st e) = []).
Proof.
  intros Hs Hf. destruct e as [u|docs|folderId]; simpl.
  - unfold authChanged.
    destruct (commit_cases st (setCurrentUser u st)) as [[-> Hd]| ->];
      [|apply effect_cleanup_coherent].
    simpl in Hd. injection Hd as Hd. unfold wantedQuery in *. simpl.
    rewrite <-Hd. by split.
  - unfold onSnapshot. destruct (subscription st) as [q|] eqn:Hq;
      [|by rewrite Hq].
    unfold wantedQuery in *. simpl. split; [by rewrite Hq|].
    intros Hu. rewrite Hu in Hs. discriminate.
  - unfold navigateToFolder.
    match goal with |- context [commit st ?n] => set (next := n) end.
    assert (Hn : currentUser next = currentUser st ∧ files next = files st
                 ∧ subscription next = subscription st
                 ∧ currentFolder next = folderId).
    { unfold next. destruct folderId as [fid|]; [|done].
      by destruct (Array_find _ (files st)). }
    destruct Hn as (Hnu & Hnf & Hns & Hnc). clearbody next.
    destruct (commit_cases st next) as [[-> Hd]| ->];
      [|apply effect_cleanup_coherent].
    injection Hd as _ Hd. unfold wantedQuery in *.
    rewrite Hns, Hnu, Hnf, <-Hd. by split.
Qed.

Lemma files_coherent_run (es : list Event) u :
  subscription (run es (mount u)) = wantedQuery (run es (mount u))
  ∧ (currentUser (run es (mount u)) = None → files (run es (mount u)) = []).
Proof.
  assert (H0 : subscription (mount u) = wantedQuery (mount u)
               ∧ (currentUser (mount u) = None → files (mount u) = [])).
  { unfold mount, effect, initial, wantedQuery. by destruct u. }
  revert H0. generalize (mount u). unfold run.
  induction es as [|e es IH]; intros st [Hs Hf]; simpl; [done|].
  apply IH. by apply step_coherent.
Qed.

(** X12. In every state the files provider can reach from its first
    render, by any history of identity changes, pushes and navigations, the
    live query it holds is the one for the current identity and the current
    folder ([parentId == currentFolder || null]), and none when signed out;
    and while signed out the local listing is empty. *)
Theorem files_subscription_follows_identity_and_folder u (es : list Event) :
  subscription (run es (mount u)) = wantedQuery (run es (mount u))
  ∧ (currentUser (run es (mount u)) = None → files (run es (mount u)) = []).
Proof. exact (files_coherent_run es u). Qed.

Lemma step_trail (st : State) (e : Event) :
  (∃ rest, breadcrumbs st = root :: rest ∧ length rest ≤ 2) →
  ∃ rest, breadcrumbs (step st e) = root :: rest ∧ length rest ≤ 2.
Proof.
  intros Ht. destruct e as [u|docs|folderId]; simpl.
  - unfold authChanged. by rewrite breadcrumbs_commit.
  - unfold onSnapshot. by destruct (subscription st).
  - unfold navigateToFolder. rewrite breadcrumbs_commit.
    destruct folderId as [fid|]; simpl; [|exists []; simpl; split; [done|lia]].
    destruct (Array_find _ (files st)) as [f|]; simpl; [|done].
    destruct (truthy (parentId f)); [|eexists; split; [done|simpl; lia]].
    destruct (Array_find _ (files st)); eexists; (split; [done|simpl; lia]).
Qed.

(** X13. In every reachable state of the files provider the breadcrumb
    trail starts with the root entry [{root, "My Drive"}] and has at most
    two more entries. *)
Theorem trail_starts_at_root_and_is_short u (es : list Event) :
  ∃ rest,
    breadcrumbs (run es (mount u)) = root :: rest ∧ length rest ≤ 2.
Proof.
  assert (H0 : ∃ rest, breadcrumbs (mount u) = root :: rest ∧ length rest ≤ 2).
  { exists []. unfold mount, effect, initial. destruct u; simpl; split; (done || lia). }
  revert H0. generalize (mount u). unfold run.
  induction es as [|e es IH]; intros st Ht; simpl; [done|].
  apply IH. by apply step_trail.
Qed.

End FilesInvariant.

Section NotesInvariant.
Import Notes Firebase NotesContext Spec.

Lemma notes_step_inv (st : State) (e : Event) :
  subscription st = uid <$> currentUser st →
  (currentUser st = None → notes st = []) →
  StronglySorted (λ a b, (compareNotes a b <=? 0)%Z = true) (notes st) →
  subscription (step st e) = uid <$> currentUser (step st e)
  ∧ (currentUser (step st e) = None → notes (step st e) = [])
  ∧ StronglySorted (λ a b, (compareNotes a b <=? 0)%Z = true)
      (notes (step st e)).
Proof.
  intros Hs Hn Hsorted. destruct e as [u|docs|]; simpl.
  - unfold authChanged, commit. simpl. case_decide as Hd.
    + simpl. rewrite <-Hd. done.
    + unfold effect, cleanup. simpl. destruct u; simpl; [done|].
      split; [done|]. split; [done|constructor].
  - unfold onSnapshot. destruct (subscription st) as [q|] eqn:Hq;
      [|split_and!; by rewrite ?Hq].
    simpl. split; [by rewrite Hq|]. split.
    + intros Hu. rewrite Hu in Hs. discriminate.
    + apply (sort_by_sorted _ compareNotes_total compareNotes_trans).
  - done.
Qed.

(** X14. In every state the notes provider can reach from its first
    render, by any history of identity changes, pushes and view-mode
    toggles: its live query is the one of the current identity and none
    when signed out; signed out, the local collection is empty; and the
    local collection is in display order, each note staying in front of
    every later one under the provider's comparator (pinned first, then
    most recently updated). *)
Theorem notes_provider_invariant u (es : list Event) :
  subscription (run es (mount u)) = uid <$> currentUser (run es (mount u))
  ∧ (currentUser (run es (mount u)) = None → notes (run es (mount u)) = [])
  ∧ StronglySorted (λ a b, (compareNotes a b <=? 0)%Z = true)
      (notes (run es (mount u))).
Proof.
  assert (H0 : subscription (mount u) = uid <$> currentUser (mount u)
               ∧ (currentUser (mount u) = None → notes (mount u) = [])
               ∧ StronglySorted (λ a b, (compareNotes a b <=? 0)%Z = true)
                   (notes (mount u))).
  { unfold mount, effect, initial. destruct u; simpl;
      (split; [done|]; split; [done|constructor]). }
  revert H0. generalize (mount u). unfold run.
  induction es as [|e es IH]; intros st (Hs & Hn & Hsorted); simpl; [done|].
  apply IH. by apply notes_step_inv.
Qed.

End NotesInvariant.

(** ** What the listing shows *)

Section Listing.
Import Files Firebase FileContext Spec.

Lemma find_unlisted (l : list (string * FileData)) i :
  (∀ d, (i, d) ∉ l) →
  Array_find (λ x, String.eqb (id x) i) (fileOf <$> l) = None.
Proof.
  induction l as [|[j e] l IH]; simpl; intros Hno; [done|].
  destruct (String.eqb j i) eqn:Hji.
  - apply String.eqb_eq in Hji as ->. exfalso. apply (Hno e), list_elem_of_here.
  - apply IH. intros d Hd. apply (Hno d). by apply list_elem_of_further.
Qed.

(** X15. After the store's state has come back through the open
    subscription, the listing shows exactly the records of the query: every
    listed file is a stored record of the query's owner and folder, no id
    is listed twice, and [getFileById] finds an id precisely when the store
    holds a record with that id that belongs to the query, returning that
    record. *)
Theorem listing_is_the_query_result (st : State) q (w : World) :
  subscription st = Some q →
  (∀ f, f ∈ files (echo w st) →
     files_docs w !! id f = Some (data f)
     ∧ userId f = q_userId q ∧ parentId f = q_parentId q)
  ∧ NoDup (id <$> files (echo w st))
  ∧ ∀ i,
      getFileById (echo w st) i
      = match files_docs w !! i with
        | Some d => if matches q d then Some (mkFileItem i d) else None
        | None => None
        end.
Proof.
  intros Hq.
  assert (Hfiles : files (echo w st) = fileOf <$> snapshot q w).
  { unfold echo. rewrite Hq. apply files_onSnapshot. by rewrite Hq. }
  split; [|split].
  - intros f Hf. rewrite Hfiles in Hf.
    apply list_elem_of_fmap in Hf as ([i d] & -> & Hin).
    apply snapshot_elem in Hin as [Hd Hm]. simpl. split; [done|].
    unfold matches in Hm. apply andb_true_iff in Hm as [H1 H2].
    by apply bool_decide_eq_true in H1, H2.
  - rewrite Hfiles, <-list_fmap_compose.
    apply (snapshot_NoDup q w).
  - intros i. unfold getFileById. rewrite Hfiles.
    destruct (files_docs w !! i) as [d|] eqn:Hd.
    + destruct (matches q d) eqn:Hm.
      * apply find_listed; [apply snapshot_NoDup|]. by apply snapshot_elem.
      * apply find_unlisted. intros d' Hin.
        apply snapshot_elem in Hin as [Hd' Hm']. congruence.
    + apply find_unlisted. intros d' Hin.
      apply snapshot_elem in Hin as [Hd' _]. congruence.
Qed.

Lemma listing_is_the_query_result_witness :
  getFileById Sample.atRoot "f1" = Some (mkFileItem "f1" Sample.projects)
  ∧ getFileById Sample.inProjects "f1" = None.
Proof.
  split.
  - exact (proj2 (proj2 (listing_is_the_query_result
      (mount (Some Sample.alice)) (mkQuery "u1" None) Sample.drive eq_refl))
      "f1").
  - exact (proj2 (proj2 (listing_is_the_query_result
      (navigateToFolder (Some "f1") Sample.atRoot) (mkQuery "u1" (Some "f1"))
      Sample.drive eq_refl)) "f1").
Defined.

Lemma createFolder_run_ok (st : State) u name_ parentId_ (w : World) :
  currentUser st = Some u →
  calls_ok 1 w = true →
  ∃ w',
    createFolder st name_ parentId_ w = (Resolved (), w')
    ∧ files_docs w'
      = <[fresh (dom (files_docs w)) :=
            mkFileData name_ folder None None (mkTimestamp (clock w))
              (mkTimestamp (clock w)) (uid u)
              (js_or parentId_ (currentFolder st)) None false false
              None None]> (files_docs w).
Proof.
  intros Hu Hok. eexists. split.
  - unfold createFolder. rewrite Hu, try_catch_rethrow, bind_run.
    unfold Timestamp_now. rewrite bind_run, addDoc_files_sent by done.
    reflexivity.
  - by world_simpl.
Qed.

(** X16. Create a folder, then open it.  A signed-in user at the root of
    the drive, subscribed to it, creates a folder; once the store's state
    has come back, the new folder is listed under its name, and navigating
    to it makes it the current folder, gives the trail
    [root; {id, name}], and re-targets the live query at the children of
    the new folder. *)
Theorem createFolder_then_open (st : State) u name_ (w : World) :
  currentUser st = Some u →
  currentFolder st = None →
  subscription st = Some (mkQuery (uid u) None) →
  calls_ok 1 w = true →
  ∃ i w' f,
    createFolder st name_ None w = (Resolved (), w')
    ∧ files_docs w !! i = None
    ∧ getFileById (echo w' st) i = Some f
    ∧ name f = name_ ∧ type f = folder ∧ userId f = uid u
    ∧ currentFolder (navigateToFolder (Some i) (echo w' st)) = Some i
    ∧ breadcrumbs (navigateToFolder (Some i) (echo w' st))
      = [root; mkBreadcrumb i name_]
    ∧ subscription (navigateToFolder (Some i) (echo w' st))
      = Some (mkQuery (uid u) (or_null (Some i))).
Proof.
  intros Hu Hc Hq Hok.
  destruct (createFolder_run_ok st u name_ None w Hu Hok)
    as (w' & Hrun & Hdocs).
  pose proof (fresh_unused (files_docs w)) as Hnew.
  set (i := fresh (dom (files_docs w))) in *.
  rewrite Hc in Hdocs. simpl in Hdocs.
  set (d := mkFileData _ _ _ _ _ _ _ _ _ _ _ _ _) in Hdocs.
  assert (Hfind : Array_find (λ x, String.eqb (id x) i) (files (echo w' st))
                  = Some (mkFileItem i d)).
  { apply (find_after_echo st (mkQuery (uid u) None)); [done| |].
    - by rewrite Hdocs, lookup_insert_eq.
    - unfold matches, d; simpl. by rewrite !bool_decide_eq_true_2. }
  exists i, w', (mkFileItem i d).
  split; [exact Hrun|]. split; [exact Hnew|]. split; [exact Hfind|].
  split; [done|]. split; [done|]. split; [done|].
  assert (Hu' : currentUser (echo w' st) = Some u).
  { unfold echo, onSnapshot. by rewrite Hq. }
  assert (Hc' : currentFolder (echo w' st) = None).
  { unfold echo, onSnapshot. by rewrite Hq. }
  unfold navigateToFolder. rewrite Hfind. simpl.
  unfold commit. simpl. rewrite Hu', Hc'.
  rewrite decide_False by discriminate.
  unfold effect, cleanup. simpl. by rewrite Hu'.
Qed.

Lemma createFolder_then_open_witness :
  ∃ i w' f,
    createFolder Sample.atRoot "Taxes" None Sample.drive = (Resolved (), w')
    ∧ getFileById (echo w' Sample.atRoot) i = Some f
    ∧ breadcrumbs (navigateToFolder (Some i) (echo w' Sample.atRoot))
      = [root; mkBreadcrumb i "Taxes"].
Proof.
  destruct (createFolder_then_open Sample.atRoot Sample.alice "Taxes"
              Sample.drive eq_refl eq_refl eq_refl eq_refl)
    as (i & w' & f & Hrun & _ & Hfind & _ & _ & _ & _ & Ht & _).
  by exists i, w', f.
Defined.

End Listing.

(** ** Notes: adding, deleting, pinning *)

Section NotesOps.
Import Notes Firebase NotesContext Spec.

Lemma deleteDoc_notes_sent i w :
  calls_ok 1 w = true →
  deleteDoc notesCollection i w
    = (Resolved (),
       with_notes_docs (delete i (notes_docs w))
         (sent (call_deleteDoc "notes" i) w)).
Proof. intros Hok. unfold deleteDoc. by rewrite remote_sent. Qed.

Lemma addNote_run_ok (nst : State) v title_ content_ color_ labels_ (w : World) :
  currentUser nst = Some v →
  calls_ok 1 w = true →
  addNote nst title_ content_ color_ labels_ w
  = (Resolved (),
     with_notes_docs
       (<[fresh (dom (notes_docs w)) :=
            mkNoteData title_ content_ (mkTimestamp (clock w))
              (mkTimestamp (clock w)) (uid v) (default "#ffffff" color_)
              (default [] labels_) false None None grid []]> (notes_docs w))
       (sent (call_addDoc "notes") w)).
Proof.
  intros Hv Hok. unfold addNote. rewrite Hv, bind_run.
  unfold Timestamp_now. by rewrite bind_run, addDoc_notes_sent.
Qed.

(** X17. Signed in, an [addNote] whose insert goes through adds exactly
    one note under an unused id: owned by the caller, stamped with the
    client time, white and without labels unless a colour or labels are
    given, unpinned, in grid view, with an empty checklist.  The other
    notes and the files are untouched. *)
Theorem addNote_inserts_unpinned_note
    (nst : State) v title_ content_ color_ labels_ (w : World) :
  currentUser nst = Some v →
  calls_ok 1 w = true →
  ∃ i w',
    addNote nst title_ content_ color_ labels_ w = (Resolved (), w')
    ∧ notes_docs w !! i = None
    ∧ notes_docs w'
      = <[i := mkNoteData title_ content_ (mkTimestamp (clock w))
                 (mkTimestamp (clock w)) (uid v) (default "#ffffff" color_)
                 (default [] labels_) false None None grid []]> (notes_docs w)
    ∧ files_docs w' = files_docs w.
Proof.
  intros Hv Hok. exists (fresh (dom (notes_docs w))). eexists.
  split; [by apply addNote_run_ok|].
  split; [apply fresh_unused|]. by world_simpl.
Qed.

Lemma addNote_inserts_unpinned_note_witness :
  ∃ i w',
    addNote (mount (Some Sample.alice)) "Ideas" "later" None None
      Sample.notebook = (Resolved (), w')
    ∧ (color <$> notes_docs w' !! i) = Some "#ffffff"
    ∧ (checklistItems <$> notes_docs w' !! i) = Some [].
Proof.
  destruct (addNote_inserts_unpinned_note (mount (Some Sample.alice))
              Sample.alice "Ideas" "later" None None Sample.notebook
              eq_refl eq_refl) as (i & w' & Hrun & _ & Hdocs & _).
  exists i, w'. split; [exact Hrun|]. by rewrite Hdocs, lookup_insert_eq.
Defined.

(** X18. [deleteNote] asks for neither an identity nor a local copy.  When
    its request goes through it resolves and the store loses exactly the
    note with that id; for an id the store does not hold this changes
    nothing and still resolves, so deleting again is harmless. *)
Theorem deleteNote_removes_that_note_only id_ (w : World) :
  calls_ok 2 w = true →
  (deleteNote id_ w).1 = Resolved ()
  ∧ notes_docs (deleteNote id_ w).2 = delete id_ (notes_docs w)
  ∧ files_docs (deleteNote id_ w).2 = files_docs w
  ∧ (notes_docs w !! id_ = None → notes_docs (deleteNote id_ w).2 = notes_docs w)
  ∧ (deleteNote id_ (deleteNote id_ w).2).1 = Resolved ()
  ∧ notes_docs (deleteNote id_ (deleteNote id_ w).2).2
    = notes_docs (deleteNote id_ w).2.
Proof.
  intros Hok. apply calls_ok_S in Hok as [Hok1 Hok2]. unfold deleteNote.
  rewrite (deleteDoc_notes_sent id_ w) by done. world_simpl.
  rewrite deleteDoc_notes_sent by apply Hok2. world_simpl.
  split_and!; try done.
  - intros Hn. by apply delete_id.
  - apply delete_id, lookup_delete_eq.
Qed.

Lemma deleteNote_removes_that_note_only_witness :
  notes_docs (deleteNote "n1" Sample.notebook).2 !! "n1" = None.
Proof.
  rewrite (proj1 (proj2 (deleteNote_removes_that_note_only "n1"
                           Sample.notebook eq_refl))).
  apply lookup_delete_eq.
Defined.

(** X19. Add, then delete.  Signed in, when both requests go through,
    deleting the note that [addNote] has just inserted leaves the [notes]
    collection exactly as it was before the insert. *)
Theorem addNote_then_deleteNote_restores
    (nst : State) v title_ content_ color_ labels_ (w : World) :
  currentUser nst = Some v →
  calls_ok 2 w = true →
  ∃ i w1,
    addNote nst title_ content_ color_ labels_ w = (Resolved (), w1)
    ∧ is_Some (notes_docs w1 !! i)
    ∧ (deleteNote i w1).1 = Resolved ()
    ∧ notes_docs (deleteNote i w1).2 = notes_docs w.
Proof.
  intros Hv Hok. apply calls_ok_S in Hok as [Hok1 Hok2].
  exists (fresh (dom (notes_docs w))). eexists.
  split; [by apply addNote_run_ok|]. world_simpl.
  split; [by rewrite lookup_insert_eq|].
  unfold deleteNote. rewrite deleteDoc_notes_sent by apply Hok2.
  world_simpl. split; [done|].
  rewrite delete_insert_eq. apply delete_id, fresh_unused.
Qed.

Lemma addNote_then_deleteNote_restores_witness :
  ∃ i w1,
    addNote (mount (Some Sample.alice)) "Ideas" "later" None None
      Sample.notebook = (Resolved (), w1)
    ∧ notes_docs (deleteNote i w1).2 = notes_docs Sample.notebook.
Proof.
  destruct (addNote_then_deleteNote_restores (mount (Some Sample.alice))
              Sample.alice "Ideas" "later" None None Sample.notebook
              eq_refl eq_refl) as (i & w1 & Hrun & _ & _ & Hdocs).
  by exists i, w1.
Defined.

(** X20. [togglePin] saves the local copy: for a note listed locally and
    present in the store, a [togglePin] that goes through stores the
    negated local pin flag together with the local title, content, colour
    and labels, overwriting whatever the store held in those fields, and
    stamps [updatedAt]; [checklistItems], [createdAt], [userId] and the
    remaining fields keep their stored values. *)
Theorem togglePin_writes_local_copy (nst : State) id_ (n : Note) d (w : World) :
  Array_find (λ x, String.eqb (Notes.id x) id_) (notes nst) = Some n →
  notes_docs w !! id_ = Some d →
  calls_ok 1 w = true →
  (togglePin nst id_ w).1 = Resolved ()
  ∧ notes_docs (togglePin nst id_ w).2
    = <[id_ := mkNoteData (title n) (content n) (createdAt d)
                 (mkTimestamp (clock w)) (userId d) (color n) (labels n)
                 (negb (isPinned n)) (aiSummary d) (aiSuggestions d)
                 (Notes.viewMode d) (checklistItems d)]> (notes_docs w).
Proof.
  intros Hn Hd Hok. unfold togglePin. rewrite Hn.
  unfold updateNote. rewrite bind_run. unfold Timestamp_now.
  simpl. by rewrite (updateDoc_notes _ _ d).
Qed.

Lemma togglePin_writes_local_copy_witness :
  (title <$>
     notes_docs
       (togglePin
          (onSnapshot [("n1", Sample.groceries)] (mount (Some Sample.alice)))
          "n1"
          (with_notes_docs (<["n1" := Sample.memo]> ∅) Sample.world0)).2
       !! "n1")
  = Some "Groceries".
Proof.
  rewrite (proj2 (togglePin_writes_local_copy
    (onSnapshot [("n1", Sample.groceries)] (mount (Some Sample.alice)))
    "n1" (mkNote "n1" Sample.groceries) Sample.memo
    (with_notes_docs (<["n1" := Sample.memo]> ∅) Sample.world0)
    eq_refl (lookup_insert_eq _ _ _) eq_refl)).
  by rewrite lookup_insert_eq.
Defined.

End NotesOps.

(** ** The echo of a note write *)

Section NotesEcho.
Import Notes Firebase NotesContext Spec.

Lemma find_note_unique (l : list Note) (x : Note) :
  NoDup (Notes.id <$> l) → x ∈ l →
  Array_find (λ n, String.eqb (Notes.id n) (Notes.id x)) l = Some x.
Proof.
  induction l as [|y l IH]; simpl; intros Hnd Hin.
  - by apply elem_of_nil in Hin.
  - apply NoDup_cons in Hnd as [Hy Hnd].
    apply elem_of_cons in Hin as [->|Hin].
    + by rewrite String.eqb_refl.
    + destruct (String.eqb (Notes.id y) (Notes.id x)) eqn:Hyx; [|by apply IH].
      apply String.eqb_eq in Hyx. exfalso. apply Hy. rewrite Hyx.
      apply list_elem_of_fmap. by exists x.
Qed.

Lemma notes_snapshot_Permutation v w :
  snapshot v w
    ≡ₚ filter (λ p, userId p.2 = v) (map_to_list (notes_docs w)).
Proof. apply sort_by_Permutation. Qed.

Lemma notes_after_echo (nst : State) v w :
  subscription nst = Some v →
  notes (echo w nst)
    ≡ₚ noteOf <$> filter (λ p, userId p.2 = v) (map_to_list (notes_docs w)).
Proof.
  intros Hv. unfold echo. rewrite Hv.
  rewrite notes_onSnapshot by (by rewrite Hv).
  unfold Array_sort. by rewrite sort_by_Permutation, notes_snapshot_Permutation.
Qed.

(** Once the store's state has come back through the open subscription,
    looking up a stored note of the subscribed owner finds it. *)
Lemma find_note_after_echo (nst : State) v w i d :
  subscription nst = Some v →
  notes_docs w !! i = Some d →
  userId d = v →
  Array_find (λ n, String.eqb (Notes.id n) i) (notes (echo w nst))
    = Some (mkNote i d).
Proof.
  intros Hv Hd Hu.
  apply (find_note_unique _ (mkNote i d)).
  - rewrite (notes_after_echo nst v w Hv), <-list_fmap_compose.
    eapply sublist_NoDup; [apply (NoDup_fst_map_to_list (notes_docs w))|].
    apply fmap_sublist, sublist_filter.
  - rewrite (notes_after_echo nst v w Hv).
    apply list_elem_of_fmap. exists (i, d). split; [done|].
    apply list_elem_of_filter. split; [done|]. by apply elem_of_map_to_list.
Qed.

Lemma subscription_notes_echo w (nst : State) :
  subscription (echo w nst) = subscription nst.
Proof.
  unfold echo. destruct (subscription nst) eqn:Hv; [|done].
  by rewrite subscription_notes_onSnapshot.
Qed.

(** X21. Pin, unpin.  A note is listed locally, its record is in the store
    and belongs to the subscribed owner, and the next two remote calls go
    through.  Then [togglePin], the echo of the store, [togglePin] again
    and its echo leave the note listed with the pin flag, title, content
    and checklist it had in the listing before the first call. *)
Theorem togglePin_twice_restores (nst : State) v id_ (n : Note) d (w : World) :
  subscription nst = Some v →
  Array_find (λ x, String.eqb (Notes.id x) id_) (notes nst) = Some n →
  notes_docs w !! id_ = Some d →
  userId d = v →
  calls_ok 2 w = true →
  let r1 := togglePin nst id_ w in
  let nst1 := echo r1.2 nst in
  let r2 := togglePin nst1 id_ r1.2 in
  let nst2 := echo r2.2 nst1 in
  r1.1 = Resolved () ∧ r2.1 = Resolved ()
  ∧ ∃ n2, Array_find (λ x, String.eqb (Notes.id x) id_) (notes nst2) = Some n2
          ∧ isPinned n2 = isPinned n
          ∧ title n2 = title n ∧ content n2 = content n
          ∧ checklistItems n2 = checklistItems d.
Proof.
  intros Hv Hn Hd Hu Hok. apply calls_ok_S in Hok as [Hok1 Hok2].
  intros r1 nst1 r2 nst2.
  set (d1 := mkNoteData (title n) (content n) (createdAt d)
               (mkTimestamp (clock w)) (userId d) (color n) (labels n)
               (negb (isPinned n)) (aiSummary d) (aiSuggestions d)
               (Notes.viewMode d) (checklistItems d)).
  assert (Hr1 : r1 = (Resolved (),
                      with_notes_docs (<[id_ := d1]> (notes_docs w))
                        (sent (call_updateDoc "notes" id_
                                 ["title"; "content"; "updatedAt"; "color";
                                  "labels"; "isPinned"]) w))).
  { unfold r1, togglePin. rewrite Hn. unfold updateNote.
    rewrite bind_run. unfold Timestamp_now. simpl.
    by rewrite (updateDoc_notes _ _ d). }
  assert (Hd1 : notes_docs r1.2 !! id_ = Some d1).
  { rewrite Hr1. world_simpl. by rewrite lookup_insert_eq. }
  assert (Hn1 : Array_find (λ x, String.eqb (Notes.id x) id_) (notes nst1)
                = Some (mkNote id_ d1))
    by (by apply (find_note_after_echo nst v)).
  assert (Hr2 : ∃ w2 d2, r2 = (Resolved (), w2)
                 ∧ notes_docs w2 !! id_ = Some d2
                 ∧ isPinned d2 = isPinned n ∧ title d2 = title n
                 ∧ content d2 = content n
                 ∧ checklistItems d2 = checklistItems d ∧ userId d2 = v).
  { unfold r2, togglePin. rewrite Hn1. unfold updateNote.
    rewrite bind_run. unfold Timestamp_now. simpl.
    rewrite (updateDoc_notes _ _ d1); [| |done].
    - eexists _, _. split; [reflexivity|]. world_simpl.
      rewrite lookup_insert_eq. split; [reflexivity|]. simpl.
      by rewrite negb_involutive.
    - rewrite Hr1. apply Hok2. }
  destruct Hr2 as (w2 & d2 & Hr2 & Hd2 & Hp & Ht & Hc & Hcl & Hu2).
  split; [by rewrite Hr1|]. split; [by rewrite Hr2|].
  exists (mkNote id_ d2). split; [|done].
  unfold nst2. rewrite Hr2. apply (find_note_after_echo nst1 v); [|done|done].
  unfold nst1. by rewrite subscription_notes_echo.
Qed.

Lemma togglePin_twice_restores_witness :
  let nst := echo Sample.notebook (mount (Some Sample.alice)) in
  ∃ n2,
    Array_find (λ x, String.eqb (Notes.id x) "n1")
      (notes
         (echo (togglePin (echo (togglePin nst "n1" Sample.notebook).2 nst)
                  "n1" (togglePin nst "n1" Sample.notebook).2).2
            (echo (togglePin nst "n1" Sample.notebook).2 nst)))
    = Some n2
    ∧ isPinned n2 = false.
Proof.
  intros nst.
  destruct (togglePin_twice_restores nst "u1" "n1"
              (mkNote "n1" Sample.groceries) Sample.groceries Sample.notebook)
    as (_ & _ & n2 & Hfind & Hp & _); try (vm_compute; reflexivity).
  exists n2. by split.
Defined.

End NotesEcho.

(** ** The note editor's local state *)

Section EditorCells.
Import Notes Firebase NoteEditor Spec.

Lemma setChecklistItems_same (ed : Editor) :
  setChecklistItems (checklistItems ed) ed = ed.
Proof. by destruct ed. Qed.

(** X22. Checking an item twice is a no-op: two
    [handleToggleChecklistItem] with the same id give back the editor state
    as it was, whether that id occurs once, several times or not at all;
    and a single one keeps the number, the order, the ids and the texts of
    the items. *)
Theorem handleToggleChecklistItem_twice (itemId : string) (ed : Editor) :
  handleToggleChecklistItem itemId (handleToggleChecklistItem itemId ed) = ed
  ∧ Notes.Item.id <$> checklistItems (handleToggleChecklistItem itemId ed)
    = Notes.Item.id <$> checklistItems ed
  ∧ Notes.Item.text <$> checklistItems (handleToggleChecklistItem itemId ed)
    = Notes.Item.text <$> checklistItems ed.
Proof.
  split; [|split].
  - unfold handleToggleChecklistItem at 1. simpl.
    rewrite <-list_fmap_compose.
    rewrite (list_fmap_ext _ Datatypes.id (checklistItems ed)), list_fmap_id.
    + destruct ed; reflexivity.
    + intros _ [i t c] _. simpl.
      destruct (String.eqb i itemId) eqn:Hi; simpl; rewrite ?Hi; simpl;
        by rewrite ?negb_involutive.
  - simpl. rewrite <-list_fmap_compose. apply list_fmap_ext.
    intros _ [i t c] _. simpl. by destruct (String.eqb i itemId).
  - simpl. rewrite <-list_fmap_compose. apply list_fmap_ext.
    intros _ [i t c] _. simpl. by destruct (String.eqb i itemId).
Qed.

(** X23. Add, then remove.  [handleAddChecklistItem] appends at most one
    item: with a non-blank input, the item [{uuid, trimmed input, not
    completed}] at the end, and with a blank input nothing.  When no item
    already has the id [uuid], removing that id afterwards gives back the
    checklist as it was before the add. *)
Theorem handleAdd_then_handleDelete (uuid : string) (ed : Editor) :
  uuid ∉ (Notes.Item.id <$> checklistItems ed) →
  checklistItems (handleAddChecklistItem uuid ed)
    = (if String.eqb (trim (newChecklistItem ed)) EmptyString
       then checklistItems ed
       else checklistItems ed
              ++ [mkChecklistItem uuid (trim (newChecklistItem ed)) false])
  ∧ checklistItems
      (handleDeleteChecklistItem uuid (handleAddChecklistItem uuid ed))
    = checklistItems ed.
Proof.
  intros Hfresh.
  assert (Hkeep : filter (λ item, Notes.Item.id item ≠ uuid) (checklistItems ed)
                  = checklistItems ed).
  { revert Hfresh. induction (checklistItems ed) as [|x l IH]; [done|].
    rewrite fmap_cons, not_elem_of_cons. intros [Hx Hl].
    rewrite filter_cons_True by (by intros ?). by rewrite IH. }
  unfold handleAddChecklistItem.
  destruct (String.eqb (trim (newChecklistItem ed)) EmptyString); simpl.
  - by split.
  - split; [done|]. rewrite filter_app, Hkeep.
    rewrite filter_cons_False by (simpl; by intros []).
    by rewrite filter_nil, app_nil_r.
Qed.

Lemma handleAdd_then_handleDelete_witness :
  checklistItems
    (handleAddChecklistItem "uuid-1"
       (mkEditor None "Trip" "pack" "#ffffff" [] false
          [mkChecklistItem "a" "milk" false] "  eggs "))
  = [mkChecklistItem "a" "milk" false; mkChecklistItem "uuid-1" "eggs" false].
Proof.
  assert (H : "uuid-1" ∉ Notes.Item.id <$> checklistItems
                (mkEditor None "Trip" "pack" "#ffffff" [] false
                   [mkChecklistItem "a" "milk" false] "  eggs ")).
  { simpl. intros H. apply list_elem_of_singleton in H. discriminate H. }
  exact (proj1 (handleAdd_then_handleDelete "uuid-1"
    (mkEditor None "Trip" "pack" "#ffffff" [] false
       [mkChecklistItem "a" "milk" false] "  eggs ") H)).
Defined.

(** X24. Labels stay a set.  When the editor's labels are pairwise
    distinct and none is empty, they still are after [handleAddLabel]
    (which adds the trimmed input only if it is non-empty and new, and
    always clears the input) and after [handleRemoveLabel], and the removed
    label is gone. *)
Theorem labels_stay_distinct (newLabel labelToRemove : string) (ed : Editor) :
  NoDup (labels ed) →
  EmptyString ∉ labels ed →
  NoDup (labels (handleAddLabel newLabel ed).1)
  ∧ (EmptyString ∉ labels (handleAddLabel newLabel ed).1)
  ∧ (handleAddLabel newLabel ed).2 = EmptyString
  ∧ NoDup (labels (handleRemoveLabel labelToRemove ed))
  ∧ (EmptyString ∉ labels (handleRemoveLabel labelToRemove ed))
  ∧ (labelToRemove ∉ labels (handleRemoveLabel labelToRemove ed)).
Proof.
  intros Hnd Hne. unfold handleAddLabel, handleRemoveLabel. simpl.
  split_and!.
  - destruct (String.eqb (trim newLabel) EmptyString) eqn:He; simpl; [done|].
    case_bool_decide as Hin; simpl; [done|].
    apply NoDup_app. split; [done|]. split; [|apply NoDup_singleton].
    intros x Hx Hx'. apply list_elem_of_singleton in Hx'. by subst.
  - destruct (String.eqb (trim newLabel) EmptyString) eqn:He; simpl; [done|].
    case_bool_decide as Hin; simpl; [done|].
    rewrite elem_of_app, list_elem_of_singleton. intros [H|H]; [done|].
    rewrite <-H in He. discriminate He.
  - done.
  - by apply NoDup_filter.
  - rewrite list_elem_of_filter. by intros [_ ?].
  - rewrite list_elem_of_filter. by intros [? _].
Qed.

Lemma labels_stay_distinct_witness :
  NoDup
    (labels
       (handleAddLabel " work "
          (mkEditor None "Trip" "pack" "#ffffff" ["work"; "home"] false []
             EmptyString)).1)
  ∧ ("home" ∉
       labels
         (handleRemoveLabel "home"
            (mkEditor None "Trip" "pack" "#ffffff" ["work"; "home"] false []
               EmptyString))).
Proof.
  assert (H1 : NoDup ["work"; "home"]) by compute_done.
  assert (H2 : EmptyString ∉ ["work"; "home"]) by compute_done.
  destruct (labels_stay_distinct " work " "home"
    (mkEditor None "Trip" "pack" "#ffffff" ["work"; "home"] false []
       EmptyString) H1 H2) as (Ha & _ & _ & _ & _ & Hr).
  exact (conj Ha Hr).
Defined.

End EditorCells.

(** ** Submitting the note editor *)

Section EditorSubmit.
Import Notes Firebase NoteEditor Spec.

(** X25. Submitting a new note.  With no [note] prop, a title and a content
    that are not blank, a signed-in user and an insert that goes through,
    [handleSubmit] stores one new note holding the title, content, colour
    and labels of the editor as typed (not trimmed).  The editor's pin
    flag and its checklist are not passed on: the stored note is unpinned
    and its checklist is empty. *)
Theorem handleSubmit_new_note_drops_pin_and_checklist
    (ctx : NotesContext.State) v (ed : Editor) (w : World) :
  note ed = None →
  String.eqb (trim (title ed)) EmptyString = false →
  String.eqb (trim (content ed)) EmptyString = false →
  NotesContext.currentUser ctx = Some v →
  calls_ok 1 w = true →
  ∃ i w',
    handleSubmit ctx ed w = (Resolved (), w')
    ∧ notes_docs w !! i = None
    ∧ notes_docs w'
      = <[i := mkNoteData (title ed) (content ed) (mkTimestamp (clock w))
                 (mkTimestamp (clock w)) (uid v) (color ed) (labels ed)
                 false None None grid []]> (notes_docs w).
Proof.
  intros Hn Ht Hc Hv Hok. unfold handleSubmit. rewrite Hn, Ht, Hc. simpl.
  exists (fresh (dom (notes_docs w))). eexists.
  split; [by apply addNote_run_ok|].
  split; [apply fresh_unused|]. by world_simpl.
Qed.

Lemma handleSubmit_new_note_drops_pin_and_checklist_witness :
  ∃ i w',
    handleSubmit (NotesContext.mount (Some Sample.alice))
      (mkEditor None "Trip" " pack " "#ffffff" ["home"] true
         [mkChecklistItem "a" "milk" false] EmptyString)
      Sample.notebook = (Resolved (), w')
    ∧ (Notes.isPinned <$> notes_docs w' !! i) = Some false
    ∧ (Notes.checklistItems <$> notes_docs w' !! i) = Some []
    ∧ (Notes.content <$> notes_docs w' !! i) = Some " pack ".
Proof.
  destruct (handleSubmit_new_note_drops_pin_and_checklist
              (NotesContext.mount (Some Sample.alice)) Sample.alice
              (mkEditor None "Trip" " pack " "#ffffff" ["home"] true
                 [mkChecklistItem "a" "milk" false] EmptyString)
              Sample.notebook eq_refl eq_refl eq_refl eq_refl eq_refl)
    as (i & w' & Hrun & _ & Hdocs).
  exists i, w'. split; [exact Hrun|]. by rewrite Hdocs, lookup_insert_eq.
Defined.

(** Nothing is sent for a blank form: when the title or the content
    is empty or only white space, [handleSubmit] resolves and leaves the
    world, its call log included, untouched, for a new note as for an
    existing one. *)
Theorem handleSubmit_blank_sends_nothing
    (ctx : NotesContext.State) (ed : Editor) (w : World) :
  trim (title ed) = EmptyString ∨ trim (content ed) = EmptyString →
  handleSubmit ctx ed w = (Resolved (), w).
Proof.
  intros [H|H]; unfold handleSubmit; rewrite H; simpl; [done|].
  by rewrite orb_true_r.
Qed.

Lemma handleSubmit_blank_sends_nothing_witness :
  handleSubmit (NotesContext.mount (Some Sample.alice))
    (mkEditor (Some (mkNote "n1" Sample.groceries)) "Groceries" "  "
       "#ffffff" [] false [] EmptyString)
    Sample.notebook
  = (Resolved (), Sample.notebook).
Proof.
  exact (handleSubmit_blank_sends_nothing
    (NotesContext.mount (Some Sample.alice))
    (mkEditor (Some (mkNote "n1" Sample.groceries)) "Groceries" "  "
       "#ffffff" [] false [] EmptyString)
    Sample.notebook (or_intror eq_refl)).
Defined.

(** X26. Open, then save.  The editor is opened on a note as the store
    holds it and submitted without an edit; when the title and the content
    are not blank and the update goes through, the stored note differs from
    before only in [updatedAt], which becomes the client time. *)
Theorem open_then_submit_touches_updatedAt_only
    (ctx : NotesContext.State) i d (w : World) :
  notes_docs w !! i = Some d →
  String.eqb (trim (Notes.title d)) EmptyString = false →
  String.eqb (trim (Notes.content d)) EmptyString = false →
  calls_ok 1 w = true →
  ∃ w',
    handleSubmit ctx (loadNote (initial (Some (mkNote i d)))) w
      = (Resolved (), w')
    ∧ notes_docs w'
      = <[i := mkNoteData (Notes.title d) (Notes.content d)
                 (Notes.createdAt d) (mkTimestamp (clock w)) (Notes.userId d)
                 (Notes.color d) (Notes.labels d) (Notes.isPinned d)
                 (Notes.aiSummary d) (Notes.aiSuggestions d)
                 (Notes.viewMode d) (Notes.checklistItems d)]> (notes_docs w).
Proof.
  intros Hd Ht Hc Hok. unfold handleSubmit, loadNote, initial. simpl.
  rewrite Ht, Hc. simpl. unfold NotesContext.updateNote.
  rewrite bind_run. unfold Timestamp_now. simpl.
  rewrite (updateDoc_notes _ _ d) by done.
  eexists. split; [reflexivity|]. by world_simpl.
Qed.

Lemma open_then_submit_touches_updatedAt_only_witness :
  ∃ w',
    handleSubmit (NotesContext.mount (Some Sample.alice))
      (loadNote (initial (Some (mkNote "n1" Sample.groceries))))
      Sample.notebook = (Resolved (), w')
    ∧ (Notes.checklistItems <$> notes_docs w' !! "n1")
      = Some [mkChecklistItem "a" "milk" false].
Proof.
  destruct (open_then_submit_touches_updatedAt_only
              (NotesContext.mount (Some Sample.alice)) "n1" Sample.groceries
              Sample.notebook eq_refl eq_refl eq_refl eq_refl)
    as (w' & Hrun & Hdocs).
  exists w'. split; [exact Hrun|]. by rewrite Hdocs, lookup_insert_eq.
Defined.

End EditorSubmit.

(** ** The document editor *)

Section Documents.
Import Files Firebase FileContext Spec.

Lemma updateDocument_outcome (st : State) id_ content_ (w : World) :
  ((updateDocument st id_ content_ w).1 = Resolved ()
   ∧ ∃ d, files_docs w !! id_ = Some d
          ∧ files_docs (updateDocument st id_ content_ w).2 !! id_
            = Some (write_field (set_updatedAt (mkTimestamp (clock w)))
                      (write_field (set_content content_) d)))
  ∨ (rejected (updateDocument st id_ content_ w).1 = true
     ∧ files_docs (updateDocument st id_ content_ w).2 = files_docs w).
Proof.
  unfold updateDocument. rewrite bind_run. unfold Timestamp_now, updateDoc, remote.
  destruct w as [fd nd ob ck fs cs]. world_simpl.
  destruct fs as [|[e|] fs]; world_simpl; [| by right |].
  all: destruct (fd !! id_) as [d|] eqn:Hd; world_simpl; [|by right].
  all: left; split; [done|]; exists d; split; [done|];
    by rewrite lookup_insert_eq.
Qed.

(** X27. A save never fails towards the page.  Whatever the store does,
    [save] resolves, leaves [isSaving] off and the loaded document and text
    cells as they were, and reports the outcome in [saveStatus]: [saved]
    (with the alert raised) exactly when [updateDocument] resolved, in
    which case the stored content is the text saved; [error] exactly when
    it was rejected, in which case the [files] collection is unchanged. *)
Theorem save_reports_outcome
    (st : State) docId newContent (ed : DocumentEditor.Editor) (w : World) :
  ∃ ed' w',
    DocumentEditor.save st docId newContent ed w = (Resolved ed', w')
    ∧ DocumentEditor.isSaving ed' = false
    ∧ DocumentEditor.document_ ed' = DocumentEditor.document_ ed
    ∧ DocumentEditor.content ed' = DocumentEditor.content ed
    ∧ ((DocumentEditor.saveStatus ed' = DocumentEditor.saved
        ∧ DocumentEditor.showSaveAlert ed' = true
        ∧ (updateDocument st docId newContent w).1 = Resolved ()
        ∧ (content <$> files_docs w' !! docId) = Some (Some newContent))
       ∨ (DocumentEditor.saveStatus ed' = DocumentEditor.error
          ∧ rejected (updateDocument st docId newContent w).1 = true
          ∧ files_docs w' = files_docs w)).
Proof.
  unfold DocumentEditor.save.
  destruct (updateDocument_outcome st docId newContent w)
    as [[Hr (d & Hd & Hd')]|[Hr Hd]].
  - destruct (updateDocument st docId newContent w) as [[[]|e] w'] eqn:Hrun;
      simpl in *; [|discriminate].
    eexists _, _. split; [reflexivity|]. simpl. split_and!; try done.
    left. split_and!; try done. by rewrite Hd'.
  - destruct (updateDocument st docId newContent w) as [[[]|e] w'] eqn:Hrun;
      simpl in *; [discriminate|].
    eexists _, _. split; [reflexivity|]. simpl. split_and!; try done.
    right. by split_and!.
Qed.

Lemma getFileById_after_echo (st : State) q (w : World) i :
  subscription st = Some q →
  getFileById (echo w st) i
  = match files_docs w !! i with
    | Some d => if matches q d then Some (mkFileItem i d) else None
    | None => None
    end.
Proof.
  intros Hq. unfold getFileById, echo. rewrite Hq.
  rewrite files_onSnapshot by (by rewrite Hq).
  destruct (files_docs w !! i) as [d|] eqn:Hd.
  - destruct (matches q d) eqn:Hm.
    + apply find_listed; [apply snapshot_NoDup|]. by apply snapshot_elem.
    + apply find_unlisted. intros d' Hin.
      apply snapshot_elem in Hin as [Hd' Hm']. congruence.
  - apply find_unlisted. intros d' Hin.
    apply snapshot_elem in Hin as [Hd' _]. congruence.
Qed.

(** X28. Which ids open in the document editor.  With the listing in step
    with the store, the editor's load effect opens [fileId] (loading the
    record and its text, or the empty text when it has none) exactly when
    the store holds a record with that id that is a document of the
    subscribed owner in the current folder; for every other id (an unknown
    one, a folder, an image, a document of another folder) it navigates to
    [/files] and loads nothing. *)
Theorem document_opens_only_from_current_listing
    (st : State) q (w : World) fileId :
  subscription st = Some q →
  DocumentEditor.load (echo w st) fileId DocumentEditor.initial
  = match files_docs w !! fileId with
    | Some d =>
        match matches q d, type d with
        | true, document =>
            DocumentEditor.mkEditor (Some (mkFileItem fileId d))
              (default EmptyString (content d)) false DocumentEditor.saved
              false None
        | _, _ =>
            DocumentEditor.mkEditor None EmptyString false
              DocumentEditor.saved false (Some "/files")
        end
    | None =>
        DocumentEditor.mkEditor None EmptyString false DocumentEditor.saved
          false (Some "/files")
    end.
Proof.
  intros Hq. unfold DocumentEditor.load.
  rewrite (getFileById_after_echo st q w fileId Hq).
  destruct (files_docs w !! fileId) as [d|]; [|done].
  destruct (matches q d); [|done]. simpl. by destruct (type d).
Qed.

Lemma document_opens_only_from_current_listing_witness :
  DocumentEditor.document_
    (DocumentEditor.load Sample.atRoot "d1" DocumentEditor.initial)
  = Some (mkFileItem "d1" Sample.report)
  ∧ DocumentEditor.navigated
      (DocumentEditor.load Sample.inProjects "d1" DocumentEditor.initial)
    = Some "/files".
Proof.
  unfold Sample.inProjects, Sample.atRoot. split.
  - rewrite (document_opens_only_from_current_listing
               (mount (Some Sample.alice)) (mkQuery "u1" None) Sample.drive
               "d1" eq_refl).
    reflexivity.
  - fold Sample.atRoot.
    rewrite (document_opens_only_from_current_listing
               (navigateToFolder (Some "f1") Sample.atRoot)
               (mkQuery "u1" (Some "f1")) Sample.drive "d1" eq_refl).
    reflexivity.
Defined.

End Documents.

(** ** Re-subscribing, and the way back to the root *)

Section Resubscribe.
Import Files Firebase FileContext Spec.

(** X29. Re-subscribing does not clear the listing.  While signed in,
    neither a navigation nor a change to another signed-in identity touches
    the local collections: the files of the previous folder, or of the
    previous user, stay listed until the first push of the new subscription
    replaces them.  The same holds for the notes of the previous user. *)
Theorem resubscribing_keeps_old_listing
    (st : State) (nst : NotesContext.State) u v folderId :
  currentUser st = Some u →
  NotesContext.currentUser nst = Some u →
  files (navigateToFolder folderId st) = files st
  ∧ files (authChanged (Some v) st) = files st
  ∧ subscription (authChanged (Some v) st)
    = (if decide (u = v) then subscription st
       else Some (mkQuery (uid v) (or_null (currentFolder st))))
  ∧ NotesContext.notes (NotesContext.authChanged (Some v) nst)
    = NotesContext.notes nst.
Proof.
  intros Hu Hn. split_and!.
  - unfold navigateToFolder.
    match goal with |- context [commit st ?n] => set (next := n) end.
    assert (Hnext : files next = files st ∧ currentUser next = Some u).
    { unfold next. destruct folderId as [fid|]; [|done].
      by destruct (Array_find _ (files st)). }
    destruct Hnext as [Hf Hcu]. clearbody next.
    unfold commit. case_decide; [done|].
    unfold effect, cleanup. simpl. by rewrite Hcu.
  - unfold authChanged, commit. simpl. by case_decide.
  - unfold authChanged, commit. simpl. rewrite Hu.
    destruct (decide (u = v)) as [->|Hne].
    + by rewrite decide_True.
    + rewrite decide_False by congruence. done.
  - unfold NotesContext.authChanged, NotesContext.commit. simpl.
    by case_decide.
Qed.

Lemma resubscribing_keeps_old_listing_witness :
  files (authChanged (Some (mkUser "u2")) Sample.atRoot) = files Sample.atRoot
  ∧ files Sample.atRoot ≠ [].
Proof.
  split.
  - exact (proj1 (proj2 (resubscribing_keeps_old_listing Sample.atRoot
      (NotesContext.mount (Some Sample.alice)) Sample.alice (mkUser "u2")
      None eq_refl eq_refl))).
  - vm_compute. discriminate.
Defined.

Lemma run_trail (es : list Event) (st : State) :
  (∃ rest, breadcrumbs st = root :: rest ∧ length rest ≤ 2) →
  ∃ rest, breadcrumbs (run es st) = root :: rest ∧ length rest ≤ 2.
Proof.
  revert st. unfold run.
  induction es as [|e es IH]; intros st Ht; simpl; [done|].
  apply IH. by apply step_trail.
Qed.

(** X30. The way back.  In every reachable state of the files provider,
    clicking the first entry of the trail leads to the root: the current
    folder becomes none, the trail becomes [[root]], and a signed-in user's
    live query is re-targeted at the records without a parent. *)
Theorem first_crumb_leads_to_root u (es : list Event) c rest :
  breadcrumbs (run es (mount u)) = c :: rest →
  currentFolder (handleBreadcrumbClick (crumb_id c) (run es (mount u))) = None
  ∧ breadcrumbs (handleBreadcrumbClick (crumb_id c) (run es (mount u)))
    = [root]
  ∧ subscription (handleBreadcrumbClick (crumb_id c) (run es (mount u)))
    = (λ x, mkQuery (uid x) None) <$> currentUser (run es (mount u)).
Proof.
  intros Hc.
  destruct (run_trail es (mount u)) as (rest' & Ht & _).
  { exists []. unfold mount, effect, initial.
    destruct u; simpl; split; (done || lia). }
  rewrite Hc in Ht. injection Ht as -> _.
  destruct (files_coherent_run es u) as [Hs Hf].
  set (st := run es (mount u)) in *.
  unfold handleBreadcrumbClick. simpl. unfold navigateToFolder, commit. simpl.
  case_decide as Hd.
  - injection Hd as Hd. simpl. split; [done|]. split; [done|].
    rewrite Hs. unfold wantedQuery. rewrite Hd. by destruct (currentUser st).
  - unfold effect, cleanup. simpl.
    destruct (currentUser st); simpl; by split_and!.
Qed.

Lemma first_crumb_leads_to_root_witness :
  breadcrumbs
    (run [Push [("f1", Sample.projects)]; Navigate (Some "f1")]
       (mount (Some Sample.alice)))
  = [root; mkBreadcrumb "f1" "Projects"]
  ∧ breadcrumbs
      (handleBreadcrumbClick "root"
         (run [Push [("f1", Sample.projects)]; Navigate (Some "f1")]
            (mount (Some Sample.alice))))
    = [root].
Proof.
  split; [reflexivity|].
  exact (proj1 (proj2 (first_crumb_leads_to_root (Some Sample.alice)
    [Push [("f1", Sample.projects)]; Navigate (Some "f1")]
    root [mkBreadcrumb "f1" "Projects"] eq_refl))).
Defined.

End Resubscribe.

(** ** The trail in a running session *)

Section Session.
Import Files Firebase FileContext Spec.

Lemma find_all_false {A} (p : A → bool) (l : list A) :
  (∀ x, x ∈ l → p x = false) → Array_find p l = None.
Proof.
  induction l as [|y l IH]; simpl; intros H; [done|].
  rewrite (H y) by apply list_elem_of_here.
  apply IH. intros x Hx. apply H. by apply list_elem_of_further.
Qed.

Lemma find_file_unique (l : list FileItem) (x : FileItem) :
  NoDup (id <$> l) → x ∈ l →
  Array_find (λ y, String.eqb (id y) (id x)) l = Some x.
Proof.
  induction l as [|y l IH]; simpl; intros Hnd Hin.
  - by apply elem_of_nil in Hin.
  - apply NoDup_cons in Hnd as [Hy Hnd].
    apply elem_of_cons in Hin as [->|Hin].
    + by rewrite String.eqb_refl.
    + destruct (String.eqb (id y) (id x)) eqn:Hyx; [|by apply IH].
      apply String.eqb_eq in Hyx. exfalso. apply Hy. rewrite Hyx.
      apply list_elem_of_fmap. by exists x.
Qed.

Lemma currentFolder_commit (prev next : State) :
  currentFolder (commit prev next) = currentFolder next.
Proof.
  unfold commit, effect, cleanup. case_decide; [done|].
  simpl. by destruct (currentUser next).
Qed.

Lemma files_commit (prev next : State) :
  files (commit prev next) = files next ∨ files (commit prev next) = [].
Proof.
  unfold commit, effect, cleanup. case_decide; [by left|].
  simpl. destruct (currentUser next); [by left|by right].
Qed.

Lemma flatListing_nil : flatListing [].
Proof.
  split; [constructor|]. intros f p Hf. by apply elem_of_nil in Hf.
Qed.

Lemma flatListing_commit (prev next : State) :
  flatListing (files next) → flatListing (files (commit prev next)).
Proof.
  intros H. destruct (files_commit prev next) as [-> | ->];
    [done|apply flatListing_nil].
Qed.

Lemma flatListing_echo w (st : State) :
  noSelfParent w → flatListing (files st) → flatListing (files (echo w st)).
Proof.
  intros Hw Hst. unfold echo. destruct (subscription st) as [q|] eqn:Hq; [|done].
  rewrite files_onSnapshot by (by rewrite Hq). split.
  - rewrite <-list_fmap_compose. apply (snapshot_NoDup q w).
  - intros f p Hf Hp Hpar.
    apply list_elem_of_fmap in Hf as ([i d] & -> & Hf).
    apply list_elem_of_fmap in Hp as ([j e] & -> & Hp).
    apply snapshot_elem in Hf as [Hd Hm], Hp as [He Hm'].
    simpl in Hpar.
    unfold matches in Hm, Hm'.
    apply andb_true_iff in Hm as [_ Hm], Hm' as [_ Hm'].
    apply bool_decide_eq_true in Hm, Hm'.
    apply (Hw j e He). unfold fileOf in Hpar. simpl in Hpar. congruence.
Qed.

(** Navigating to a listed file of a flat listing. *)
Lemma navigate_listed (st : State) (f : FileItem) :
  flatListing (files st) → f ∈ files st →
  currentFolder (navigateToFolder (Some (id f)) st) = Some (id f)
  ∧ breadcrumbs (navigateToFolder (Some (id f)) st)
    = [root; mkBreadcrumb (id f) (name f)].
Proof.
  intros [Hnd Hflat] Hf. unfold navigateToFolder.
  rewrite currentFolder_commit, breadcrumbs_commit.
  rewrite (find_file_unique _ f Hnd Hf).
  rewrite (find_all_false (λ x, bool_decide (Some (id x) = parentId f))).
  - by destruct (truthy (parentId f)).
  - intros p Hp. apply bool_decide_eq_false_2. intros Heq.
    by apply (Hflat f p).
Qed.

Lemma files_navigate (folderId : option string) (st : State) :
  flatListing (files st) →
  flatListing (files (navigateToFolder folderId st)).
Proof.
  intros H. unfold navigateToFolder. apply flatListing_commit.
  destruct folderId as [fid|]; [|done].
  by destruct (Array_find _ (files st)).
Qed.

Lemma perform_keeps (st : State) (g : Gesture) :
  offered st g →
  trailAtCurrent st → flatListing (files st) →
  trailAtCurrent (perform st g) ∧ flatListing (files (perform st g)).
Proof.
  intros Hg Ht Hl. destruct g as [u|w|file|crumb]; simpl in *.
  - split.
    + unfold trailAtCurrent, authChanged.
      rewrite currentFolder_commit, breadcrumbs_commit. exact Ht.
    + unfold authChanged. by apply flatListing_commit.
  - split; [|by apply flatListing_echo].
    unfold trailAtCurrent, echo, onSnapshot.
    by destruct (subscription st).
  - unfold handleFileClick. destruct (type file); try done.
    split; [|by apply files_navigate].
    destruct (navigate_listed st file Hl Hg) as [Hc Hb].
    right. by exists (id file), (name file).
  - unfold handleBreadcrumbClick.
    destruct (String.eqb (crumb_id crumb) "root") eqn:Hroot.
    + split; [|by apply files_navigate].
      left. unfold navigateToFolder.
      by rewrite currentFolder_commit, breadcrumbs_commit.
    + split; [|by apply files_navigate].
      assert (Hcur : ∃ name_, currentFolder st = Some (crumb_id crumb)
                              ∧ breadcrumbs st
                                = [root; mkBreadcrumb (crumb_id crumb) name_]).
      { destruct Ht as [[_ Hb]|(f & n & Hc & Hb)]; rewrite Hb in Hg.
        - apply list_elem_of_singleton in Hg. subst crumb. discriminate Hroot.
        - apply elem_of_cons in Hg as [->|Hg]; [discriminate Hroot|].
          apply list_elem_of_singleton in Hg. subst crumb. by exists n. }
      destruct Hcur as (n & Hc & Hb).
      destruct (Array_find (λ x, String.eqb (id x) (crumb_id crumb)) (files st))
        as [f|] eqn:Hfind.
      * pose proof Hfind as Hin. apply find_some in Hin as [Hin Hid].
        apply String.eqb_eq in Hid. apply list_elem_of_In in Hin.
        destruct (navigate_listed st f Hl Hin) as [Hc' Hb'].
        rewrite Hid in Hc', Hb'. right. by exists (crumb_id crumb), (name f).
      * right. exists (crumb_id crumb), n. unfold navigateToFolder.
        rewrite currentFolder_commit, breadcrumbs_commit, Hfind. by split.
Qed.

Lemma session_keeps (gs : list Gesture) (st : State) :
  session gs st →
  trailAtCurrent st → flatListing (files st) →
  trailAtCurrent (after gs st) ∧ flatListing (files (after gs st)).
Proof.
  revert st. unfold after.
  induction gs as [|g gs IH]; intros st Hs Ht Hl; simpl; [done|].
  destruct Hs as [Hg Hs].
  destruct (perform_keeps st g Hg Ht Hl) as [Ht' Hl'].
  by apply IH.
Qed.

(** C5. In a session of the application (identity changes, store states
    without a self-parented record arriving through the subscription,
    clicks on listed files and on entries of the trail, which are all the
    calls of [navigateToFolder] there are), in every state, so after every
    such call: at the root the trail is exactly [[root]]; elsewhere it is
    [[root; F]] with [F] the current folder, so it starts with the root
    entry, ends with the current folder and has no more than one entry in
    between; and a click on a listed folder makes that folder current with
    the trail [[root; {its id, its name}]]. *)
Theorem trail_ends_at_current_folder u (gs : list Gesture) :
  session gs (mount u) →
  ((currentFolder (after gs (mount u)) = None
    ∧ breadcrumbs (after gs (mount u)) = [root])
   ∨ ∃ f name_,
       currentFolder (after gs (mount u)) = Some f
       ∧ breadcrumbs (after gs (mount u)) = [root; mkBreadcrumb f name_])
  ∧ head (breadcrumbs (after gs (mount u))) = Some root
  ∧ last (crumb_ids (breadcrumbs (after gs (mount u))))
    = Some (default "root" (currentFolder (after gs (mount u))))
  ∧ length (breadcrumbs (after gs (mount u))) ≤ 3
  ∧ ∀ file : FileItem,
      file ∈ files (after gs (mount u)) → type file = folder →
      currentFolder (handleFileClick file (after gs (mount u)))
        = Some (id file)
      ∧ breadcrumbs (handleFileClick file (after gs (mount u)))
        = [root; mkBreadcrumb (id file) (name file)].
Proof.
  intros Hs.
  assert (H0 : trailAtCurrent (mount u) ∧ flatListing (files (mount u))).
  { split.
    - left. unfold mount, effect, initial. by destruct u.
    - unfold mount, effect, initial. destruct u; apply flatListing_nil. }
  destruct H0 as [Ht0 Hl0].
  destruct (session_keeps gs (mount u) Hs Ht0 Hl0) as [Ht Hl].
  split; [exact Ht|].
  split_and!.
  - destruct Ht as [[_ ->]|(f & n & _ & ->)]; done.
  - destruct Ht as [[-> ->]|(f & n & -> & ->)]; done.
  - destruct Ht as [[_ ->]|(f & n & _ & ->)]; simpl; lia.
  - intros file Hin Hty. unfold handleFileClick. rewrite Hty.
    by apply navigate_listed.
Qed.

Lemma drive_noSelfParent : noSelfParent Sample.drive.
Proof.
  unfold noSelfParent, Sample.drive. simpl.
  repeat (apply map_Forall_insert_2; [done|]).
  apply map_Forall_empty.
Qed.

Lemma visit_session : session Sample.visit (mount None).
Proof.
  unfold Sample.visit. simpl.
  split_and!; try done; try apply drive_noSelfParent.
  - vm_compute. repeat constructor.
  - vm_compute. repeat constructor.
  - vm_compute. repeat constructor.
Defined.

Lemma trail_ends_at_current_folder_witness :
  session Sample.visit (mount None)
  ∧ currentFolder (after Sample.visit (mount None)) = Some "f2"
  ∧ breadcrumbs (after Sample.visit (mount None))
    = [root; mkBreadcrumb "f2" "Archive"]
  ∧ last (crumb_ids (breadcrumbs (after Sample.visit (mount None))))
    = Some "f2"
  ∧ breadcrumbs
      (handleFileClick (mkFileItem "f1" Sample.projects)
         (after Sample.visit (mount None)))
    = [root; mkBreadcrumb "f1" "Projects"].
Proof.
  destruct (trail_ends_at_current_folder None Sample.visit visit_session)
    as (Hshape & _ & Hlast & _ & Hclick).
  split; [exact visit_session|].
  assert (Hcur : currentFolder (after Sample.visit (mount None)) = Some "f2")
    by (vm_compute; reflexivity).
  split; [exact Hcur|].
  split.
  - destruct Hshape as [[Hc _]|(f & n & Hc & Hb)]; [congruence|].
    rewrite Hb. rewrite Hcur in Hc. injection Hc as <-.
    assert (Hn : crumb_name <$> breadcrumbs (after Sample.visit (mount None))
                 = ["My Drive"; "Archive"]) by (vm_compute; reflexivity).
    rewrite Hb in Hn. by injection Hn as <-.
  - split.
    + rewrite Hlast, Hcur. reflexivity.
    + apply (Hclick (mkFileItem "f1" Sample.projects)); [|reflexivity].
      vm_compute. repeat constructor.
Defined.

End Session.
